(** * dynlite-experiments: the workload and consistency-probing harness

    A shallow embedding of the Python harness under
    [dynlite-experiments/src]: the HTTP client wrapper ([client.py]), the
    configuration records ([config.py]) and the probes
    ([experiments/perf_ycsb.py], [sac.py], [staleness.py],
    [anti_entropy.py]); then the chaos workload ([experiments/chaos.py]),
    the functional test ([experiments/functional.py]), the sanity check
    of [runner.py], the data of the figures ([plots/all_plots.py]) and
    the latency CDF of [bench/scripts/plot_latencies.py].

    The remote store, the clock and the random generator are the
    environment.  Every call into them is modelled by the value it
    returned (or the exception it raised), passed in as data; a probe loop
    therefore runs over the list of what the environment supplied at each
    iteration.

    Numbers: clock readings, latencies and throughput are exact
    rationals.  The products [int(f * n)] that index the sorted
    latencies are computed in IEEE 754 binary64, as Python does, and
    shown below to be the integer part of the exact fraction for every
    length under [2 ^ 40]. *)

From Stdlib Require Import ZArith QArith Qabs Qminmax Qround List Lia Bool.
From Stdlib Require Import DecimalString Lqa.
From Stdlib Require Import Floats.SpecFloat.
From stdpp Require Import gmap strings list sorting.

Set Warnings "-register-all".

(** ** Python primitives *)

Module Py.

(** The exceptions the harness can see. *)
Inductive exn : Type :=
  | TransportError
  | HTTPStatusError (status : Z)
  | JSONDecodeError
  | AttributeError
  | TypeError
  | ValueError
  | RuntimeError (msg : string)
  | IndexError
  | OverflowError
  | KeyError (key : string).

(** A computation either returns or raises. *)
Inductive Exc (A : Type) : Type :=
  | Ok (a : A)
  | Raise (e : exn).
Arguments Ok {A} a.
Arguments Raise {A} e.

Definition bind {A B : Type} (m : Exc A) (k : A -> Exc B) : Exc B :=
  match m with
  | Ok a => k a
  | Raise e => Raise e
  end.

Definition is_ok {A : Type} (m : Exc A) : bool :=
  match m with Ok _ => true | Raise _ => false end.

(** [int(ok)] on a bool. *)
Definition int_of_bool (b : bool) : Z := if b then 1%Z else 0%Z.

(** [int(x)] on a number: truncation toward zero. *)
Definition int_of_Q (x : Q) : Z := Z.quot (Qnum x) (Z.pos (Qden x)).

(** [str(n)] on an int. *)
Definition str (n : Z) : string := NilZero.string_of_int (Z.to_int n).

(** [l[i]]: a negative index counts from the end, anything outside
    [-len(l) .. len(l)-1] raises [IndexError]. *)
Definition getitem {A : Type} (l : list A) (i : Z) : Exc A :=
  let n := Z.of_nat (length l) in
  let j := if (i <? 0)%Z then (n + i)%Z else i in
  if (j <? 0)%Z then Raise IndexError
  else match l !! Z.to_nat j with
       | Some x => Ok x
       | None => Raise IndexError
       end.

(** [x < y] on numbers. *)
Definition Qltb (x y : Q) : bool := negb (Qle_bool y x).
Arguments Qltb : simpl never.

(** [sorted(l)] on numbers.  Python's sort is stable and compares with
    [<] only; a stable sort has one possible result, computed here by
    insertion: an element goes in front of the first one that is not
    smaller, so equal elements keep their order. *)
Fixpoint insert (x : Q) (l : list Q) : list Q :=
  match l with
  | [] => [x]
  | y :: l' => if Qltb y x then y :: insert x l' else x :: l
  end.

Definition sorted (l : list Q) : list Q := foldr insert [] l.

(** [max(l)] and [min(l)] on ints; [ValueError] on an empty sequence. *)
Definition max_of (l : list Z) : Exc Z :=
  match l with
  | [] => Raise ValueError
  | x :: l' => Ok (foldl Z.max x l')
  end.

Definition min_of (l : list Z) : Exc Z :=
  match l with
  | [] => Raise ValueError
  | x :: l' => Ok (foldl Z.min x l')
  end.

(** *** Binary64 floats

    [float] is IEEE 754 binary64; products are rounded to nearest, ties
    to even, as [SFmul] specifies. *)
Definition prec : Z := 53.
Definition emax : Z := 1024.

Definition float_of_int (n : Z) : spec_float := binary_normalize prec emax n 0 false.
Definition float_mul : spec_float -> spec_float -> spec_float := SFmul prec emax.
Definition float_div : spec_float -> spec_float -> spec_float := SFdiv prec emax.

(** The literals [0.5], [0.95] and [0.99]: the doubles nearest to the
    decimal fractions. *)
Definition lit_0_5 : spec_float := S754_finite false 4503599627370496 (-53).
Definition lit_0_95 : spec_float := S754_finite false 8556839292003942 (-53).
Definition lit_0_99 : spec_float := S754_finite false 8917127262193582 (-53).

(** [int(x)] on a float: truncation toward zero; infinities and NaN
    raise. *)
Definition int_of_float (x : spec_float) : Exc Z :=
  match x with
  | S754_zero _ => Ok 0%Z
  | S754_finite s m e =>
      let mag := if (0 <=? e)%Z then (Z.pos m * 2 ^ e)%Z
                 else (Z.pos m / 2 ^ (- e))%Z in
      Ok (if s then (- mag)%Z else mag)
  | S754_infinity _ => Raise OverflowError
  | S754_nan => Raise ValueError
  end.

(** [math.floor(x)] on a float. *)
Definition floor_of_float (x : spec_float) : Exc Z :=
  match x with
  | S754_zero _ => Ok 0%Z
  | S754_finite s m e =>
      if (0 <=? e)%Z then Ok (if s then (- (Z.pos m * 2 ^ e))%Z else (Z.pos m * 2 ^ e)%Z)
      else Ok (if s then (- ((Z.pos m + 2 ^ (- e) - 1) / 2 ^ (- e)))%Z
               else (Z.pos m / 2 ^ (- e))%Z)
  | S754_infinity _ => Raise OverflowError
  | S754_nan => Raise ValueError
  end.

End Py.

#[global] Instance byte_eq_decision : EqDecision Byte.byte := Byte.byte_eq_dec.
#[global] Instance exc_ret : MRet Py.Exc := fun A a => Py.Ok a.
#[global] Instance exc_bind : MBind Py.Exc := fun A B k m => Py.bind m k.

(** ** client.py *)

Module Client.
Import Py.

(** A decoded JSON document, as [resp.json()] returns it.  An object is
    the list of the items of the resulting dict. *)
Inductive JSON : Type :=
  | JNull
  | JBool (b : bool)
  | JInt (z : Z)
  | JFloat (q : Q)
  | JStr (s : string)
  | JArr (l : list JSON)
  | JObj (o : list (string * JSON)).

(** [bool(x)]: Python truthiness. *)
Definition truthy (x : JSON) : bool :=
  match x with
  | JNull => false
  | JBool b => b
  | JInt z => negb (z =? 0)%Z
  | JFloat q => negb (Qeq_bool q 0)
  | JStr s => negb (String.eqb s "")
  | JArr l => match l with [] => false | _ => true end
  | JObj o => match o with [] => false | _ => true end
  end.

Fixpoint items_get (o : list (string * JSON)) (k : string) : option JSON :=
  match o with
  | [] => None
  | (k', v) :: o' => if String.eqb k' k then Some v else items_get o' k
  end.

(** [data.get(k, default)]; only a dict has [.get]. *)
Definition dict_get (data : JSON) (k : string) (default : JSON) : Exc JSON :=
  match data with
  | JObj o => Ok (match items_get o k with Some v => v | None => default end)
  | _ => Raise AttributeError
  end.

(** An HTTP response: the status line and the body, [None] when the body
    is not a JSON document (then [resp.json()] raises). *)
Record Response : Type := mkResponse {
    status_code : Z;
    body : option JSON
  }.

(** A request as handed to httpx. *)
Record Request : Type := mkRequest {
    method : string;
    path : string;
    headers : list (string * string);
    params : list (string * string);
    json_body : option JSON
  }.

(** httpx's [raise_for_status]: anything but 2xx raises. *)
Definition raise_for_status (resp : Response) : Exc unit :=
  if ((200 <=? status_code resp) && (status_code resp <=? 299))%Z
  then Ok tt
  else Raise (HTTPStatusError (status_code resp)).

Definition resp_json (resp : Response) : Exc JSON :=
  match body resp with
  | Some j => Ok j
  | None => Raise JSONDecodeError
  end.

Record KvReadResult : Type := mkKvReadResult {
    found : bool;
    value : option (list Byte.byte);
    clock : gmap string Z
  }.

Definition not_found : KvReadResult :=
  {| found := false; value := None; clock := ∅ |}.

(** Library functions taken as given: [base64.b64encode] on bytes,
    [base64.b64decode] on a [str] and [int] on a [str]; [None] stands
    for the exception the last two raise on a malformed argument. *)
Class Lib : Type := {
    b64encode : list Byte.byte -> string;
    b64decode : string -> option (list Byte.byte);
    int_of_str : string -> option Z
  }.

Section Get.
Context `{Lib}.

(** [base64.b64decode(value_b64)] inside the [try]: every exception
    becomes the [RuntimeError] of the [except] clause. *)
Definition decode_value (key : string) (value_b64 : JSON) : Exc (list Byte.byte) :=
  match value_b64 with
  | JStr s =>
      match b64decode s with
      | Some raw => Ok raw
      | None => Raise (RuntimeError ("Failed to decode Base64 value for key=" +:+ key))
      end
  | _ => Raise (RuntimeError ("Failed to decode Base64 value for key=" +:+ key))
  end.

(** [int(v)] on a JSON value. *)
Definition int_of_json (v : JSON) : Exc Z :=
  match v with
  | JInt z => Ok z
  | JBool b => Ok (int_of_bool b)
  | JFloat q => Ok (int_of_Q q)
  | JStr s => match int_of_str s with Some z => Ok z | None => Raise ValueError end
  | JNull | JArr _ | JObj _ => Raise TypeError
  end.

(** [{k: int(v) for k, v in clock_raw.items()}] *)
Fixpoint clock_of_items (its : list (string * JSON)) (acc : gmap string Z)
  : Exc (gmap string Z) :=
  match its with
  | [] => Ok acc
  | (k, v) :: its' =>
      z ← int_of_json v;
      clock_of_items its' (<[k := z]> acc)
  end.

Definition clock_of (clock_raw : JSON) : Exc (gmap string Z) :=
  match clock_raw with
  | JObj its => clock_of_items its ∅
  | _ => Raise AttributeError
  end.

Definition get_request (key : string) : Request :=
  {| method := "GET"; path := "/kv/" +:+ key; headers := [];
     params := []; json_body := None |}.

(** [DynLiteHttpClient.get] *)
Definition get (http : Request -> Exc Response) (key : string) : Exc KvReadResult :=
  resp ← http (get_request key);
  if (status_code resp =? 404)%Z then Ok not_found
  else
    _ ← raise_for_status resp;
    data ← resp_json resp;
    found_raw ← dict_get data "found" (JBool false);
    if negb (truthy found_raw) then Ok not_found
    else
      value_b64 ← dict_get data "valueBase64" JNull;
      match value_b64 with
      | JNull => Ok not_found
      | _ =>
          raw ← decode_value key value_b64;
          clock_raw0 ← dict_get data "vectorClock" (JObj []);
          let clock_raw := if truthy clock_raw0 then clock_raw0 else JObj [] in
          clock ← clock_of clock_raw;
          Ok {| found := true; value := Some raw; clock := clock |}
      end.

End Get.

(** The node's HTTP endpoint: what a request sent now would come back
    with, a response or a transport error raised by httpx. *)
Definition Transport : Type := Request -> Exc Response.

Definition put_request `{Lib} (key : string) (value : list Byte.byte)
    (coord_node_id : option string) : Request :=
  let payload := [("valueBase64", JStr (b64encode value))] in
  let payload :=
    match coord_node_id with
    | Some id => if negb (String.eqb id "") then payload ++ [("nodeId", JStr id)] else payload
    | None => payload
    end in
  {| method := "PUT"; path := "/kv/" +:+ key; headers := [];
     params := []; json_body := Some (JObj payload) |}.

(** [DynLiteHttpClient.put]: only the transport and [raise_for_status]
    can raise. *)
Definition put `{Lib} (http : Transport) (key : string) (value : list Byte.byte)
    (coord_node_id : option string) : Exc unit :=
  resp ← http (put_request key value coord_node_id);
  raise_for_status resp.

(** The request of [DynLiteHttpClient.delete]: the body
    [json.dumps(payload)] and its [Content-Type] header are sent only
    when the payload has a [nodeId]. *)
Definition delete_request (key : string) (coord_node_id : option string) : Request :=
  let payload :=
    match coord_node_id with
    | Some id => if negb (String.eqb id "") then [("nodeId", JStr id)] else []
    | None => []
    end in
  match payload with
  | [] => {| method := "DELETE"; path := "/kv/" +:+ key; headers := [];
             params := []; json_body := None |}
  | _ :: _ => {| method := "DELETE"; path := "/kv/" +:+ key;
                 headers := [("Content-Type", "application/json")];
                 params := []; json_body := Some (JObj payload) |}
  end.

(** [DynLiteHttpClient.delete] *)
Definition delete (http : Transport) (key : string) (coord_node_id : option string)
  : Exc unit :=
  resp ← http (delete_request key coord_node_id);
  raise_for_status resp.

End Client.

(** ** config.py *)

Module Config.
Import Py.

Record NodeConfig : Type := mkNodeConfig {
    name : string;
    base_url : string
  }.

Record ClusterConfig : Type := mkClusterConfig {
    nodes : list NodeConfig
  }.

Definition primary (c : ClusterConfig) : Exc NodeConfig :=
  match nodes c with
  | [] => Raise (RuntimeError "ClusterConfig.nodes is empty")
  | n :: _ => Ok n
  end.

Definition DEFAULT_CLUSTER : ClusterConfig :=
  {| nodes := [ mkNodeConfig "node-a" "http://localhost:8080";
                mkNodeConfig "node-b" "http://localhost:8081";
                mkNodeConfig "node-c" "http://localhost:8082" ] |}.

Record SloConfig : Type := mkSloConfig {
    tight_deadline_ms : Z;
    relaxed_deadline_ms : Z;
    deadline_header_name : string
  }.

Definition default_slo : SloConfig :=
  {| tight_deadline_ms := 20; relaxed_deadline_ms := 100;
     deadline_header_name := "X-Deadline-Ms" |}.

Record StalenessConfig : Type := mkStalenessConfig {
    delays_ms : list Z;
    trials_per_delay : Z
  }.

Definition default_staleness : StalenessConfig :=
  {| delays_ms := [0; 10; 20; 50; 100; 200; 500; 1000]%Z; trials_per_delay := 50 |}.

Record AntiEntropyConfig : Type := mkAntiEntropyConfig {
    observation_seconds : Z;
    sample_interval_seconds : Z;
    leaf_count : Z;
    write_burst_keys : Z
  }.

Definition default_anti_entropy : AntiEntropyConfig :=
  {| observation_seconds := 30; sample_interval_seconds := 1;
     leaf_count := 1024; write_burst_keys := 200 |}.

Record ExperimentConfig : Type := mkExperimentConfig {
    cluster : ClusterConfig;
    slo : SloConfig;
    staleness : StalenessConfig;
    anti_entropy : AntiEntropyConfig
  }.

Definition CONFIG : ExperimentConfig :=
  {| cluster := DEFAULT_CLUSTER; slo := default_slo;
     staleness := default_staleness; anti_entropy := default_anti_entropy |}.

(** [ClusterConfig.by_name]: the first node with that name; the
    [KeyError] carries the name that was asked for. *)
Fixpoint by_name_in (ns : list NodeConfig) (n : string) : Exc NodeConfig :=
  match ns with
  | [] => Raise (KeyError n)
  | m :: ns' => if String.eqb (name m) n then Ok m else by_name_in ns' n
  end.

Definition by_name (c : ClusterConfig) (n : string) : Exc NodeConfig :=
  by_name_in (nodes c) n.
End Config.

(** ** The dict of node clients

    A Python dict keeps its keys in insertion order, and assigning to a
    key that is present replaces the value in place. *)

Module Dict.
Import Py.

Definition t (V : Type) : Type := list (string * V).

Fixpoint set {V : Type} (d : t V) (k : string) (v : V) : t V :=
  match d with
  | [] => [(k, v)]
  | (k', v') :: d' => if String.eqb k' k then (k, v) :: d' else (k', v') :: set d' k v
  end.

Fixpoint lookup {V : Type} (d : t V) (k : string) : Exc V :=
  match d with
  | [] => Raise (KeyError k)
  | (k', v) :: d' => if String.eqb k' k then Ok v else lookup d' k
  end.

Definition keys {V : Type} (d : t V) : list string := map fst d.
End Dict.

(** [build_cluster_clients] of client.py: one client per configured node,
    keyed by node name.  A client is identified with the node it talks
    to. *)
Definition build_cluster_clients (c : Config.ClusterConfig) : Dict.t Config.NodeConfig :=
  foldl (fun clients node => Dict.set clients (Config.name node) node) [] (Config.nodes c).

(** [random.choice(seq)] with the drawn position [i]. *)
Definition choice {A : Type} (l : list A) (i : nat) : Py.Exc A :=
  match l !! i with
  | Some x => Py.Ok x
  | None => Py.Raise Py.IndexError
  end.

(** ** The percentile lines

    [run_perf_ycsb] (perf_ycsb.py, lines 105-108) and [run_sac] (sac.py,
    lines 110-113) compute the three percentiles with the same four
    statements, reproduced here once. *)

Module Stats.
Import Py.

(** [int(f * len(latencies_sorted))] *)
Definition scaled_len (f : spec_float) (n : nat) : Exc Z :=
  int_of_float (float_mul f (float_of_int (Z.of_nat n))).

Definition percentiles (latencies : list Q) : Exc (Q * Q * Q) :=
  let latencies_sorted := sorted latencies in
  i50 ← scaled_len lit_0_5 (length latencies_sorted);
  p50 ← getitem latencies_sorted i50;
  i95 ← scaled_len lit_0_95 (length latencies_sorted);
  p95 ← getitem latencies_sorted (i95 - 1);
  i99 ← scaled_len lit_0_99 (length latencies_sorted);
  p99 ← getitem latencies_sorted (i99 - 1);
  Ok (p50, p95, p99).
End Stats.

(** ** experiments/perf_ycsb.py *)

Module PerfYcsb.
Import Py Client.

Inductive Op : Type := GET | PUT.

Definition _choose_op (mix : Q * Q) (x : Q) : Op :=
  let '(p_read, p_write) := mix in
  if Qltb x p_read then GET else PUT.

Record RequestRecord : Type := mkRequestRecord {
    workload : string;
    concurrency : Z;
    node : string;
    op : Op;
    ok : Z;
    latency_ms : Q;
    t_start_ms : Z;
    t_end_ms : Z
  }.

(** What the environment supplies to one pass of the worker loop: the
    clock read by the loop test, the random draws, the two clock reads
    around the request and the endpoint's behaviour. *)
Record Step : Type := mkStep {
    now : Q;
    x : Q;
    key_draw : nat;
    node_draw : nat;
    rand_value : list Byte.byte;
    t_start : Q;
    http : Transport;
    t_end : Q
  }.

Section Worker.
Context `{Lib}.
Variable workload_name : string.
Variable mix : Q * Q.
Variable concurrency_ : Z.
Variable stop_at : Q.
Variable keys : list string.
Variable clients : Dict.t Config.NodeConfig.

(** The body of the [while] loop of [worker_thread]. *)
Definition worker_iteration (st : Step) : Exc RequestRecord :=
  let node_names := Dict.keys clients in
  let op := _choose_op mix (x st) in
  key ← choice keys (key_draw st);
  node_name ← choice node_names (node_draw st);
  client ← Dict.lookup clients node_name;
  let ok :=
    match op with
    | GET => is_ok (get (http st) key)
    | PUT => is_ok (put (http st) key (rand_value st) (Some node_name))
    end in
  Ok {| workload := workload_name;
        concurrency := concurrency_;
        node := node_name;
        op := op;
        ok := int_of_bool ok;
        latency_ms := ((t_end st - t_start st) * 1000)%Q;
        t_start_ms := int_of_Q (t_start st * 1000)%Q;
        t_end_ms := int_of_Q (t_end st * 1000)%Q |}.

(** [worker_thread]: the records this worker appends, in order, and
    how it ended.  The list of steps is the part of the run the
    environment has supplied so far. *)
Fixpoint worker_thread (steps : list Step) : list RequestRecord * Exc unit :=
  match steps with
  | [] => ([], Ok tt)
  | st :: steps' =>
      if Qltb (now st) stop_at then
        match worker_iteration st with
        | Ok rec =>
            let '(recs, r) := worker_thread steps' in (rec :: recs, r)
        | Raise e => ([], Raise e)
        end
      else ([], Ok tt)
  end.
End Worker.

(** One line of the text summary for a (workload, concurrency) run. *)
Inductive Summary : Type :=
  | NoSuccessfulRequests
  | Stats (ops : nat) (throughput p50 p95 p99 : Q).

(** Lines 94-113 of [run_perf_ycsb]. *)
Definition summarize (run_records : list RequestRecord) : Exc Summary :=
  let latencies :=
    map latency_ms (filter (fun r => ok r ≠ 0%Z) run_records) in
  match latencies with
  | [] => Ok NoSuccessfulRequests
  | _ =>
      t_max ← max_of (map t_end_ms run_records);
      t_min ← min_of (map t_start_ms run_records);
      let duration_ms := (t_max - t_min)%Z in
      let duration_s := Qmax (inject_Z duration_ms / 1000)%Q (1 / 1000000)%Q in
      let throughput := (inject_Z (Z.of_nat (length run_records)) / duration_s)%Q in
      '(p50, p95, p99) ← Stats.percentiles latencies;
      Ok (Stats (length run_records) throughput p50 p95 p99)
  end.
End PerfYcsb.

(** ** experiments/sac.py *)

Module Sac.
Import Py Client.

Record SacRecord : Type := mkSacRecord {
    node : string;
    class : string;
    deadline_ms : Z;
    latency_ms : Q;
    ok : Z;
    t_start_ms : Z;
    t_end_ms : Z
  }.

Record Step : Type := mkStep {
    now : Q;
    key_draw : nat;
    node_draw : nat;
    x : Q;
    t_start : Q;
    http : Transport;
    t_end : Q
  }.

Definition num_keys : nat := Z.to_nat 10000.
Definition keys : list string :=
  map (fun i => "sac-" +:+ str (Z.of_nat i)) (seq 0 num_keys).
Definition duration_sec : Q := 15%Q.

(** A line of the quick summary. *)
Inductive ClassSummary : Type :=
  | NoSuccessful (cls : string)
  | ClassStats (cls : string) (n : nat) (p50 p95 p99 : Q).

(** The files a run leaves behind; [None] for a file that was never
    opened. *)
Record Files : Type := mkFiles {
    txt : option (list ClassSummary);
    csv : option (list SacRecord)
  }.

Section Run.
Context `{Lib}.
Variable slo : Config.SloConfig.
Variable cluster : Config.ClusterConfig.

Definition choose_deadline (x : Q) : string * Z :=
  if Qltb x (1 # 2) then ("tight", Config.tight_deadline_ms slo)
  else ("relaxed", Config.relaxed_deadline_ms slo).

(** The read carrying the deadline header. *)
Definition sac_request (key : string) (deadline : Z) : Request :=
  {| method := "GET"; path := "/kv/" +:+ key;
     headers := [(Config.deadline_header_name slo, str deadline)];
     params := []; json_body := None |}.

(** The body of the [while] loop: the request it issues and the
    record it appends. *)
Definition iteration (node_names : list string) (st : Step)
  : Exc (Request * SacRecord) :=
  key ← choice keys (key_draw st);
  node_name ← choice node_names (node_draw st);
  let '(cls, deadline) := choose_deadline (x st) in
  let req := sac_request key deadline in
  let ok :=
    match http st req with
    | Ok resp => (status_code resp =? 200)%Z || (status_code resp =? 404)%Z
    | Raise _ => false
    end in
  Ok (req,
      {| node := node_name;
         class := cls;
         deadline_ms := deadline;
         latency_ms := ((t_end st - t_start st) * 1000)%Q;
         ok := int_of_bool ok;
         t_start_ms := int_of_Q (t_start st * 1000)%Q;
         t_end_ms := int_of_Q (t_end st * 1000)%Q |}).

Fixpoint loop (stop_at : Q) (node_names : list string) (steps : list Step)
  : Exc (list (Request * SacRecord)) :=
  match steps with
  | [] => Ok []
  | st :: steps' =>
      if Qltb (now st) stop_at then
        r ← iteration node_names st;
        rs ← loop stop_at node_names steps';
        Ok (r :: rs)
      else Ok []
  end.

(** The population pass: the puts go through the primary's client,
    outside any [try]; [init i] is the primary's endpoint at the
    [i]-th put. *)
Fixpoint populate (primary_name : string) (init : nat -> Transport) (i : nat)
  (ks : list string) : Exc unit :=
  match ks with
  | [] => Ok tt
  | k :: ks' =>
      _ ← put (init i) k (String.list_byte_of_string ("sac-init-" +:+ k))
            (Some primary_name);
      populate primary_name init (S i) ks'
  end.

Definition class_summary (records : list SacRecord) (cls : string) : Exc ClassSummary :=
  let lat :=
    map latency_ms
        (filter (fun r => class r = cls ∧ ok r ≠ 0%Z) records) in
  match lat with
  | [] => Ok (NoSuccessful cls)
  | _ =>
      '(p50, p95, p99) ← Stats.percentiles lat;
      Ok (ClassStats cls (length lat) p50 p95 p99)
  end.

(** [run_sac]: [init] answers the population puts, [t0] is the clock
    when the deadline is set, [steps] drive the loop. *)
Definition run_sac (init : nat -> Transport) (t0 : Q) (steps : list Step)
  : Exc unit * Files :=
  let nothing := {| txt := None; csv := None |} in
  match Config.primary cluster with
  | Raise e => (Raise e, nothing)
  | Ok primary =>
      let node_names := map Config.name (Config.nodes cluster) in
      match populate (Config.name primary) init 0 (take 2000 keys) with
      | Raise e => (Raise e, nothing)
      | Ok _ =>
          let stop_at := (t0 + duration_sec)%Q in
          match loop stop_at node_names steps with
          | Raise e => (Raise e, {| txt := Some []; csv := None |})
          | Ok rs =>
              let records := map snd rs in
              match class_summary records "tight" with
              | Raise e => (Raise e, {| txt := Some []; csv := None |})
              | Ok s1 =>
                  match class_summary records "relaxed" with
                  | Raise e => (Raise e, {| txt := Some [s1]; csv := None |})
                  | Ok s2 => (Ok tt, {| txt := Some [s1; s2]; csv := Some records |})
                  end
              end
          end
      end
  end.
End Run.
End Sac.

(** ** experiments/staleness.py *)

Module Staleness.
Import Py Client.

Record TrialRecord : Type := mkTrialRecord {
    delay_ms : Z;
    read_node : string;
    is_stale : Z
  }.

(** What the environment supplies to one trial: the nanosecond clock
    that makes the payload unique, the primary's endpoint at the write,
    the draw of the read node and that node's endpoint after the
    sleep. *)
Record Trial : Type := mkTrial {
    time_ns : Z;
    put_http : Transport;
    node_draw : nat;
    get_http : Transport
  }.

(** The per-delay line of the text summary. *)
Record DelayLine : Type := mkDelayLine {
    line_delay : Z;
    line_stale : Z;
    line_total : Z;
    line_frac : Q
  }.

Record Files : Type := mkFiles {
    txt : option (list DelayLine);
    csv : option (list TrialRecord)
  }.

(** Lines 63-67: the classification of one read. *)
Definition classify (r : KvReadResult) (expected_value : list Byte.byte) : Z :=
  let is_stale := 1%Z in
  if found r && bool_decide (value r = Some expected_value) then 0%Z
  else if negb (found r) then 1%Z
  else is_stale.

Section Run.
Context `{Lib}.
Variable clients : Dict.t Config.NodeConfig.
Variable primary_name : string.
Variable key : string.

Definition expected_value_of (d : Z) (tr : Trial) : list Byte.byte :=
  String.list_byte_of_string ("v-" +:+ str d +:+ "-" +:+ str (time_ns tr)).

(** The body of the inner [for]: write, (sleep), read, classify. *)
Definition trial (d : Z) (tr : Trial) : Exc TrialRecord :=
  let node_names := Dict.keys clients in
  let expected_value := expected_value_of d tr in
  _ ← put (put_http tr) key expected_value (Some primary_name);
  read_node ← choice node_names (node_draw tr);
  _ ← Dict.lookup clients read_node;
  r ← get (get_http tr) key;
  Ok {| delay_ms := d; read_node := read_node;
        is_stale := classify r expected_value |}.

(** The inner [for _ in range(trials)], with its three running
    variables. *)
Fixpoint trials_loop (d : Z) (env : nat -> Trial) (idxs : list nat)
    (acc : Z * Z * list TrialRecord) : Exc (Z * Z * list TrialRecord) :=
  match idxs with
  | [] => Ok acc
  | i :: idxs' =>
      let '(stale_count, total, records) := acc in
      let total := (total + 1)%Z in
      rec ← trial d (env i);
      let stale_count :=
        if bool_decide (is_stale rec ≠ 0%Z) then (stale_count + 1)%Z else stale_count in
      trials_loop d env idxs' (stale_count, total, records ++ [rec])
  end.

(** The outer [for d in delays]: the summary lines written so far
    survive an exception, the records do not. *)
Fixpoint delays_loop (trials : Z) (delays : list Z) (k : nat) (env : nat -> nat -> Trial)
    (records : list TrialRecord) (lines : list DelayLine)
  : list DelayLine * Exc (list TrialRecord) :=
  match delays with
  | [] => (lines, Ok records)
  | d :: delays' =>
      match trials_loop d (env k) (seq 0 (Z.to_nat trials)) (0%Z, 0%Z, records) with
      | Raise e => (lines, Raise e)
      | Ok (stale_count, total, records') =>
          let frac := (inject_Z stale_count / inject_Z (Z.max total 1))%Q in
          delays_loop trials delays' (S k) env records'
            (lines ++ [mkDelayLine d stale_count total frac])
      end
  end.
End Run.

(** [run_staleness]: [token] is the random suffix of the test key,
    [env k i] drives trial [i] of the [k]-th delay. *)
Definition run_staleness `{Lib} (cfg : Config.ExperimentConfig)
    (clients : Dict.t Config.NodeConfig) (token : string) (env : nat -> nat -> Trial)
  : Exc unit * Files :=
  let nothing := {| txt := None; csv := None |} in
  match Config.primary (Config.cluster cfg) with
  | Raise e => (Raise e, nothing)
  | Ok primary =>
      match Dict.lookup clients (Config.name primary) with
      | Raise e => (Raise e, nothing)
      | Ok _ =>
          let delays := Config.delays_ms (Config.staleness cfg) in
          let trials := Config.trials_per_delay (Config.staleness cfg) in
          let key := "stale-" +:+ token in
          match delays_loop clients (Config.name primary) key trials delays 0 env [] [] with
          | (lines, Raise e) => (Raise e, {| txt := Some lines; csv := None |})
          | (lines, Ok records) => (Ok tt, {| txt := Some lines; csv := Some records |})
          end
      end
  end.
End Staleness.

(** ** experiments/anti_entropy.py *)

Module AntiEntropy.
Import Py Client.

(** The part of the snapshot document the probe reads: the root digest,
    a Base64 string when the store sends one. *)
Record MerkleSnapshot : Type := mkMerkleSnapshot {
    rootHashBase64 : option string
  }.

Record Sample : Type := mkSample {
    t_offset_s : Q;
    node_a : string;
    node_b : string;
    root_a : string;
    root_b : string;
    in_sync : Z
  }.

(** What the environment supplies to one pass of the observation loop:
    the clock of the loop test, the clock read inside, and what
    [fetch_merkle_snapshot] does on each node's client. *)
Record Tick : Type := mkTick {
    t_check : Q;
    t_now : Q;
    fetch : string -> Exc MerkleSnapshot
  }.

Record Files : Type := mkFiles {
    txt : bool;
    csv : option (list Sample)
  }.

(** [for name in node_names: roots[name] = snap.get("rootHashBase64", "")] *)
Fixpoint snapshot_roots (fetch : string -> Exc MerkleSnapshot) (names : list string)
    (roots : gmap string string) : Exc (gmap string string) :=
  match names with
  | [] => Ok roots
  | name :: names' =>
      snap ← fetch name;
      snapshot_roots fetch names' (<[name := default "" (rootHashBase64 snap)]> roots)
  end.

(** [roots[n]] *)
Definition roots_get (roots : gmap string string) (n : string) : Exc string :=
  match roots !! n with
  | Some r => Ok r
  | None => Raise (KeyError n)
  end.

(** The body of the two nested [for] loops at positions [i < j]. *)
Definition pair_sample (t_offset : Q) (node_names : list string)
    (roots : gmap string string) (ij : nat * nat) : Exc Sample :=
  n1 ← getitem node_names (Z.of_nat ij.1);
  n2 ← getitem node_names (Z.of_nat ij.2);
  r1 ← roots_get roots n1;
  r2 ← roots_get roots n2;
  Ok {| t_offset_s := t_offset; node_a := n1; node_b := n2;
        root_a := r1; root_b := r2;
        in_sync := int_of_bool (String.eqb r1 r2) |}.

(** [for i in range(len): for j in range(i + 1, len)] *)
Definition index_pairs (len : nat) : list (nat * nat) :=
  i ← seq 0 len; j ← seq (i + 1) (len - (i + 1)); [(i, j)].

Fixpoint collect {A B : Type} (f : A -> Exc B) (l : list A) : Exc (list B) :=
  match l with
  | [] => Ok []
  | a :: l' => b ← f a; bs ← collect f l'; Ok (b :: bs)
  end.

(** One pass of the observation loop. *)
Definition observe_once (node_names : list string) (start_time : Q) (tk : Tick)
  : Exc (list Sample) :=
  let t_offset := (t_now tk - start_time)%Q in
  roots ← snapshot_roots (fetch tk) node_names ∅;
  collect (pair_sample t_offset node_names roots) (index_pairs (length node_names)).

Fixpoint observe (node_names : list string) (start_time end_time : Q) (ticks : list Tick)
  : Exc (list Sample) :=
  match ticks with
  | [] => Ok []
  | tk :: ticks' =>
      if Qltb (t_check tk) end_time then
        samples ← observe_once node_names start_time tk;
        rest ← observe node_names start_time end_time ticks';
        Ok (samples ++ rest)
      else Ok []
  end.


End AntiEntropy.

(** ** plots/all_plots.py

    The plotting pass recomputes the percentiles of the same latencies
    with its own helper. *)

Module Plots.
Import Py.

(** [pct(p)]: [idx = max(0, min(n - 1, floor(p * n) - 1))]. *)
Definition pct (lats_sorted : list Q) (p : spec_float) : Exc Q :=
  let n := Z.of_nat (length lats_sorted) in
  fl ← floor_of_float (float_mul p (float_of_int n));
  let idx := Z.max 0 (Z.min (n - 1) (fl - 1)) in
  getitem lats_sorted idx.
End Plots.

(** ** Rounding, specified on integers

    What the shifts and the rounding of [binary_round_aux] compute, stated
    with integer division; the float lemmas below reduce the products of
    the percentile lines to these. *)

Module Round.
Local Open Scope Z_scope.

(** The round and sticky bits after [k] shifts of [M]. *)
Definition round_bit (M : Z) (k : nat) : bool := 2 ^ Z.of_nat k <=? 2 * (M mod 2 ^ Z.of_nat k).
Definition sticky_bit (M : Z) (k : nat) : bool :=
  negb ((M mod 2 ^ Z.of_nat k =? 0) || (2 * (M mod 2 ^ Z.of_nat k) =? 2 ^ Z.of_nat k)).

(** Round to nearest, ties to even, after dropping [s] low bits. *)
Definition rne (M s : Z) : Z :=
  let q := M / 2 ^ s in
  let R := M mod 2 ^ s in
  if 2 * R <? 2 ^ s then q
  else if 2 ^ s <? 2 * R then q + 1
  else if Z.even q then q else q + 1.

(** The float a product mantissa [P] with [53 + s] digits rounds to. *)
Definition rounded (P : positive) (s : positive) (e : Z) : spec_float :=
  let q := rne (Z.pos P) (Z.pos s) in
  if q =? 2 ^ 53 then S754_finite false (2 ^ 52)%positive (e + Z.pos s + 1)
  else S754_finite false (Z.to_pos q) (e + Z.pos s).

End Round.

(** ** Statements and scenarios

    The properties the summaries are checked against, and the concrete
    runs used below. *)

(** Scenario D: five successful requests. *)
Definition scenario_D : list Q := [10; 20; 30; 40; 50]%Q.

(** The summary of a run reports a throughput: the number of records,
    failures included, over the span from the earliest start to the
    latest end, floored at a microsecond, and that figure is positive. *)
Definition reports_throughput (run_records : list PerfYcsb.RequestRecord) : Prop :=
  exists t_max t_min throughput p50 p95 p99,
    Py.max_of (map PerfYcsb.t_end_ms run_records) = Py.Ok t_max
    /\ Py.min_of (map PerfYcsb.t_start_ms run_records) = Py.Ok t_min
    /\ PerfYcsb.summarize run_records
       = Py.Ok (PerfYcsb.Stats (length run_records) throughput p50 p95 p99)
    /\ (throughput ==
          inject_Z (Z.of_nat (length run_records))
          / Qmax (inject_Z (t_max - t_min) / 1000) (1 / 1000000))%Q
    /\ (0 < throughput)%Q.

(** The span of a run is positive. *)
Definition positive_span (run_records : list PerfYcsb.RequestRecord) : Prop :=
  exists t_max t_min,
    Py.max_of (map PerfYcsb.t_end_ms run_records) = Py.Ok t_max
    /\ Py.min_of (map PerfYcsb.t_start_ms run_records) = Py.Ok t_min
    /\ (0 < t_max - t_min)%Z.

(** A run of one request, which failed after five milliseconds. *)
Definition failed_run : list PerfYcsb.RequestRecord :=
  [ {| PerfYcsb.workload := "A"; PerfYcsb.concurrency := 4;
       PerfYcsb.node := "node-a"; PerfYcsb.op := PerfYcsb.GET; PerfYcsb.ok := 0;
       PerfYcsb.latency_ms := 5; PerfYcsb.t_start_ms := 1000;
       PerfYcsb.t_end_ms := 1005 |} ].



(** A table of a few values of the library functions, enough to run the
    examples: the Base64 of [hi] and of the empty string, and [int("7")]. *)
Definition stub_lib : Client.Lib :=
  {| Client.b64encode := fun bs =>
       if decide (bs = String.list_byte_of_string "hi") then "aGk=" else "";
     Client.b64decode := fun s =>
       if String.eqb s "aGk=" then Some (String.list_byte_of_string "hi")
       else if String.eqb s "" then Some [] else None;
     Client.int_of_str := fun s => if String.eqb s "7" then Some 7%Z else None |}.

(** An endpoint that answers every request with [200] and an empty
    object, one that answers [404], and one that is down. *)
Definition http_ok : Client.Transport :=
  fun _ => Py.Ok (Client.mkResponse 200 (Some (Client.JObj []))).
Definition http_404 : Client.Transport :=
  fun _ => Py.Ok (Client.mkResponse 404 None).
Definition http_down : Client.Transport :=
  fun _ => Py.Raise Py.TransportError.

(** One pass of a worker: a read of the only key on the first node,
    started at 12.3456 s and answered 2.2 ms later. *)
Definition one_step : PerfYcsb.Step :=
  {| PerfYcsb.now := 12; PerfYcsb.x := 1 # 4; PerfYcsb.key_draw := 0;
     PerfYcsb.node_draw := 0; PerfYcsb.rand_value := [];
     PerfYcsb.t_start := 123456 # 10000; PerfYcsb.http := http_ok;
     PerfYcsb.t_end := 123478 # 10000 |}.

(** A run of two requests: one answered, one failed. *)
Definition mixed_run : list PerfYcsb.RequestRecord :=
  [ {| PerfYcsb.workload := "A"; PerfYcsb.concurrency := 4;
       PerfYcsb.node := "node-a"; PerfYcsb.op := PerfYcsb.GET; PerfYcsb.ok := 1;
       PerfYcsb.latency_ms := 22 # 10; PerfYcsb.t_start_ms := 1000;
       PerfYcsb.t_end_ms := 1002 |} ] ++ failed_run.

(** *** The loops *)

(** The number of passes a deadline loop makes over what the environment
    supplied: the passes whose clock test came out before [stop_at]. *)
Fixpoint passes {S : Type} (now : S -> Q) (stop_at : Q) (steps : list S) : nat :=
  match steps with
  | [] => 0
  | st :: steps' =>
      if Py.Qltb (now st) stop_at then Datatypes.S (passes now stop_at steps') else 0
  end.

(** [random.random()] returns one of the [2 ^ 53] multiples of
    [2 ^ -53] in [[0, 1)], each as likely as the others. *)
Definition random_outcome (k : Z) : Q := Qmake k (2 ^ 53).

(** The random draws of a pass of the SLO loop are positions of the
    sequences they choose from. *)
Definition sac_draws_in_range (node_names : list string) (st : Sac.Step) : Prop :=
  (Sac.key_draw st < Sac.num_keys)%nat /\ (Sac.node_draw st < length node_names)%nat.

(** The store answered the read: HTTP 200 or 404. *)
Definition sac_answered (sent : Py.Exc Client.Response) : bool :=
  match sent with
  | Py.Ok resp => (Client.status_code resp =? 200)%Z || (Client.status_code resp =? 404)%Z
  | Py.Raise _ => false
  end.

(** What one pass of the SLO loop sends and records: one class with its
    own deadline, the deadline in the configured header of the read, the
    measured latency, and the outcome of the read whatever the deadline. *)
Definition sac_tagged (slo : Config.SloConfig) (st : Sac.Step)
    (sent : Client.Request * Sac.SacRecord) : Prop :=
  let '(req, rec) := sent in
  (if Py.Qltb (Sac.x st) (1 # 2)
   then Sac.class rec = "tight" /\ Sac.deadline_ms rec = Config.tight_deadline_ms slo
   else Sac.class rec = "relaxed" /\ Sac.deadline_ms rec = Config.relaxed_deadline_ms slo)
  /\ Client.method req = "GET"
  /\ Client.headers req
     = [(Config.deadline_header_name slo, Py.str (Sac.deadline_ms rec))]
  /\ Sac.latency_ms rec = ((Sac.t_end st - Sac.t_start st) * 1000)%Q
  /\ Sac.ok rec = Py.int_of_bool (sac_answered (Sac.http st req)).



(** A read of the SLO probe that the store answers with [200] after
    200 ms, ten times the tight budget. *)
Definition late_step : Sac.Step :=
  {| Sac.now := 12; Sac.key_draw := 7; Sac.node_draw := 1; Sac.x := 1 # 4;
     Sac.t_start := 12; Sac.http := http_ok; Sac.t_end := 122 # 10 |}.

(** A read of the SLO probe against a node that is down. *)
Definition down_sac_step : Sac.Step :=
  {| Sac.now := 13; Sac.key_draw := 8; Sac.node_draw := 2; Sac.x := 3 # 4;
     Sac.t_start := 13; Sac.http := http_down; Sac.t_end := 18 |}.

(** A pass of a worker against a node that is down. *)
Definition down_step : PerfYcsb.Step :=
  {| PerfYcsb.now := 11; PerfYcsb.x := 3 # 4; PerfYcsb.key_draw := 0;
     PerfYcsb.node_draw := 1; PerfYcsb.rand_value := [];
     PerfYcsb.t_start := 11; PerfYcsb.http := http_down; PerfYcsb.t_end := 16 |}.

(** Trials of the staleness probe: one whose write and read both go
    through (the read finds nothing), and one whose write hits a node
    that is down. *)
Definition trial_answered : Staleness.Trial :=
  {| Staleness.time_ns := 1700000000000000000; Staleness.put_http := http_ok;
     Staleness.node_draw := 1; Staleness.get_http := http_404 |}.


(** An endpoint that answers a read with a stored value, and the result
    the client decodes from it. *)
Definition http_hi : Client.Transport :=
  fun _ => Py.Ok (Client.mkResponse 200
    (Some (Client.JObj [("found", Client.JBool true);
                        ("valueBase64", Client.JStr "aGk=");
                        ("vectorClock", Client.JObj [("node-a", Client.JInt 1)])]))).
Definition read_hi : Client.KvReadResult :=
  {| Client.found := true;
     Client.value := Some (String.list_byte_of_string "hi");
     Client.clock := <["node-a" := 1%Z]> ∅ |}.

(** Answers with [found] false, and with [found] true but no value. *)
Definition http_found_false : Client.Transport :=
  fun _ => Py.Ok (Client.mkResponse 200
    (Some (Client.JObj [("found", Client.JBool false)]))).
Definition http_no_value : Client.Transport :=
  fun _ => Py.Ok (Client.mkResponse 200
    (Some (Client.JObj [("found", Client.JBool true)]))).

(** *** The staleness probe *)

(** The number of stale trials among some records, as [stale_count]
    counts them. *)
Definition stale_count_of (recs : list Staleness.TrialRecord) : Z :=
  Z.of_nat (length (filter (fun r => Staleness.is_stale r <> 0%Z) recs)).





(** A store with a replication lag: a read right after the write still
    returns the previous value, a read one second later the new one.
    The payloads are the Base64 texts the stub library knows. *)
Definition trial_lagging : Staleness.Trial :=
  {| Staleness.time_ns := 5; Staleness.put_http := http_ok;
     Staleness.node_draw := 2; Staleness.get_http := http_hi |}.

(** *** The convergence probe *)

(** The digest a node returns in a pass, [None] when its snapshot
    request raises. *)
Definition digest_of (tk : AntiEntropy.Tick) (name : string) : option string :=
  match AntiEntropy.fetch tk name with
  | Py.Ok snap => Some (default "" (AntiEntropy.rootHashBase64 snap))
  | Py.Raise _ => None
  end.

(** The sample is the one of the unordered pair [{a, b}]. *)
Definition covers (a b : string) (s : AntiEntropy.Sample) : bool :=
  (String.eqb (AntiEntropy.node_a s) a && String.eqb (AntiEntropy.node_b s) b)
  || (String.eqb (AntiEntropy.node_a s) b && String.eqb (AntiEntropy.node_b s) a).

(** The number of unordered pairs of [n] nodes. *)
Definition pair_count (n : nat) : nat := n * (n - 1) / 2.

(** A sample of a pass: two distinct nodes, the offset of the pass, the
    digests the two nodes returned in it, and their equality as strings. *)
Definition sample_of_pass (node_names : list string) (start_time : Q)
    (tk : AntiEntropy.Tick) (s : AntiEntropy.Sample) : Prop :=
  AntiEntropy.node_a s ∈ node_names
  /\ AntiEntropy.node_b s ∈ node_names
  /\ AntiEntropy.node_a s <> AntiEntropy.node_b s
  /\ AntiEntropy.t_offset_s s = (AntiEntropy.t_now tk - start_time)%Q
  /\ digest_of tk (AntiEntropy.node_a s) = Some (AntiEntropy.root_a s)
  /\ digest_of tk (AntiEntropy.node_b s) = Some (AntiEntropy.root_b s)
  /\ AntiEntropy.in_sync s
     = Py.int_of_bool (String.eqb (AntiEntropy.root_a s) (AntiEntropy.root_b s)).

(** The samples of a pass: exactly one for every unordered pair of
    distinct nodes, each a sample of that pass. *)
Definition pass_sampled (node_names : list string) (start_time : Q)
    (tk : AntiEntropy.Tick) (samples : list AntiEntropy.Sample) : Prop :=
  length samples = pair_count (length node_names)
  /\ (forall a b, a ∈ node_names -> b ∈ node_names -> a <> b ->
        length (filter (fun s => covers a b s = true) samples) = 1%nat)
  /\ Forall (sample_of_pass node_names start_time tk) samples.

(** The samples of the pairs of a list of names, by recursion on the
    list: the first name with each later one, then the pairs of the
    rest. *)
Definition sample_for (t_offset : Q) (roots : gmap string string)
    (a b : string) : AntiEntropy.Sample :=
  {| AntiEntropy.t_offset_s := t_offset;
     AntiEntropy.node_a := a; AntiEntropy.node_b := b;
     AntiEntropy.root_a := default "" (roots !! a);
     AntiEntropy.root_b := default "" (roots !! b);
     AntiEntropy.in_sync :=
       Py.int_of_bool (String.eqb (default "" (roots !! a)) (default "" (roots !! b))) |}.

Fixpoint sample_pairs (t_offset : Q) (roots : gmap string string)
    (names : list string) : list AntiEntropy.Sample :=
  match names with
  | [] => []
  | a :: names' =>
      map (sample_for t_offset roots a) names' ++ sample_pairs t_offset roots names'
  end.

(** Passes of the convergence probe in which every node returns the
    same digest. *)
Definition tick_in_sync (t : Q) : AntiEntropy.Tick :=
  {| AntiEntropy.t_check := t; AntiEntropy.t_now := t;
     AntiEntropy.fetch := fun _ =>
       Py.Ok (AntiEntropy.mkMerkleSnapshot (Some "cm9vdA==")) |}.

(** ** experiments/perf_ycsb.py: the random payload *)

Module PerfValue.
Import Py.

(** [string.ascii_letters + string.digits] *)
Definition alphabet : string :=
  "abcdefghijklmnopqrstuvwxyzABCDEFGHIJKLMNOPQRSTUVWXYZ0123456789".

(** [_rand_value(size)]: [draws i] is the position [random.choice] picks
    for the [i]-th character; the characters are ASCII, so the UTF-8
    encoding has one byte for each. *)
Definition _rand_value (size : Z) (draws : nat -> nat) : Exc (list Byte.byte) :=
  s ← AntiEntropy.collect
        (fun i => choice (String.list_byte_of_string alphabet) (draws i))
        (seq 0 (Z.to_nat size));
  Ok s.
End PerfValue.

(** ** experiments/chaos.py *)

Module Chaos.
Import Py Client.

Record ChaosRecord : Type := mkChaosRecord {
    node : string;
    op : PerfYcsb.Op;
    ok : Z;
    latency_ms : Q;
    t_start_ms : Z;
    t_end_ms : Z
  }.

(** What the environment supplies to one pass of the loop: the clock of
    the loop test, the random draws, the clock reads around the request,
    the nanosecond clock read for the payload of a write, and the
    endpoint's behaviour. *)
Record Step : Type := mkStep {
    now : Q;
    key_draw : nat;
    node_draw : nat;
    x : Q;
    t_start : Q;
    time_ns : Z;
    http : Transport;
    t_end : Q
  }.

(** An [ERROR op=... node=... key=...: exc] line of the log. *)
Record ErrorLine : Type := mkErrorLine {
    err_op : PerfYcsb.Op;
    err_node : string;
    err_key : string;
    err_exc : exn
  }.

Record Files : Type := mkFiles {
    txt : option (list ErrorLine);
    csv : option (list ChaosRecord)
  }.

Definition num_keys : nat := Z.to_nat 20000.
Definition keys : list string :=
  map (fun i => "chaos-" +:+ str (Z.of_nat i)) (seq 0 num_keys).
Definition duration_sec : Q := 20%Q.

(** The literal [0.7]: the double nearest to it,
    [6305039478318694 / 2 ^ 53], just under seven tenths. *)
Definition lit_0_7 : Q := 6305039478318694 # 9007199254740992.

Section Run.
Context `{Lib}.
Variable clients : Dict.t Config.NodeConfig.

(** The body of the [try]. *)
Definition request (op : PerfYcsb.Op) (key node_name : string) (st : Step) : Exc unit :=
  match op with
  | PerfYcsb.GET => _ ← get (http st) key; Ok tt
  | PerfYcsb.PUT =>
      let value := String.list_byte_of_string
                     ("chaos-" +:+ key +:+ "-" +:+ str (time_ns st)) in
      put (http st) key value (Some node_name)
  end.

(** The body of the [while] loop: the record it appends and the lines
    it writes to the log. *)
Definition iteration (st : Step) : Exc (ChaosRecord * list ErrorLine) :=
  key ← choice keys (key_draw st);
  node_name ← choice (Dict.keys clients) (node_draw st);
  _ ← Dict.lookup clients node_name;
  let op := if Qltb (x st) lit_0_7 then PerfYcsb.GET else PerfYcsb.PUT in
  let outcome := request op key node_name st in
  let written :=
    match outcome with
    | Ok _ => []
    | Raise exc => [mkErrorLine op node_name key exc]
    end in
  Ok ({| node := node_name;
         op := op;
         ok := int_of_bool (is_ok outcome);
         latency_ms := ((t_end st - t_start st) * 1000)%Q;
         t_start_ms := int_of_Q (t_start st * 1000)%Q;
         t_end_ms := int_of_Q (t_end st * 1000)%Q |}, written).

(** The [while] loop: the records appended, the lines written, and how
    the loop ended. *)
Fixpoint loop (stop_at : Q) (steps : list Step)
  : list ChaosRecord * list ErrorLine * Exc unit :=
  match steps with
  | [] => ([], [], Ok tt)
  | st :: steps' =>
      if Qltb (now st) stop_at then
        match iteration st with
        | Ok (rec, written) =>
            let '(recs, lines, r) := loop stop_at steps' in
            (rec :: recs, written ++ lines, r)
        | Raise e => ([], [], Raise e)
        end
      else ([], [], Ok tt)
  end.

(** [run_chaos]: [t0] is the clock when the deadline is set; the CSV is
    written after the loop. *)
Definition run_chaos (t0 : Q) (steps : list Step) : Exc unit * Files :=
  match loop (t0 + duration_sec)%Q steps with
  | (_, lines, Raise e) => (Raise e, {| txt := Some lines; csv := None |})
  | (records, lines, Ok _) => (Ok tt, {| txt := Some lines; csv := Some records |})
  end.
End Run.
End Chaos.

(** ** experiments/functional.py *)

Module Functional.
Import Py Client.

(** The primary's endpoint at each of the four requests. *)
Record Env : Type := mkEnv {
    put_http : Transport;
    get_http : Transport;
    delete_http : Transport;
    get2_http : Transport
  }.

(** The [PASS=] lines of the log, [None] for a line that was never
    written. *)
Record Log : Type := mkLog {
    pass1 : option bool;
    pass2 : option bool;
    overall : option bool
  }.

Definition value : list Byte.byte := String.list_byte_of_string "functional-test-value".

(** [run_functional]: [token] is the random suffix of the test key; the
    log is [None] when the run stops before the file is opened. *)
Definition run_functional `{Lib} (cfg : Config.ExperimentConfig)
    (clients : Dict.t Config.NodeConfig) (token : string) (env : Env)
  : Exc unit * option Log :=
  match Config.primary (Config.cluster cfg) with
  | Raise e => (Raise e, None)
  | Ok primary =>
      match Dict.lookup clients (Config.name primary) with
      | Raise e => (Raise e, None)
      | Ok _ =>
          let key := "func-" +:+ token in
          let coord := Some (Config.name primary) in
          match (_ ← put (put_http env) key value coord; get (get_http env) key) with
          | Raise e => (Raise e, Some {| pass1 := None; pass2 := None; overall := None |})
          | Ok r =>
              let ok1 := found r && bool_decide (Client.value r = Some value) in
              match (_ ← delete (delete_http env) key coord; get (get2_http env) key) with
              | Raise e =>
                  (Raise e, Some {| pass1 := Some ok1; pass2 := None; overall := None |})
              | Ok r2 =>
                  let ok2 := negb (found r2) in
                  (Ok tt, Some {| pass1 := Some ok1; pass2 := Some ok2;
                                  overall := Some (ok1 && ok2) |})
              end
          end
      end
  end.
End Functional.

(** ** runner.py: the sanity check *)

Module Runner.
Import Py Client.

(** The line printed for a node. *)
Inductive NodeLine : Type :=
  | ERROR
  | NOT_FOUND
  | FOUND (len : nat) (clock : gmap string Z).

Record Report : Type := mkReport {
    status : string;
    lines : list (string * NodeLine)
  }.

Section Sanity.
Context `{Lib}.

(** [for name, client in clients.items()]: the result of the read on
    each node, [None] when it raised; [gets name] is that node's
    endpoint. *)
Definition read_all (key : string) (gets : string -> Transport)
    (clients : Dict.t Config.NodeConfig) : Dict.t (option KvReadResult) :=
  foldl (fun results '(name, _) =>
           Dict.set results name
             match get (gets name) key with
             | Ok r => Some r
             | Raise _ => None
             end)
        [] clients.

(** The dict comprehension [found_values]. *)
Definition found_values (results : Dict.t (option KvReadResult))
  : Dict.t (list Byte.byte) :=
  foldl (fun acc '(name, r) =>
           match r with
           | Some r =>
               if found r then
                 match value r with
                 | Some v => Dict.set acc name v
                 | None => acc
                 end
               else acc
           | None => acc
           end)
        [] results.

(** The line of one node; [len(r.value)] needs a value. *)
Definition node_line (r : option KvReadResult) : Exc NodeLine :=
  match r with
  | None => Ok ERROR
  | Some r =>
      if negb (found r) then Ok NOT_FOUND
      else match value r with
           | Some v => Ok (FOUND (length v) (clock r))
           | None => Raise TypeError
           end
  end.

(** [sanity_smoke]: [token] is the random suffix of the key, [put_http]
    the primary's endpoint at the write. *)
Definition sanity_smoke (cfg : Config.ExperimentConfig)
    (clients : Dict.t Config.NodeConfig) (token : string) (put_http : Transport)
    (gets : string -> Transport) : Exc Report :=
  let key := "exp-sanity-" +:+ token in
  let value := String.list_byte_of_string ("hello-dynlite-" +:+ token) in
  primary ← Config.primary (Config.cluster cfg);
  _ ← Dict.lookup clients (Config.name primary);
  _ ← put put_http key value (Some (Config.name primary));
  let results := read_all key gets clients in
  let all_equal :=
    (length (remove_dups (map snd (found_values results))) <=? 1)%nat in
  let status := if all_equal then "CONSISTENT" else "INCONSISTENT" in
  lines ← AntiEntropy.collect
            (fun '(name, r) => l ← node_line r; Ok (name, l)) results;
  Ok {| status := status; lines := lines |}.
End Sanity.
End Runner.

(** ** plots/all_plots.py: the staleness and chaos figures

    A row is what [csv.DictReader] yields for a line the probe wrote,
    with the numeric columns already parsed as the plot parses them. *)

Module PlotData.
Import Py.

(** [by_delay.setdefault(d, []).append(is_stale)] *)
Fixpoint append_to (by_delay : list (Z * list Z)) (d : Z) (is_stale : Z)
  : list (Z * list Z) :=
  match by_delay with
  | [] => [(d, [is_stale])]
  | (d', vals) :: rest =>
      if (d' =? d)%Z then (d', vals ++ [is_stale]) :: rest
      else (d', vals) :: append_to rest d is_stale
  end.

Definition group (rows : list Staleness.TrialRecord) : list (Z * list Z) :=
  foldl (fun by_delay r => append_to by_delay (Staleness.delay_ms r) (Staleness.is_stale r))
        [] rows.

(** [sorted(by_delay.items())]: the keys of a dict are distinct, so the
    items are ordered by their delay alone. *)
Fixpoint insert_item (it : Z * list Z) (l : list (Z * list Z)) : list (Z * list Z) :=
  match l with
  | [] => [it]
  | it' :: l' => if (it'.1 <? it.1)%Z then it' :: insert_item it l' else it :: l
  end.

Definition sorted_items (l : list (Z * list Z)) : list (Z * list Z) :=
  foldr insert_item [] l.

Definition sum (vals : list Z) : Z := foldl Z.add 0%Z vals.

(** The points of the staleness figure. *)
Definition staleness_points (rows : list Staleness.TrialRecord) : list (Z * Q) :=
  flat_map (fun '(d, vals) =>
              match vals with
              | [] => []
              | _ :: _ => [(d, (inject_Z (sum vals) / inject_Z (Z.of_nat (length vals)))%Q)]
              end)
           (sorted_items (group rows)).

(** A point of the chaos figure. *)
Record ChaosPoint : Type := mkChaosPoint {
    t_start_ms : Z;
    latency_ms : Q;
    node : string;
    op : PerfYcsb.Op;
    t_rel_s : Q
  }.

(** The points of the chaos figure: the rows with [ok == "1"], with
    their start time relative to the earliest of them. *)
Definition chaos_points (rows : list Chaos.ChaosRecord) : Exc (list ChaosPoint) :=
  let data := filter (fun r => Chaos.ok r = 1%Z) rows in
  match data with
  | [] => Ok []
  | _ :: _ =>
      t0 ← min_of (map Chaos.t_start_ms data);
      Ok (map (fun r =>
                 {| t_start_ms := Chaos.t_start_ms r;
                    latency_ms := Chaos.latency_ms r;
                    node := Chaos.node r;
                    op := Chaos.op r;
                    t_rel_s := (inject_Z (Chaos.t_start_ms r - t0) / 1000)%Q |})
              data)
  end.
End PlotData.

(** ** bench/scripts/plot_latencies.py *)

Module PlotLatencies.
Import Py.

(** A row of the latency CSV, its latency parsed. *)
Record Row : Type := mkRow {
    success : string;
    latency_ms : Q
  }.

(** How [main] ends: the message for an empty sample, the exception of
    the division, or the plotted curve. *)
Inductive Outcome : Type :=
  | NoSuccessfulSamples
  | ZeroDivisionError
  | Plotted (xs cdf_y : list Q).

Definition main (rows : list Row) : Outcome :=
  let xs := map latency_ms (filter (fun row => success row = "1") rows) in
  match xs with
  | [] => NoSuccessfulSamples
  | _ :: _ =>
      let xs := sorted xs in
      let n := Z.of_nat (length xs) in
      if (n - 1 =? 0)%Z then ZeroDivisionError
      else Plotted xs (map (fun i => (inject_Z (Z.of_nat i) / inject_Z (n - 1))%Q)
                           (seq 0 (length xs)))
  end.
End PlotLatencies.

(** ** Statements on the rest of the harness *)

(** Every entry of a vector clock sent by the store is an integer. *)
Definition int_clock (its : list (string * Client.JSON)) : Prop :=
  Forall (fun kv => exists z, kv.2 = Client.JInt z) its.

(** A 2xx status. *)
Definition success_status (s : Z) : Prop := (200 <= s <= 299)%Z.

(** A store that holds the bytes [v] under [key] answers a read with a
    2xx status and an object whose [found] is true, whose [valueBase64]
    is the Base64 text of [v], and whose [vectorClock], when present, is
    an object of integers. *)
Definition answers_with `{Client.Lib} (http : Client.Transport) (key : string)
    (v : list Byte.byte) : Prop :=
  exists s o,
    http (Client.get_request key) = Py.Ok (Client.mkResponse s (Some (Client.JObj o)))
    /\ success_status s
    /\ Client.items_get o "found" = Some (Client.JBool true)
    /\ Client.items_get o "valueBase64" = Some (Client.JStr (Client.b64encode v))
    /\ match Client.items_get o "vectorClock" with
       | None => True
       | Some (Client.JObj its) => int_clock its
       | Some _ => False
       end.

(** The request is accepted with a 2xx status. *)
Definition accepts (http : Client.Transport) (req : Client.Request) : Prop :=
  exists s b, http req = Py.Ok (Client.mkResponse s b) /\ success_status s.

(** The Base64 text of the payload of the functional test, for the
    examples. *)
Definition functional_lib : Client.Lib :=
  {| Client.b64encode := fun bs =>
       if decide (bs = Functional.value) then "ZnVuY3Rpb25hbC10ZXN0LXZhbHVl" else "";
     Client.b64decode := fun s =>
       if String.eqb s "ZnVuY3Rpb25hbC10ZXN0LXZhbHVl" then Some Functional.value
       else if String.eqb s "" then Some [] else None;
     Client.int_of_str := fun _ => None |}.

(** The primary of a store that follows the protocol, as the functional
    test sees it: the write is accepted, the read returns what was
    written, the delete is accepted, and the read after it is answered
    with [404]. *)
Definition conforming_env : Functional.Env :=
  {| Functional.put_http := http_ok;
     Functional.get_http := fun _ =>
       Py.Ok (Client.mkResponse 200
         (Some (Client.JObj [("found", Client.JBool true);
                             ("valueBase64", Client.JStr "ZnVuY3Rpb25hbC10ZXN0LXZhbHVl");
                             ("vectorClock", Client.JObj [("node-a", Client.JInt 1)])])));
     Functional.delete_http := fun _ => Py.Ok (Client.mkResponse 204 None);
     Functional.get2_http := http_404 |}.

(** *** The chaos workload *)

(** The draws of a pass of the chaos loop are positions of the key list
    and of the node list. *)
Definition chaos_draws_in_range (clients : Dict.t Config.NodeConfig)
    (st : Chaos.Step) : Prop :=
  (Chaos.key_draw st < Chaos.num_keys)%nat
  /\ (Chaos.node_draw st < length (Dict.keys clients))%nat.

(** The record of a pass of the chaos loop: a read when the draw is
    under the literal [0.7], a write otherwise, and [ok = 1] exactly when
    the client call returned. *)
Definition chaos_recorded `{Client.Lib} (st : Chaos.Step) (rec : Chaos.ChaosRecord)
  : Prop :=
  exists key,
    choice Chaos.keys (Chaos.key_draw st) = Py.Ok key
    /\ Chaos.op rec
       = (if Py.Qltb (Chaos.x st) Chaos.lit_0_7 then PerfYcsb.GET else PerfYcsb.PUT)
    /\ Chaos.ok rec
       = Py.int_of_bool (Py.is_ok (Chaos.request (Chaos.op rec) key (Chaos.node rec) st)).

(** The failed requests of a run, and what the log says of them. *)
Definition chaos_failures (records : list Chaos.ChaosRecord)
  : list (PerfYcsb.Op * string) :=
  map (fun r => (Chaos.op r, Chaos.node r)) (filter (fun r => Chaos.ok r = 0%Z) records).
Definition chaos_logged (lines : list Chaos.ErrorLine) : list (PerfYcsb.Op * string) :=
  map (fun l => (Chaos.err_op l, Chaos.err_node l)) lines.

(** Two passes of the chaos loop: a read that is answered, and a write
    to a node that is down. *)
Definition chaos_read_step : Chaos.Step :=
  {| Chaos.now := 3; Chaos.key_draw := 5; Chaos.node_draw := 0; Chaos.x := 1 # 4;
     Chaos.t_start := 3; Chaos.time_ns := 3000000000; Chaos.http := http_ok;
     Chaos.t_end := 301 # 100 |}.
Definition chaos_down_step : Chaos.Step :=
  {| Chaos.now := 4; Chaos.key_draw := 6; Chaos.node_draw := 1; Chaos.x := 3 # 4;
     Chaos.t_start := 4; Chaos.time_ns := 4000000000; Chaos.http := http_down;
     Chaos.t_end := 9 |}.

(** *** The sanity check *)

(** The read of the key on node [name] found the bytes [v]. *)
Definition found_on `{Client.Lib} (gets : string -> Client.Transport) (key : string)
    (name : string) (v : list Byte.byte) : Prop :=
  exists r,
    Client.get (gets name) key = Py.Ok r
    /\ Client.found r = true /\ Client.value r = Some v.

(** No two nodes that found the key returned different bytes. *)
Definition reads_agree `{Client.Lib} (gets : string -> Client.Transport) (key : string)
    (names : list string) : Prop :=
  forall n1 n2 v1 v2,
    n1 ∈ names -> n2 ∈ names ->
    found_on gets key n1 v1 -> found_on gets key n2 v2 -> v1 = v2.

(** A cluster in which node-a returns the bytes [hi], node-b has not
    seen the key and node-c is down. *)
Definition gets_partial (name : string) : Client.Transport :=
  if String.eqb name "node-a" then http_hi
  else if String.eqb name "node-b" then http_404
  else http_down.

(** The entry of [found_values] a result contributes. *)
Definition found_entry (kv : string * option Client.KvReadResult)
  : list (string * list Byte.byte) :=
  match kv.2 with
  | Some r =>
      if Client.found r then
        match Client.value r with Some v => [(kv.1, v)] | None => [] end
      else []
  | None => []
  end.

(** *** More on the probes *)

(** The draw of a pass of a worker is a value of [random.random()]. *)
Definition unit_draw (st : PerfYcsb.Step) : Prop :=
  (0 <= PerfYcsb.x st)%Q /\ (PerfYcsb.x st < 1)%Q.

(** The summary line of a delay for which no trial ran. *)
Definition empty_line (d : Z) : Staleness.DelayLine :=
  Staleness.mkDelayLine d 0 0 (inject_Z 0 / inject_Z 1)%Q.

(** The shape of the summary line of a delay, whatever the reads
    returned: the configured number of trials, a stale count between
    zero and that number, and their quotient. *)
Definition line_in_shape (trials : Z) (d : Z) (line : Staleness.DelayLine) : Prop :=
  Staleness.line_delay line = d
  /\ Staleness.line_total line = Z.max 0 trials
  /\ (0 <= Staleness.line_stale line <= Staleness.line_total line)%Z
  /\ (0 <= Staleness.line_frac line)%Q /\ (Staleness.line_frac line <= 1)%Q.

(** The number of requests a line of the SLO summary accounts for. *)
Definition summary_count (s : Sac.ClassSummary) : nat :=
  match s with
  | Sac.NoSuccessful _ => 0
  | Sac.ClassStats _ n _ _ _ => n
  end.

Definition summary_class (s : Sac.ClassSummary) : string :=
  match s with
  | Sac.NoSuccessful cls => cls
  | Sac.ClassStats cls _ _ _ _ => cls
  end.

(** The rows and the summary line of one delay, whatever the reads
    returned: the rows carry the delay and a stale flag of 0 or 1, and
    the line counts them. *)
Definition chunk_in_shape (d : Z) (chunk : list Staleness.TrialRecord)
    (line : Staleness.DelayLine) : Prop :=
  Forall (fun r => Staleness.delay_ms r = d
                   /\ (Staleness.is_stale r = 0%Z \/ Staleness.is_stale r = 1%Z)) chunk
  /\ line = Staleness.mkDelayLine d (stale_count_of chunk) (Z.of_nat (length chunk))
              (inject_Z (stale_count_of chunk)
               / inject_Z (Z.max (Z.of_nat (length chunk)) 1))%Q.

(** A configuration with two delays, and the trials of a store that is
    behind at the first delay and answers with other bytes at the
    second. *)
Definition two_delays_config (trials : Z) : Config.ExperimentConfig :=
  {| Config.cluster := Config.DEFAULT_CLUSTER;
     Config.slo := Config.default_slo;
     Config.staleness := {| Config.delays_ms := [0; 1000]%Z;
                            Config.trials_per_delay := trials |};
     Config.anti_entropy := Config.default_anti_entropy |}.
Definition two_delays_env (k i : nat) : Staleness.Trial :=
  match k with O => trial_answered | _ => trial_lagging end.

(** *** Payloads and figures *)

(** An ASCII letter or digit. *)
Definition is_alnum (b : Byte.byte) : bool :=
  let n := Byte.to_N b in
  ((48 <=? n) && (n <=? 57) || (65 <=? n) && (n <=? 90) || (97 <=? n) && (n <=? 122))%N.

(** The rows of a latency CSV that count as successful samples. *)
Definition successes (rows : list PlotLatencies.Row) : list PlotLatencies.Row :=
  filter (fun row => PlotLatencies.success row = "1") rows.

(** The rows of a chaos CSV that the figure shows. *)
Definition chaos_successes (rows : list Chaos.ChaosRecord) : list Chaos.ChaosRecord :=
  filter (fun r => Chaos.ok r = 1%Z) rows.

(** The point the staleness figure draws for a delay and its stale
    flags, and the point a line of the text summary stands for. *)
Definition point_of (it : Z * list Z) : Z * Q :=
  (it.1, (inject_Z (PlotData.sum it.2) / inject_Z (Z.of_nat (length it.2)))%Q).
Definition line_point (line : Staleness.DelayLine) : Z * Q :=
  (Staleness.line_delay line, Staleness.line_frac line).

(** *** The convergence run *)



(** * Properties *)

(** ** Binary64 products of the percentile lines *)

Section Float64.
Import Py Round.
Local Open Scope Z_scope.



(** digits *)
Lemma digits2_pos_size p : digits2_pos p = Pos.size p.
Proof. induction p; simpl; congruence. Qed.

Lemma digits2_pos_bounds p :
  2 ^ (Z.pos (digits2_pos p) - 1) <= Z.pos p < 2 ^ Z.pos (digits2_pos p).
Proof.
  rewrite digits2_pos_size. split.
  - pose proof (Pos.size_le p) as Hle.
    apply Pos2Z.pos_le_pos in Hle. rewrite Pos2Z.inj_pow in Hle.
    replace (Z.pos (Pos.size p)) with (Z.succ (Z.pos (Pos.size p) - 1)) in Hle by lia.
    rewrite Z.pow_succ_r in Hle by lia. change (Z.pos p~0) with (2 * Z.pos p) in Hle. lia.
  - pose proof (Pos.size_gt p) as Hgt.
    apply Pos2Z.pos_lt_pos in Hgt. now rewrite Pos2Z.inj_pow in Hgt.
Qed.

Lemma digits2_pos_unique p d :
  2 ^ (d - 1) <= Z.pos p < 2 ^ d -> Z.pos (digits2_pos p) = d.
Proof.
  intros [Hlo Hhi]. pose proof (digits2_pos_bounds p) as [Hlo' Hhi'].
  set (d' := Z.pos (digits2_pos p)) in *.
  assert (0 < d) by (destruct (Z_lt_le_dec 0 d); [lia|]; rewrite (Z.pow_neg_r 2 (d-1)) in Hlo by lia;
    destruct (Z.eq_dec d 0) as [->|]; [simpl in Hhi; lia| rewrite Z.pow_neg_r in Hhi by lia; lia]).
  assert (d' - 1 < d) by (apply (Z.pow_lt_mono_r_iff 2); lia).
  assert (d - 1 < d') by (apply (Z.pow_lt_mono_r_iff 2); lia).
  lia.
Qed.

(** shifting right *)
Lemma iter_pos_nat {A} (f : A -> A) p x :
  SpecFloat.iter_pos f p x = Nat.iter (Pos.to_nat p) f x.
Proof.
  revert x. induction p as [p IH|p IH|]; intros x; cbn [SpecFloat.iter_pos].
  - rewrite !IH, Pos2Nat.inj_xI. 
    replace (S (2 * Pos.to_nat p))%nat with (Pos.to_nat p + S (Pos.to_nat p))%nat by lia.
    rewrite Nat.iter_add. f_equal. now rewrite Nat.iter_succ_r.
  - rewrite !IH, Pos2Nat.inj_xO.
    replace (2 * Pos.to_nat p)%nat with (Pos.to_nat p + Pos.to_nat p)%nat by lia.
    now rewrite Nat.iter_add.
  - reflexivity.
Qed.

Lemma shr_1_nonneg m r s :
  0 <= m -> shr_1 (Build_shr_record m r s) = Build_shr_record (m / 2) (Z.odd m) (r || s).
Proof.
  intros Hm. destruct m as [|[p|p|]|]; try lia; simpl; try reflexivity.
  - f_equal. rewrite Pos2Z.inj_xI. apply Z.div_unique with 1; lia.
  - f_equal. rewrite Pos2Z.inj_xO. apply Z.div_unique with 0; lia.
Qed.

Lemma shr_iter M k :
  0 <= M ->
  Nat.iter k shr_1 (Build_shr_record M false false)
  = Build_shr_record (M / 2 ^ Z.of_nat k) (round_bit M k) (sticky_bit M k).
Proof.
  intros HM. induction k as [|k IH].
  - simpl. unfold round_bit, sticky_bit. simpl. rewrite Z.div_1_r, Z.mod_1_r. reflexivity.
  - rewrite Nat.iter_succ, IH. clear IH.
    assert (HX : 0 < 2 ^ Z.of_nat k) by (apply Z.pow_pos_nonneg; lia).
    rewrite shr_1_nonneg by (apply Z.div_pos; lia).
    unfold round_bit, sticky_bit.
    rewrite Nat2Z.inj_succ, Z.pow_succ_r by lia.
    set (X := 2 ^ Z.of_nat k) in *.
    rewrite Z.div_div by lia.
    rewrite (Z.mul_comm 2 X), (Z.rem_mul_r M X 2) by lia.
    pose proof (Z.mod_pos_bound M X HX) as HR.
    pose proof (Z.mod_pos_bound (M / X) 2 ltac:(lia)) as HB.
    rewrite (Zmod_odd (M / X)) in *.
    set (R := M mod X) in *.
    f_equal.
    + destruct (Z.odd (M / X)); symmetry; [apply Z.leb_le|apply Z.leb_gt]; lia.
    + destruct (Z.odd (M / X));
        destruct (Z.leb_spec X (2 * R)); destruct (Z.eqb_spec R 0);
        destruct (Z.eqb_spec (2 * R) X); cbn [orb negb];
        repeat match goal with |- context [Z.eqb ?a ?b] => destruct (Z.eqb_spec a b) end;
        cbn [orb negb]; try reflexivity; try lia.
Qed.

Lemma shr_rne M p :
  0 <= M ->
  let mrs := SpecFloat.iter_pos shr_1 p (Build_shr_record M false false) in
  round_nearest_even (shr_m mrs) (loc_of_shr_record mrs) = rne M (Z.pos p).
Proof.
  intros HM mrs. subst mrs. rewrite iter_pos_nat, shr_iter by lia.
  rewrite positive_nat_Z. unfold rne, round_bit, sticky_bit. rewrite positive_nat_Z.
  assert (HX : 0 < 2 ^ Z.pos p) by (apply Z.pow_pos_nonneg; lia).
  set (X := 2 ^ Z.pos p) in *.
  pose proof (Z.mod_pos_bound M X HX) as HR.
  set (R := M mod X) in *. cbn [shr_m].
  destruct (Z.leb_spec X (2 * R)); destruct (Z.eqb_spec R 0);
    destruct (Z.eqb_spec (2 * R) X); destruct (Z.ltb_spec (2 * R) X);
    destruct (Z.ltb_spec X (2 * R)); cbn [orb negb loc_of_shr_record round_nearest_even];
    try reflexivity; try lia.
Qed.

Lemma rne_bounds M s :
  0 <= M -> 0 < s -> M / 2 ^ s <= rne M s <= M / 2 ^ s + 1.
Proof.
  intros HM Hs. unfold rne.
  repeat match goal with |- context [if ?b then _ else _] => destruct b end; lia.
Qed.

Lemma bra_exact (m : positive) (e : Z) :
  Z.pos (digits2_pos m) = 53 -> -1074 <= e <= 971 ->
  binary_round_aux 53 1024 false (Z.pos m) e loc_Exact = S754_finite false m e.
Proof.
  intros Hd He.
  assert (Hs : fexp 53 1024 (Zdigits2 (Z.pos m) + e) - e = 0).
  { unfold fexp, emin. cbn [Zdigits2]. rewrite Hd. lia. }
  unfold binary_round_aux, shr_fexp. rewrite Hs.
  cbn [shr shr_record_of_loc shr_m loc_of_shr_record round_nearest_even].
  rewrite Hs. cbn [shr shr_record_of_loc shr_m].
  replace (e <=? 1024 - 53) with true by (symmetry; apply Z.leb_le; lia).
  reflexivity.
Qed.

Lemma bra_round (P s : positive) (e : Z) :
  Z.pos (digits2_pos P) = 53 + Z.pos s ->
  -1074 <= e + Z.pos s -> e + Z.pos s + 1 <= 971 ->
  binary_round_aux 53 1024 false (Z.pos P) e loc_Exact = rounded P s e.
Proof.
  intros Hd Hlo Hhi.
  assert (Hs : fexp 53 1024 (Zdigits2 (Z.pos P) + e) - e = Z.pos s).
  { unfold fexp, emin. cbn [Zdigits2]. rewrite Hd. lia. }
  pose proof (digits2_pos_bounds P) as HP. rewrite Hd in HP.
  replace (53 + Z.pos s - 1) with (52 + Z.pos s) in HP by lia.
  rewrite !Z.pow_add_r in HP by lia.
  assert (HX : 0 < 2 ^ Z.pos s) by (apply Z.pow_pos_nonneg; lia).
  assert (Hq : 2 ^ 52 <= Z.pos P / 2 ^ Z.pos s < 2 ^ 53).
  { split; [apply Z.div_le_lower_bound|apply Z.div_lt_upper_bound]; lia. }
  pose proof (rne_bounds (Z.pos P) (Z.pos s) ltac:(lia) ltac:(lia)) as Hr.
  unfold binary_round_aux, shr_fexp at 1. rewrite Hs. cbn [shr shr_record_of_loc].
  rewrite shr_rne by lia. unfold rounded.
  set (q := rne (Z.pos P) (Z.pos s)) in *.
  destruct (Z.eqb_spec q (2 ^ 53)) as [Heq|Hne].
  - rewrite Heq. unfold shr_fexp, fexp, emin. 
    change (Zdigits2 (2 ^ 53)) with 54.
    replace (Z.max (54 + (e + Z.pos s) - 53) (3 - 1024 - 53) - (e + Z.pos s)) with 1 by lia.
    change (shr (shr_record_of_loc (2 ^ 53) loc_Exact) (e + Z.pos s) 1)
      with (Build_shr_record (Z.pos (2 ^ 52)) false false, e + Z.pos s + 1).
    cbv beta iota. cbn [shr_m].
    replace (e + Z.pos s + 1 <=? 1024 - 53) with true by (symmetry; apply Z.leb_le; lia).
    reflexivity.
  - destruct q as [|m|m]; try (change (2 ^ 52) with 4503599627370496 in *; lia).
    assert (Hdm : Z.pos (digits2_pos m) = 53).
    { apply digits2_pos_unique. change (53 - 1) with 52. lia. }
    unfold shr_fexp.
    assert (Hs0 : fexp 53 1024 (Zdigits2 (Z.pos m) + (e + Z.pos s)) - (e + Z.pos s) = 0).
    { unfold fexp, emin. cbn [Zdigits2]. rewrite Hdm. lia. }
    rewrite Hs0. cbn [shr shr_record_of_loc shr_m].
    replace (e + Z.pos s <=? 1024 - 53) with true by (symmetry; apply Z.leb_le; lia).
    reflexivity.
Qed.

Lemma rne_shift x u w :
  0 <= u -> 0 <= w -> rne (x * 2 ^ w) (u + w) = rne x u.
Proof.
  intros Hu Hw. unfold rne. rewrite Z.pow_add_r by lia.
  assert (HU : 0 < 2 ^ u) by (apply Z.pow_pos_nonneg; lia).
  assert (HW : 0 < 2 ^ w) by (apply Z.pow_pos_nonneg; lia).
  set (U := 2 ^ u) in *. set (W := 2 ^ w) in *.
  rewrite Z.div_mul_cancel_r by lia.
  rewrite Z.mul_mod_distr_r by lia.
  pose proof (Z.mod_pos_bound x U HU) as Hr. set (r := x mod U) in *.
  replace (2 * (r * W) <? U * W) with (2 * r <? U)
    by (destruct (Z.ltb_spec (2 * r) U); symmetry; [apply Z.ltb_lt|apply Z.ltb_ge]; nia).
  replace (U * W <? 2 * (r * W)) with (U <? 2 * r)
    by (destruct (Z.ltb_spec U (2 * r)); symmetry; [apply Z.ltb_lt|apply Z.ltb_ge]; nia).
  reflexivity.
Qed.

(** The rounded product of a constant just below [a / b] with an integer
    has the integer part of the exact fraction. *)
Lemma rne_floor (a b c eps n u : Z) :
  0 < a < b -> 0 < c ->
  b * c = a * 2 ^ 53 - eps ->
  0 <= eps -> (eps = 0 \/ 2 * eps < a) ->
  1 <= n -> eps * n <= 2 ^ 53 ->
  0 <= u <= 52 -> b < 2 ^ (53 - u) ->
  2 ^ (52 + u) <= c * n < 2 ^ (53 + u) ->
  rne (c * n) u / 2 ^ (53 - u) = a * n / b.
Proof.
  intros Hab Hc Hbc Heps Hsmall Hn Hen Hu Hb Hcn.
  rewrite !Z.pow_add_r in Hcn by lia.
  assert (HUT : 2 ^ u * 2 ^ (53 - u) = 2 ^ 53) by (rewrite <- Z.pow_add_r by lia; f_equal; lia).
  assert (HU : 0 < 2 ^ u) by (apply Z.pow_pos_nonneg; lia).
  assert (HT : 0 < 2 ^ (53 - u)) by (apply Z.pow_pos_nonneg; lia).
  set (U := 2 ^ u) in *. set (T := 2 ^ (53 - u)) in *.
  set (B := 2 ^ 53) in *. 
  assert (HB52 : 2 ^ 52 * 2 = B) by reflexivity.
  set (B52 := 2 ^ 52) in *.
  pose proof (Z.div_mod (a * n) b ltac:(lia)) as HK.
  pose proof (Z.mod_pos_bound (a * n) b ltac:(lia)) as Hrho.
  set (K := a * n / b) in *. set (rho := (a * n) mod b) in *.
  pose proof (Z.div_mod (c * n) U ltac:(lia)) as Hq.
  pose proof (Z.mod_pos_bound (c * n) U ltac:(lia)) as Hr.
  assert (Hrne : rne (c * n) u = 
     if 2 * ((c * n) mod U) <? U then c * n / U
     else if U <? 2 * ((c * n) mod U) then c * n / U + 1
     else if Z.even (c * n / U) then c * n / U else c * n / U + 1) by reflexivity.
  set (q := c * n / U) in *. set (r := (c * n) mod U) in *.
  set (q' := rne (c * n) u) in *.
  assert (Hq' : q <= q' <= q + 1).
  { rewrite Hrne. repeat match goal with |- context [if ?b then _ else _] => destruct b end; lia. }
  assert (HbK : 0 <= K) by (apply Z.div_pos; nia).
  (* the product stays below the exact fraction *)
  assert (Hprod : b * (c * n) = (b * K + rho) * B - eps * n) by nia.
  assert (Hupper : q' < (K + 1) * T).
  { assert (b * (U * q) <= (b * K + rho) * (U * T)) by nia.
    assert (b * q <= (b * K + rho) * T) by nia.
    assert (b * q + b < b * ((K + 1) * T)) by nia.
    nia. }
  assert (Hlower : K * T <= q').
  { destruct (Z_le_gt_dec (eps * n) (rho * B)) as [Hcase|Hcase].
    - assert (b * (K * B) <= b * (c * n)) by nia.
      assert (K * B <= c * n) by nia.
      assert (K * T * U <= U * q + r) by nia.
      assert (K * T <= q) by nia.
      lia.
    - assert (Hrho0 : rho = 0) by nia.
      assert (He : 2 * eps < a) by nia.
      assert (HK' : a * n = b * K) by lia.
      set (delta := K * B - c * n).
      assert (Hbd : b * delta = eps * n) by (unfold delta; nia).
      assert (Had : a * delta = eps * K) by nia.
      assert (Hdpos : 0 < delta) by nia.
      assert (HKpos : 0 < K) by nia.
      assert (H2d : 2 * delta < K) by nia.
      assert (HKU : K <= U).
      { destruct (Z_le_gt_dec K U); [assumption|exfalso].
        assert (U + 1 <= K) by lia.
        assert (K * B < U * B + delta) by (unfold delta; nia).
        assert (U <= B52) by (unfold U, B52; apply Z.pow_le_mono_r; lia).
        nia. }
      assert (H2dU : 2 * delta < U) by lia.
      assert (Hqr : q = K * T - 1 /\ r = U - delta).
      { assert (c * n = U * (K * T - 1) + (U - delta)) by (unfold delta; nia).
        split; [unfold q; symmetry; apply Z.div_unique with (U - delta); lia
               |unfold r; symmetry; apply Z.mod_unique with (K * T - 1); lia]. }
      destruct Hqr as [Hqv Hrv]. 
      rewrite Hrne.
      replace (2 * r <? U) with false by (symmetry; apply Z.ltb_ge; lia).
      replace (U <? 2 * r) with true by (symmetry; apply Z.ltb_lt; lia).
      lia. }
  symmetry. apply Z.div_unique with (q' - K * T). lia. nia.
Qed.



Lemma pos_iter_xO m d : Z.pos (Pos.iter xO m d) = Z.pos m * 2 ^ Z.pos d.
Proof.
  rewrite (Pos.iter_swap_gen _ _ Z.pos xO (Z.mul 2)) by reflexivity.
  change (Pos.iter (Z.mul 2) (Z.pos m) d) with (Z.shiftl (Z.pos m) (Z.pos d)).
  apply Z.shiftl_mul_pow2. lia.
Qed.

Lemma float_of_int_spec (m : positive) :
  Z.pos m < 2 ^ 53 ->
  let d := Z.pos (digits2_pos m) in
  exists mz, float_of_int (Z.pos m) = S754_finite false mz (d - 53)
             /\ Z.pos mz = Z.pos m * 2 ^ (53 - d).
Proof.
  intros Hm d. pose proof (digits2_pos_bounds m) as Hd. fold d in Hd.
  assert (Hd53 : 1 <= d <= 53).
  { split; [unfold d; lia|].
    destruct (Z_le_gt_dec d 53); [assumption|exfalso].
    assert (2 ^ 53 <= 2 ^ (d - 1)) by (apply Z.pow_le_mono_r; lia). lia. }
  unfold float_of_int, binary_normalize, binary_round, shl_align.
  fold d. unfold fexp, emin, prec, emax.
  replace (Z.max (d + 0 - 53) (3 - 1024 - 53) - 0) with (d - 53) by lia.
  replace (Z.max (d + 0 - 53) (3 - 1024 - 53)) with (d - 53) by lia.
  destruct (Z.eq_dec d 53) as [E|E].
  - rewrite E. change (53 - 53) with 0. cbv beta iota.
    exists m. rewrite bra_exact by (fold d; lia). split; [reflexivity|].
    change (2 ^ 0) with 1. lia.
  - destruct (d - 53) as [|p|p] eqn:Edp; try lia.
    exists (Pos.iter xO m p).
    assert (Hv : Z.pos (Pos.iter xO m p) = Z.pos m * 2 ^ (53 - d)).
    { rewrite pos_iter_xO. f_equal. f_equal. lia. }
    split; [|exact Hv].
    apply bra_exact; [|lia].
    apply digits2_pos_unique. rewrite Hv.
    assert (2 ^ 53 = 2 ^ d * 2 ^ (53 - d)) by (rewrite <- Z.pow_add_r by lia; f_equal; lia).
    assert (2 ^ (53 - 1) = 2 ^ (d - 1) * 2 ^ (53 - d)) by (rewrite <- Z.pow_add_r by lia; f_equal; lia).
    assert (0 < 2 ^ (53 - d)) by (apply Z.pow_pos_nonneg; lia).
    nia.
Qed.

Lemma int_of_float_rounded (P s : positive) (e : Z) :
  Z.pos (digits2_pos P) = 53 + Z.pos s ->
  e + Z.pos s + 1 < 0 -> - 53 <= e + Z.pos s ->
  int_of_float (rounded P s e) = Ok (rne (Z.pos P) (Z.pos s) / 2 ^ (- (e + Z.pos s))).
Proof.
  intros Hd He He'. unfold rounded.
  pose proof (digits2_pos_bounds P) as HP. rewrite Hd in HP.
  replace (53 + Z.pos s - 1) with (52 + Z.pos s) in HP by lia.
  rewrite !Z.pow_add_r in HP by lia.
  assert (HX : 0 < 2 ^ Z.pos s) by (apply Z.pow_pos_nonneg; lia).
  assert (Hq : 2 ^ 52 <= Z.pos P / 2 ^ Z.pos s < 2 ^ 53).
  { split; [apply Z.div_le_lower_bound|apply Z.div_lt_upper_bound]; lia. }
  pose proof (rne_bounds (Z.pos P) (Z.pos s) ltac:(lia) ltac:(lia)) as Hr.
  set (q := rne (Z.pos P) (Z.pos s)) in *.
  destruct (Z.eqb_spec q (2 ^ 53)) as [Heq|Hne]; unfold int_of_float.
  - replace (0 <=? e + Z.pos s + 1) with false by (symmetry; apply Z.leb_gt; lia).
    f_equal. rewrite Heq.
    set (t := - (e + Z.pos s + 1)).
    replace (- (e + Z.pos s)) with (t + 1) by (unfold t; lia).
    assert (0 <= t <= 52) by (unfold t; lia).
    change (Z.pos (2 ^ 52)) with (2 ^ 52).
    change (2 ^ 53) with (2 ^ 52 * 2).
    rewrite (Z.pow_add_r 2 t 1) by lia. change (2 ^ 1) with 2.
    rewrite Z.div_mul_cancel_r; [reflexivity| |lia].
    apply Z.pow_nonzero; lia.
  - replace (0 <=? e + Z.pos s) with false by (symmetry; apply Z.leb_gt; lia).
    rewrite Z2Pos.id by (change (2 ^ 52) with 4503599627370496 in *; lia).
    reflexivity.
Qed.

(** The product of a double [c] in [[0.5, 1)] with an integer below
    [2 ^ 40], as the rounding of the exact product [c * n]. *)
Lemma float_mul_rounded (c m : positive) :
  Z.pos (digits2_pos c) = 53 -> Z.pos m < 2 ^ 40 ->
  exists (P s : positive) (u w : Z),
    float_mul (S754_finite false c (-53)) (float_of_int (Z.pos m))
    = rounded P s (u - 53 - Z.pos s)
    /\ Z.pos (digits2_pos P) = 53 + Z.pos s
    /\ Z.pos P = Z.pos c * Z.pos m * 2 ^ w
    /\ Z.pos s = u + w /\ 0 <= w /\ 0 <= u <= 40
    /\ 2 ^ (52 + u) <= Z.pos c * Z.pos m < 2 ^ (53 + u).
Proof.
  intros Hc Hn.
  pose proof (digits2_pos_bounds m) as Hd.
  set (d := Z.pos (digits2_pos m)) in *.
  assert (Hd40 : 1 <= d <= 40).
  { split; [unfold d; lia|].
    destruct (Z_le_gt_dec d 40); [assumption|exfalso].
    assert (2 ^ 40 <= 2 ^ (d - 1)) by (apply Z.pow_le_mono_r; lia). lia. }
  destruct (float_of_int_spec m) as (mz & -> & Hmz); [lia|]. fold d in Hmz |- *.
  unfold float_mul, SFmul. cbn [xorb].
  pose proof (digits2_pos_bounds c) as Hcb. rewrite Hc in Hcb. change (53 - 1) with 52 in Hcb.
  set (u := Z.pos (digits2_pos (c * m)) - 53).
  pose proof (digits2_pos_bounds (c * m)) as Hcm.
  replace (Z.pos (digits2_pos (c * m))) with (53 + u) in Hcm by (unfold u; lia).
  replace (53 + u - 1) with (52 + u) in Hcm by lia.
  rewrite Pos2Z.inj_mul in Hcm.
  assert (Hu : d - 1 <= u <= d).
  { assert (HA : 2 ^ (52 + (d - 1)) <= Z.pos c * Z.pos m).
    { rewrite Z.pow_add_r by lia. apply Z.mul_le_mono_nonneg; try lia. }
    assert (HB : Z.pos c * Z.pos m < 2 ^ (53 + d)).
    { rewrite Z.pow_add_r by lia. apply Z.mul_lt_mono_nonneg; lia. }
    split.
    - assert (52 + (d - 1) < 53 + u) by (apply (Z.pow_lt_mono_r_iff 2); lia). lia.
    - assert (52 + u < 53 + d) by (apply (Z.pow_lt_mono_r_iff 2); lia). lia. }
  set (w := 53 - d) in *.
  assert (Hs : exists s, Z.pos s = u + w) by (exists (Z.to_pos (u + w)); rewrite Z2Pos.id; lia).
  destruct Hs as [s Hs].
  assert (HP : Z.pos (c * mz) = Z.pos c * Z.pos m * 2 ^ w) by (rewrite Pos2Z.inj_mul, Hmz; ring).
  assert (HdP : Z.pos (digits2_pos (c * mz)) = 53 + Z.pos s).
  { apply digits2_pos_unique. rewrite HP, Hs.
    replace (53 + (u + w) - 1) with (52 + u + w) by lia.
    replace (53 + (u + w)) with (53 + u + w) by lia.
    rewrite !(Z.pow_add_r 2 _ w) by lia.
    assert (0 < 2 ^ w) by (apply Z.pow_pos_nonneg; lia). nia. }
  exists (c * mz)%positive, s, u, w.
  rewrite (bra_round (c * mz) s) by (try exact HdP; lia).
  replace (-53 + (d - 53)) with (u - 53 - Z.pos s) by lia.
  repeat split; try done; lia.
Qed.

(** [int(c * n)] for a double [c] in [[0.5, 1)] that lies just below the
    fraction [a / b]. *)
Theorem int_of_float_mul (c : positive) (a b eps n : Z) :
  Z.pos (digits2_pos c) = 53 ->
  0 < a < b -> b < 2 ^ 13 ->
  b * Z.pos c = a * 2 ^ 53 - eps ->
  0 <= eps < 2 ^ 13 -> (eps = 0 \/ 2 * eps < a) ->
  1 <= n < 2 ^ 40 ->
  int_of_float (float_mul (S754_finite false c (-53)) (float_of_int n)) = Ok (a * n / b).
Proof.
  intros Hc Hab Hb Hbc Heps Hsmall Hn.
  destruct n as [|m|m]; try lia.
  destruct (float_mul_rounded c m Hc) as (P & s & u & w & -> & HdP & HP & Hs & Hw & Hu & Hcm); [lia|].
  rewrite int_of_float_rounded by (try exact HdP; lia).
  f_equal. rewrite HP, Hs.
  replace (- (u - 53 - (u + w) + (u + w))) with (53 - u) by lia.
  rewrite rne_shift by lia.
  apply rne_floor with (eps := eps); try lia.
  - assert (eps * Z.pos m < 2 ^ 13 * 2 ^ 40) by nia.
    change (2 ^ 13 * 2 ^ 40) with (2 ^ 53) in *. lia.
  - assert (2 ^ 13 <= 2 ^ (53 - u)) by (apply Z.pow_le_mono_r; lia). lia.
Qed.

(** On such a product [math.floor] and [int] agree. *)
Lemma floor_of_float_mul (c : positive) (n : Z) :
  Z.pos (digits2_pos c) = 53 -> 1 <= n < 2 ^ 40 ->
  floor_of_float (float_mul (S754_finite false c (-53)) (float_of_int n))
  = int_of_float (float_mul (S754_finite false c (-53)) (float_of_int n)).
Proof.
  intros Hc Hn. destruct n as [|m|m]; try lia.
  destruct (float_mul_rounded c m Hc) as (P & s & u & w & -> & _); [lia|].
  unfold rounded. destruct (_ =? _); unfold floor_of_float, int_of_float;
    by destruct (0 <=? _).
Qed.

Lemma scaled_0_5 n : 1 <= n < 2 ^ 40 ->
  int_of_float (float_mul lit_0_5 (float_of_int n)) = Ok (n / 2).
Proof.
  intros Hn. unfold lit_0_5.
  rewrite (int_of_float_mul _ 1 2 0 n); try lia; try reflexivity.
  - now rewrite Z.mul_1_l.
Qed.

Lemma scaled_0_95 n : 1 <= n < 2 ^ 40 ->
  int_of_float (float_mul lit_0_95 (float_of_int n)) = Ok (19 * n / 20).
Proof.
  intros Hn. unfold lit_0_95.
  rewrite (int_of_float_mul _ 19 20 8 n); try lia; try reflexivity.
Qed.

Lemma scaled_0_99 n : 1 <= n < 2 ^ 40 ->
  int_of_float (float_mul lit_0_99 (float_of_int n)) = Ok (99 * n / 100).
Proof.
  intros Hn. unfold lit_0_99.
  rewrite (int_of_float_mul _ 99 100 8 n); try lia; try reflexivity.
Qed.

(** The three literals are the doubles nearest to 1/2, 95/100 and
    99/100: the correctly rounded quotients. *)
Lemma literals_nearest :
  lit_0_5 = float_div (float_of_int 1) (float_of_int 2)
  /\ lit_0_95 = float_div (float_of_int 95) (float_of_int 100)
  /\ lit_0_99 = float_div (float_of_int 99) (float_of_int 100).
Proof. by vm_compute. Qed.

End Float64.

Section ClientGet.
Import Py Client.
Context `{Lib}.

Lemma get_ok_cases http key r :
    get http key = Ok r ->
    r = not_found \/ exists raw c, r = mkKvReadResult true (Some raw) c.
  Proof.
    unfold get. destruct (http (get_request key)) as [resp|e]; simpl; [|discriminate].
    destruct (status_code resp =? 404)%Z; [intros [= <-]; by left|].
    destruct (raise_for_status resp); simpl; [|discriminate].
    destruct (resp_json resp) as [data|]; simpl; [|discriminate].
    destruct (dict_get data "found" (JBool false)) as [fr|]; simpl; [|discriminate].
    destruct (truthy fr); simpl; [|intros [= <-]; by left].
    destruct (dict_get data "valueBase64" JNull) as [vb|]; simpl; [|discriminate].
    destruct vb; try (intros [= <-]; by left); simpl; try discriminate.
    destruct (b64decode s) as [raw|]; simpl; [|discriminate].
    destruct (dict_get data "vectorClock" (JObj [])) as [cr|]; simpl; [|discriminate].
    destruct (clock_of _) as [c|]; simpl; [|discriminate].
    intros [= <-]. right. eauto.
  Qed.
(** C10. A read never returns [found = true] without a value: whenever
    [get] returns, [found = true] comes with decoded bytes; and a 404
    answer, a 200 answer whose body has a false (or no) [found], and a
    200 answer whose body has no [valueBase64] all return
    [found = false] with [value = None], without raising. *)
Theorem get_found_has_value :
  (forall http key r,
     get http key = Ok r -> found r = true -> exists raw, value r = Some raw)
  /\ (forall http key b,
        http (get_request key) = Ok (mkResponse 404 b) ->
        get http key = Ok not_found)
  /\ (forall http key o,
        http (get_request key) = Ok (mkResponse 200 (Some (JObj o))) ->
        truthy (default (JBool false) (items_get o "found")) = false ->
        get http key = Ok not_found)
  /\ (forall http key o,
        http (get_request key) = Ok (mkResponse 200 (Some (JObj o))) ->
        items_get o "valueBase64" = None ->
        get http key = Ok not_found).
Proof.
  repeat split.
  - intros http key r Hget Hfound.
    destruct (get_ok_cases http key r Hget) as [->|(raw & c & ->)]; [done|by exists raw].
  - intros http key b Hresp. unfold get. by rewrite Hresp.
  - intros http key o Hresp Hfalse. unfold get. rewrite Hresp. cbn.
    change (match items_get o "found" with Some v => v | None => JBool false end)
      with (default (JBool false) (items_get o "found")).
    by rewrite Hfalse.
  - intros http key o Hresp Hnone. unfold get. rewrite Hresp. cbn.
    rewrite Hnone. by destruct (negb _).
Qed.

End ClientGet.

(** ** Sorting *)

Section Sorting.
Import Py.

Lemma Qltb_true x y : Qltb x y = true <-> (x < y)%Q.
Proof.
  unfold Qltb. rewrite negb_true_iff, <- not_true_iff_false, Qle_bool_iff.
  split; [apply Qnot_le_lt|apply Qlt_not_le].
Qed.

Lemma Qltb_false x y : Qltb x y = false <-> (y <= x)%Q.
Proof. unfold Qltb. rewrite negb_false_iff. apply Qle_bool_iff. Qed.

Lemma insert_perm x l : insert x l ≡ₚ x :: l.
Proof.
  induction l as [|y l IH]; simpl; [done|].
  destruct (Qltb y x); [|done].
  rewrite IH. apply Permutation_swap.
Qed.

Lemma sorted_perm l : sorted l ≡ₚ l.
Proof.
  induction l as [|x l IH]; simpl; [done|].
  unfold sorted in *. simpl. by rewrite insert_perm, IH.
Qed.

Lemma sorted_length l : length (sorted l) = length l.
Proof. apply Permutation_length, sorted_perm. Qed.

Lemma insert_sorted x l :
  StronglySorted Qle l -> StronglySorted Qle (insert x l).
Proof.
  induction 1 as [|y l Hs IH Hall]; simpl.
  - repeat constructor.
  - destruct (Qltb y x) eqn:E.
    + constructor; [exact IH|].
      rewrite insert_perm. constructor; [|exact Hall].
      apply Qlt_le_weak. by apply Qltb_true.
    + apply Qltb_false in E. constructor; [by constructor|].
      constructor; [exact E|].
      eapply Forall_impl; [exact Hall|]. intros z Hz. by eapply Qle_trans.
Qed.

Lemma sorted_sorted l : StronglySorted Qle (sorted l).
Proof.
  induction l as [|x l IH]; [constructor|].
  unfold sorted in *. simpl. by apply insert_sorted.
Qed.

Lemma StronglySorted_lookup_le (l : list Q) i j a b :
  StronglySorted Qle l -> (i <= j)%nat ->
  l !! i = Some a -> l !! j = Some b -> (a <= b)%Q.
Proof.
  intros Hs. revert i j. induction Hs as [|x l Hs IH Hall]; intros i j Hij Hi Hj.
  - by rewrite lookup_nil in Hi.
  - destruct i as [|i], j as [|j]; simpl in *; try lia.
    + injection Hi as <-. injection Hj as <-. apply Qle_refl.
    + injection Hi as <-. rewrite Forall_forall in Hall.
      apply Hall. by eapply list_elem_of_lookup_2.
    + eapply IH; [|done..]. lia.
Qed.

Lemma getitem_lookup {A} (l : list A) (i : Z) :
  (0 <= i < Z.of_nat (length l))%Z ->
  exists x, getitem l i = Ok x /\ l !! Z.to_nat i = Some x.
Proof.
  intros Hi. unfold getitem.
  replace (i <? 0)%Z with false by (symmetry; apply Z.ltb_ge; lia).
  replace (i <? 0)%Z with false by (symmetry; apply Z.ltb_ge; lia).
  destruct (lookup_lt_is_Some_2 l (Z.to_nat i)) as [x Hx]; [lia|].
  exists x. by rewrite Hx.
Qed.

Lemma getitem_last {A} (l : list A) :
  l <> [] ->
  exists x, getitem l (-1) = Ok x /\ l !! (length l - 1)%nat = Some x.
Proof.
  intros Hl. unfold getitem.
  assert (0 < length l)%nat by (destruct l; simpl; [done|lia]).
  change (-1 <? 0)%Z with true. cbv iota.
  replace (Z.of_nat (length l) + -1 <? 0)%Z with false by (symmetry; apply Z.ltb_ge; lia).
  replace (Z.to_nat (Z.of_nat (length l) + -1)) with (length l - 1)%nat by lia.
  destruct (lookup_lt_is_Some_2 l (length l - 1)%nat) as [x Hx]; [lia|].
  exists x. by rewrite Hx.
Qed.

End Sorting.

(** ** The percentile lines *)

Section Percentiles.
Import Py Stats.

Lemma scaled_len_0_5 (n : nat) :
  (1 <= Z.of_nat n < 2 ^ 40)%Z -> scaled_len lit_0_5 n = Ok (Z.of_nat n / 2)%Z.
Proof. apply scaled_0_5. Qed.

Lemma scaled_len_0_95 (n : nat) :
  (1 <= Z.of_nat n < 2 ^ 40)%Z -> scaled_len lit_0_95 n = Ok (95 * Z.of_nat n / 100)%Z.
Proof.
  intros Hn. unfold scaled_len. rewrite scaled_0_95 by done. f_equal.
  change 95%Z with (5 * 19)%Z. change 100%Z with (5 * 20)%Z.
  rewrite <- Z.mul_assoc. by rewrite Z.div_mul_cancel_l.
Qed.

Lemma scaled_len_0_99 (n : nat) :
  (1 <= Z.of_nat n < 2 ^ 40)%Z -> scaled_len lit_0_99 n = Ok (99 * Z.of_nat n / 100)%Z.
Proof. apply scaled_0_99. Qed.

(** [s[k - 1]] as Python reads it, for [0 <= k <= len(s)]: position
    [k - 1], and the last element when [k = 0]. *)
Lemma getitem_pred (s : list Q) (k : Z) :
  s <> [] -> (0 <= k <= Z.of_nat (length s))%Z -> (k = 0 -> length s = 1%nat)%Z ->
  exists x, getitem s (k - 1) = Ok x
            /\ s !! Z.to_nat (Z.max 0 (Z.min (Z.of_nat (length s) - 1) (k - 1))) = Some x.
Proof.
  intros Hs Hk H0. destruct (decide (k = 0)%Z) as [->|Hne].
  - destruct (getitem_last s Hs) as (x & Hx & Hl). exists x. split; [exact Hx|].
    rewrite H0 in * by done. exact Hl.
  - destruct (getitem_lookup s (k - 1)) as (x & Hx & Hl); [lia|].
    exists x. split; [exact Hx|].
    by replace (Z.max 0 (Z.min (Z.of_nat (length s) - 1) (k - 1))) with (k - 1)%Z by lia.
Qed.

(** Where the three percentiles are read, for any run that has a
    successful request. *)
Lemma percentiles_spec (latencies : list Q) :
  latencies <> [] -> (Z.of_nat (length latencies) < 2 ^ 40)%Z ->
  let s := sorted latencies in
  let n := Z.of_nat (length latencies) in
  exists p50 p95 p99,
    percentiles latencies = Ok (p50, p95, p99)
    /\ s !! Z.to_nat (n / 2) = Some p50
    /\ s !! Z.to_nat (Z.max 0 (Z.min (n - 1) (95 * n / 100 - 1))) = Some p95
    /\ s !! Z.to_nat (Z.max 0 (Z.min (n - 1) (99 * n / 100 - 1))) = Some p99.
Proof.
  intros Hne Hlen s n.
  assert (Hn : (1 <= n)%Z) by (unfold n; destruct latencies; simpl in *; [done|lia]).
  assert (Hs : s <> []).
  { intros E. assert (length s = 0%nat) by (by rewrite E).
    unfold s in *. rewrite sorted_length in *. lia. }
  assert (Hls : Z.of_nat (length s) = n) by (unfold s; by rewrite sorted_length).
  unfold percentiles. fold s.
  replace (length s) with (length latencies) by (unfold s; by rewrite sorted_length).
  rewrite scaled_len_0_5, scaled_len_0_95, scaled_len_0_99 by (fold n; lia). fold n.
  destruct (getitem_lookup s (n / 2)) as (p50 & H50 & L50).
  { rewrite Hls. split; [apply Z.div_pos; lia|apply Z.div_lt_upper_bound; lia]. }
  assert (H95b : (0 <= 95 * n / 100 <= n)%Z).
  { split; [apply Z.div_pos; lia|]. apply Z.div_le_upper_bound; lia. }
  assert (H99b : (0 <= 99 * n / 100 <= n)%Z).
  { split; [apply Z.div_pos; lia|]. apply Z.div_le_upper_bound; lia. }
  destruct (getitem_pred s (95 * n / 100)) as (p95 & H95 & L95); [done|lia| |].
  { intros E. assert (n < 2)%Z; [|lia].
    destruct (Z_lt_le_dec n 2); [done|].
    assert (1 <= 95 * n / 100)%Z by (apply Z.div_le_lower_bound; lia). lia. }
  destruct (getitem_pred s (99 * n / 100)) as (p99 & H99 & L99); [done|lia| |].
  { intros E. assert (n < 2)%Z; [|lia].
    destruct (Z_lt_le_dec n 2); [done|].
    assert (1 <= 99 * n / 100)%Z by (apply Z.div_le_lower_bound; lia). lia. }
  exists p50, p95, p99. rewrite Hls in L95, L99.
  split; [|done].
  cbn. rewrite H50. cbn. rewrite H95. cbn. by rewrite H99.
Qed.

End Percentiles.

Section PercentileRule.
Import Py Stats.

Lemma pct_lookup (s : list Q) (c : positive) (a b eps : Z) :
  s <> [] -> (Z.of_nat (length s) < 2 ^ 40)%Z ->
  Z.pos (digits2_pos c) = 53%Z ->
  (0 < a < b)%Z -> (b < 2 ^ 13)%Z -> (b * Z.pos c = a * 2 ^ 53 - eps)%Z ->
  (0 <= eps < 2 ^ 13)%Z -> (eps = 0 \/ 2 * eps < a)%Z ->
  let n := Z.of_nat (length s) in
  exists x, Plots.pct s (S754_finite false c (-53)) = Ok x
            /\ s !! Z.to_nat (Z.max 0 (Z.min (n - 1) (a * n / b - 1))) = Some x.
Proof.
  intros Hs Hlen Hc Hab Hb Hbc Heps Hsmall n.
  assert (Hn : (1 <= n)%Z) by (unfold n; destruct s; simpl in *; [done|lia]).
  unfold Plots.pct. fold n.
  rewrite floor_of_float_mul, (int_of_float_mul c a b eps) by (done || lia).
  cbn. apply getitem_lookup. fold n. lia.
Qed.

(** The summary's p95 and p99 are the values the plotting helper [pct]
    reads; its p50 is read at position [n / 2], where [pct] reads
    [n / 2 - 1]. *)
Lemma percentiles_vs_pct (latencies : list Q) :
  latencies <> [] -> (Z.of_nat (length latencies) < 2 ^ 40)%Z ->
  let s := sorted latencies in
  let n := Z.of_nat (length latencies) in
  exists p50 p95 p99 q50,
    percentiles latencies = Ok (p50, p95, p99)
    /\ Plots.pct s lit_0_95 = Ok p95
    /\ Plots.pct s lit_0_99 = Ok p99
    /\ Plots.pct s lit_0_5 = Ok q50
    /\ s !! Z.to_nat (n / 2) = Some p50
    /\ s !! Z.to_nat (Z.max 0 (n / 2 - 1)) = Some q50.
Proof.
  intros Hne Hlen s n.
  destruct (percentiles_spec latencies Hne Hlen) as (p50 & p95 & p99 & Hp & L50 & L95 & L99).
  fold s n in L50, L95, L99.
  assert (Hs : s <> []).
  { intros E. assert (length s = 0%nat) by (by rewrite E).
    unfold s in *. rewrite sorted_length in *. destruct latencies; simpl in *; [done|lia]. }
  assert (Hls : Z.of_nat (length s) = n) by (unfold s; by rewrite sorted_length).
  assert (Hn : (1 <= n)%Z) by (unfold n; destruct latencies; simpl in *; [done|lia]).
  assert (Hlen' : (Z.of_nat (length s) < 2 ^ 40)%Z) by (rewrite Hls; lia).
  destruct (pct_lookup s 8556839292003942 95 100 40 Hs Hlen' eq_refl
              ltac:(lia) ltac:(lia) eq_refl ltac:(lia) ltac:(lia)) as (x95 & P95 & X95).
  destruct (pct_lookup s 8917127262193582 99 100 8 Hs Hlen' eq_refl
              ltac:(lia) ltac:(lia) eq_refl ltac:(lia) ltac:(lia)) as (x99 & P99 & X99).
  destruct (pct_lookup s 4503599627370496 1 2 0 Hs Hlen' eq_refl
              ltac:(lia) ltac:(lia) eq_refl ltac:(lia) ltac:(lia)) as (x50 & P50 & X50).
  rewrite Hls in X95, X99, X50.
  exists p50, p95, p99, x50.
  assert (x95 = p95) by congruence. assert (x99 = p99) by congruence. subst.
  repeat split; try done.
  rewrite <- X50. f_equal. f_equal. rewrite Z.mul_1_l.
  assert (n / 2 < n)%Z by (apply Z.div_lt_upper_bound; lia). lia.
Qed.

(** Every percentile is one of the latencies, hence between the smallest
    and the largest; p95 never exceeds p99, and p50 never exceeds p95
    unless there are exactly two latencies. *)
Lemma percentiles_order (latencies : list Q) (p50 p95 p99 : Q) :
  (Z.of_nat (length latencies) < 2 ^ 40)%Z ->
  percentiles latencies = Ok (p50, p95, p99) ->
  (p50 ∈ latencies /\ p95 ∈ latencies /\ p99 ∈ latencies)
  /\ (p95 <= p99)%Q
  /\ (length latencies <> 2%nat -> (p50 <= p95)%Q).
Proof.
  intros Hlen Hp.
  assert (Hne : latencies <> []).
  { intros ->. vm_compute in Hp. discriminate. }
  destruct (percentiles_spec latencies Hne Hlen) as (q50 & q95 & q99 & Hq & L50 & L95 & L99).
  rewrite Hp in Hq. injection Hq as <- <- <-.
  set (n := Z.of_nat (length latencies)) in *.
  assert (Hn : (1 <= n)%Z) by (unfold n; destruct latencies; simpl in *; [done|lia]).
  assert (H95b : (95 * n / 100 <= 99 * n / 100)%Z) by (apply Z.div_le_mono; lia).
  split; [|split].
  - repeat split; rewrite <- (sorted_perm latencies); by eapply list_elem_of_lookup_2.
  - eapply (StronglySorted_lookup_le (sorted latencies)); [apply sorted_sorted| |done..]. lia.
  - intros Hn2.
    eapply (StronglySorted_lookup_le (sorted latencies)); [apply sorted_sorted| |done..].
    assert (n / 2 < n)%Z by (apply Z.div_lt_upper_bound; lia).
    destruct (Z_lt_le_dec n 3) as [Hlt|Hge].
    + assert (n = 1)%Z as -> by lia. done.
    + assert (H50 : (n / 2 + 1 <= 95 * n / 100)%Z).
      { assert (Hdm := Z.div_mod n 2 ltac:(lia)).
        assert (Hr := Z.mod_pos_bound n 2 ltac:(lia)).
        apply Z.div_le_lower_bound; [lia|].
        destruct (Z_lt_le_dec n 5); [|lia].
        assert (n = 3 \/ n = 4)%Z as [-> | ->] by lia; done. }
      lia.
Qed.

End PercentileRule.

(** ** Claims on the percentile lines *)

(** C1 (code bug). Scenario D on the code: with latencies
    [10, 20, 30, 40, 50] the summary lines of [run_perf_ycsb] and
    [run_sac] read p50 at position [int(0.5 * 5) = 2], the value 30, and
    p95 at position [int(0.95 * 5) - 1 = 3], the value 40; the index rule
    [max(0, min(n - 1, floor(f * n) - 1))], which the repository's own
    [pct] helper applies to all three fractions, reads p50 at position 1,
    the value 20. *)
Theorem percentiles_scenario_D :
  Stats.percentiles scenario_D = Py.Ok (30, 40, 40)%Q
  /\ Plots.pct (Py.sorted scenario_D) Py.lit_0_5 = Py.Ok 20%Q
  /\ Plots.pct (Py.sorted scenario_D) Py.lit_0_95 = Py.Ok 40%Q
  /\ ~ (30 == 20)%Q.
Proof. repeat split; try by vm_compute. Qed.

(** C4 (code bug). With two successful requests, of latencies [1] and
    [2], the summary reports p50 = 2 and p95 = p99 = 1: the percentiles
    decrease. *)
Theorem percentiles_two_latencies :
  Stats.percentiles [1; 2]%Q = Py.Ok (2, 1, 1)%Q /\ ~ (2 <= 1)%Q.
Proof. split; by vm_compute. Qed.

(** ** The workload driver *)

Section Perf.
Import Py Client PerfYcsb.
Context `{Lib}.




Lemma max_of_cons x l : max_of (x :: l) = Ok (foldl Z.max x l).
Proof. done. Qed.

(** C5 (as amended). For every run with at least one successful request
    (and fewer than [2 ^ 40] records) the summary reports a throughput
    equal to the number of records, failures included, divided by the
    span from the earliest start to the latest end floored at a
    microsecond, and that throughput is positive. *)
Theorem summary_reports_throughput (run_records : list RequestRecord) :
  (exists r, r ∈ run_records /\ ok r <> 0%Z) ->
  (Z.of_nat (length run_records) < 2 ^ 40)%Z ->
  reports_throughput run_records.
Proof.
  intros (r & Hr & Hok) Hlen. unfold reports_throughput, summarize.
  set (latencies := map latency_ms (filter (fun r => ok r <> 0%Z) run_records)).
  assert (Hne : latencies <> []).
  { intros E. apply (f_equal length) in E. unfold latencies in E.
    rewrite length_map in E. cbn in E.
    assert (Hin : r ∈ filter (fun r => ok r <> 0%Z) run_records)
      by (by apply list_elem_of_filter).
    destruct (filter _ run_records); [by apply not_elem_of_nil in Hin|done]. }
  assert (Hll : (Z.of_nat (length latencies) < 2 ^ 40)%Z).
  { unfold latencies. rewrite length_map.
    pose proof (length_filter (fun r => ok r <> 0%Z) run_records). lia. }
  destruct (percentiles_spec latencies Hne Hll) as (p50 & p95 & p99 & Hp & _).
  destruct run_records as [|r0 rs]; [by apply not_elem_of_nil in Hr|].
  set (t_max := foldl Z.max (t_end_ms r0) (map t_end_ms rs)).
  set (t_min := foldl Z.min (t_start_ms r0) (map t_start_ms rs)).
  set (d := Qmax (inject_Z (t_max - t_min) / 1000) (1 / 1000000)).
  exists t_max, t_min, (inject_Z (Z.of_nat (length (r0 :: rs))) / d)%Q, p50, p95, p99.
  split; [done|]. split; [done|]. split; [|split].
  - destruct latencies as [|l0 ls] eqn:El; [done|].
    cbn [map max_of min_of mbind exc_bind bind]. fold t_max t_min. rewrite Hp. done.
  - done.
  - assert (Hd : (0 < d)%Q).
    { eapply Qlt_le_trans; [|apply Q.le_max_r]. done. }
    apply Qlt_shift_div_l; [done|]. rewrite Qmult_0_l.
    change 0%Q with (inject_Z 0). rewrite <- Zlt_Qlt. cbn [length]. lia.
Qed.

End Perf.


(** C5, the claim as stated fails: a run whose only request failed has a
    record and a positive span, and its summary reports no throughput. *)
Lemma throughput_not_reported_without_success :
  failed_run <> [] /\ positive_span failed_run /\ ~ reports_throughput failed_run.
Proof.
  split; [done|]. split.
  - exists 1005%Z, 1000%Z. repeat split; lia.
  - intros (t_max & t_min & thr & p50 & p95 & p99 & _ & _ & Hs & _).
    vm_compute in Hs. discriminate.
Qed.

Lemma summary_reports_throughput_witness : reports_throughput mixed_run.
Proof.
  apply summary_reports_throughput.
  - eexists. split; [apply list_elem_of_here|]. simpl. lia.
  - simpl. lia.
Defined.

(** ** The SLO classification probe *)

Section SacLoop.
Import Py Client Sac.
Context `{Lib}.
Variable slo : Config.SloConfig.

Lemma keys_length : length keys = num_keys.
Proof. unfold keys. by rewrite length_map, length_seq. Qed.

Lemma choice_in_range {A} (l : list A) i :
  (i < length l)%nat -> exists x, choice l i = Ok x /\ l !! i = Some x.
Proof.
  intros Hi. destruct (lookup_lt_is_Some_2 l i Hi) as [x Hx].
  exists x. unfold choice. by rewrite Hx.
Qed.

Lemma iteration_tagged node_names st :
  sac_draws_in_range node_names st ->
  exists sent, iteration slo node_names st = Ok sent /\ sac_tagged slo st sent.
Proof.
  intros [Hk Hn]. unfold iteration.
  destruct (choice_in_range keys (key_draw st)) as (key & -> & _);
    [by rewrite keys_length|].
  destruct (choice_in_range node_names (node_draw st) Hn) as (node_name & -> & _).
  cbn. unfold choose_deadline, sac_tagged.
  destruct (Qltb (x st) (1 # 2)) eqn:Ex; eexists; (split; [reflexivity|]);
    cbn; repeat split; done.
Qed.

Lemma loop_total stop_at node_names steps :
  Forall (sac_draws_in_range node_names) steps ->
  exists rs, loop slo stop_at node_names steps = Ok rs
             /\ length rs = passes now stop_at steps
             /\ Forall2 (sac_tagged slo) (take (passes now stop_at steps) steps) rs.
Proof.
  induction 1 as [|st steps Hst Hsteps IH]; cbn [loop passes].
  - exists []. by repeat split.
  - destruct (Qltb (now st) stop_at); [|exists []; by repeat split].
    destruct (iteration_tagged node_names st Hst) as (sent & -> & Htag).
    destruct IH as (rs & -> & Hlen & Hall). cbn.
    exists (sent :: rs). repeat split; [simpl; by rewrite Hlen|by constructor].
Qed.

End SacLoop.

Section SacClaims.
Import Py Client Sac.
Context `{Lib}.

Lemma choose_deadline_half (slo : Config.SloConfig) (k : Z) :
  choose_deadline slo (random_outcome k)
  = if (k <? 2 ^ 52)%Z then ("tight", Config.tight_deadline_ms slo)
    else ("relaxed", Config.relaxed_deadline_ms slo).
Proof.
  unfold choose_deadline, random_outcome.
  destruct (Z.ltb_spec k (2 ^ 52)) as [Hk|Hk].
  - replace (Qltb _ _) with true; [done|]. symmetry. apply Qltb_true.
    unfold Qlt. simpl. lia.
  - replace (Qltb _ _) with false; [done|]. symmetry. apply Qltb_false.
    unfold Qle. simpl. lia.
Qed.

(** C9. Half of the equally likely draws of [random.random()], those
    below [2 ^ 52 / 2 ^ 53], pick the tight class with the tight budget,
    the other half the relaxed class with the relaxed budget; and the
    loop of the SLO probe emits exactly one record per pass, each tagged
    with one class and that class's deadline, sent as the value of the
    configured header of the read, with the latency and the outcome of
    the read recorded whatever the deadline. *)
Theorem sac_one_class_per_iteration (slo : Config.SloConfig) (stop_at : Q)
    (node_names : list string) (steps : list Step) :
  Forall (sac_draws_in_range node_names) steps ->
  (forall k, (0 <= k < 2 ^ 53)%Z ->
     choose_deadline slo (random_outcome k)
     = if (k <? 2 ^ 52)%Z then ("tight", Config.tight_deadline_ms slo)
       else ("relaxed", Config.relaxed_deadline_ms slo))
  /\ exists rs,
       loop slo stop_at node_names steps = Ok rs
       /\ length rs = passes now stop_at steps
       /\ Forall2 (sac_tagged slo) (take (passes now stop_at steps) steps) rs.
Proof.
  intros Hsteps. split.
  - intros k _. apply choose_deadline_half.
  - by apply loop_total.
Qed.

End SacClaims.

Lemma sac_one_class_per_iteration_witness :
  exists rs,
    Sac.loop Config.default_slo 27 ["node-a"; "node-b"; "node-c"] [late_step] = Py.Ok rs
    /\ length rs = passes Sac.now 27 [late_step]
    /\ Forall2 (sac_tagged Config.default_slo)
         (take (passes Sac.now 27 [late_step]) [late_step]) rs.
Proof.
  apply (sac_one_class_per_iteration Config.default_slo 27
           ["node-a"; "node-b"; "node-c"] [late_step]).
  constructor; [split|constructor].
  - apply Nat.ltb_lt. vm_compute. reflexivity.
  - simpl. lia.
Defined.



Lemma get_found_has_value_witness :
  (exists raw, Client.value read_hi = Some raw)
  /\ Client.get (H := stub_lib) http_404 "k" = Py.Ok Client.not_found
  /\ Client.get (H := stub_lib) http_found_false "k" = Py.Ok Client.not_found
  /\ Client.get (H := stub_lib) http_no_value "k" = Py.Ok Client.not_found.
Proof.
  destruct (get_found_has_value (H := stub_lib)) as (H1 & H2 & H3 & H4).
  split; [|split; [|split]].
  - apply (H1 http_hi "k" read_hi); vm_compute; reflexivity.
  - apply (H2 http_404 "k" None). reflexivity.
  - apply (H3 http_found_false "k" [("found", Client.JBool false)]); reflexivity.
  - apply (H4 http_no_value "k" [("found", Client.JBool true)]); reflexivity.
Defined.

(** ** Failures of single requests *)

Section Failures.
Import Py Client.
Context `{Lib}.

Lemma passes_le {S : Type} (now : S -> Q) stop_at (steps : list S) :
  (passes now stop_at steps <= length steps)%nat.
Proof.
  induction steps as [|st steps IH]; simpl; [lia|].
  destruct (Qltb _ _); simpl; lia.
Qed.

Lemma dict_lookup_keys {V : Type} (d : Dict.t V) (k : string) :
  k ∈ Dict.keys d -> exists v, Dict.lookup d k = Ok v.
Proof.
  induction d as [|[k' v'] d IH]; simpl; [by intros ?%not_elem_of_nil|].
  intros Hk. destruct (String.eqb_spec k' k) as [->|Hne]; [by eexists|].
  apply IH. apply elem_of_cons in Hk as [->|Hk]; done.
Qed.






End Failures.



(** ** The staleness probe *)

Section StalenessProbe.
Import Py Client Staleness.
Context `{Lib}.
Variable clients : Dict.t Config.NodeConfig.
Variable primary_name : string.
Variable key : string.

Lemma classify_spec (r : KvReadResult) (expected : list Byte.byte) :
  (classify r expected = 0%Z \/ classify r expected = 1%Z)
  /\ (classify r expected = 1%Z <-> found r = false \/ value r <> Some expected)
  /\ (classify r expected = 0%Z <-> found r = true /\ value r = Some expected).
Proof.
  unfold classify. destruct (found r); cbn [andb negb];
    [case_bool_decide|]; intuition (first [congruence | lia]).
Qed.


Lemma stale_count_of_cons rec recs :
  stale_count_of (rec :: recs)
  = ((if bool_decide (is_stale rec <> 0%Z) then 1 else 0) + stale_count_of recs)%Z.
Proof.
  unfold stale_count_of. rewrite filter_cons.
  case_bool_decide; destruct (decide _); try done; simpl; lia.
Qed.




End StalenessProbe.


(** ** The convergence probe *)

Section Convergence.
Import Py AntiEntropy.

Lemma dict_keys_set {V : Type} (d : Dict.t V) k v :
  Dict.keys (Dict.set d k v)
  = if decide (k ∈ Dict.keys d) then Dict.keys d else Dict.keys d ++ [k].
Proof.
  induction d as [|[k' v'] d IH]; cbn [Dict.set Dict.keys map fst].
  - destruct (decide (k ∈ [])) as [Hin|_]; [by apply not_elem_of_nil in Hin|done].
  - change (map fst d) with (Dict.keys d) in *.
    destruct (String.eqb_spec k' k) as [->|Hne]; cbn [Dict.keys map fst].
    + destruct (decide (k ∈ k :: Dict.keys d)) as [_|Hn]; [done|].
      exfalso. apply Hn. left.
    + change (map fst (Dict.set d k v)) with (Dict.keys (Dict.set d k v)).
      rewrite IH.
      destruct (decide (k ∈ Dict.keys d)) as [Hin|Hin];
        destruct (decide (k ∈ k' :: Dict.keys d)) as [Hin'|Hin']; try done.
      * exfalso. apply Hin'. by right.
      * apply elem_of_cons in Hin' as [?|?]; [congruence|done].
Qed.

Lemma build_cluster_clients_NoDup (c : Config.ClusterConfig) :
  NoDup (Dict.keys (build_cluster_clients c)).
Proof.
  unfold build_cluster_clients.
  assert (Hgen : forall nodes (d : Dict.t Config.NodeConfig),
    NoDup (Dict.keys d) ->
    NoDup (Dict.keys (foldl (fun clients node => Dict.set clients (Config.name node) node)
                        d nodes))).
  { induction nodes as [|n nodes IH]; intros d Hd; simpl; [done|].
    apply IH. rewrite dict_keys_set. destruct (decide _); [done|].
    apply NoDup_app. split; [done|]. split; [|apply NoDup_singleton].
    intros x Hx ->%list_elem_of_singleton. done. }
  apply Hgen. constructor.
Qed.

Lemma snapshot_roots_ok (fetch : string -> Exc MerkleSnapshot) names roots :
  (forall n, n ∈ names -> is_ok (fetch n) = true) ->
  exists roots',
    snapshot_roots fetch names roots = Ok roots'
    /\ (forall n, n ∈ names ->
          exists snap, fetch n = Ok snap
                       /\ roots' !! n = Some (default "" (rootHashBase64 snap)))
    /\ (forall n, n ∉ names -> roots' !! n = roots !! n).
Proof.
  revert roots. induction names as [|name names IH]; intros roots Hok.
  - exists roots. split_and!; [done|by intros n ?%not_elem_of_nil|done].
  - cbn [snapshot_roots].
    destruct (fetch name) as [snap|] eqn:Hf; [|by specialize (Hok name ltac:(left)); rewrite Hf in Hok].
    cbn. destruct (IH (<[name:=default "" (rootHashBase64 snap)]> roots)) as (roots' & -> & Hin & Hout).
    { intros n Hn. apply Hok. by right. }
    exists roots'. split_and!; [done| |].
    + intros n Hn. destruct (decide (n ∈ names)) as [Hn'|Hn']; [by apply Hin|].
      apply elem_of_cons in Hn as [->|Hn]; [|done].
      exists snap. split; [done|]. rewrite Hout by done. apply lookup_insert_eq.
    + intros n Hn. apply not_elem_of_cons in Hn as [Hne Hn].
      rewrite Hout by done. by apply lookup_insert_ne.
Qed.

End Convergence.

Section Pairs.
Import Py AntiEntropy.

Lemma bind_singleton_fmap {A B} (g : A -> B) (l : list A) :
  l ≫= (fun x => [g x]) = g <$> l.
Proof. induction l as [|x l IH]; [done|]. by rewrite bind_cons, IH. Qed.

Lemma index_pairs_S n :
  index_pairs (S n)
  = (pair 0%nat <$> seq 1 n) ++ ((fun ij => (S ij.1, S ij.2)) <$> index_pairs n).
Proof.
  unfold index_pairs. cbn [seq]. rewrite bind_cons. f_equal.
  - replace (S n - (0 + 1))%nat with n by lia. apply bind_singleton_fmap.
  - rewrite <- fmap_S_seq. generalize (seq 0 n). intros l.
    induction l as [|i l IH]; [done|].
    rewrite fmap_cons, !bind_cons, fmap_app, IH. f_equal.
    replace (S n - (S i + 1))%nat with (n - (i + 1))%nat by lia.
    replace (S i + 1)%nat with (S (i + 1)) by lia.
    rewrite <- fmap_S_seq, !bind_singleton_fmap, <- !list_fmap_compose. done.
Qed.

Lemma elem_of_index_pairs n i j :
  (i, j) ∈ index_pairs n -> (i < j < n)%nat.
Proof.
  unfold index_pairs. intros (i' & Hj & Hi)%list_elem_of_bind.
  apply list_elem_of_bind in Hj as (j' & Heq & Hj).
  apply list_elem_of_singleton in Heq. injection Heq as -> ->.
  apply elem_of_seq in Hi, Hj. lia.
Qed.

Lemma collect_fmap {A B} (f : A -> Exc B) (g : A -> B) (l : list A) :
  (forall x, x ∈ l -> f x = Ok (g x)) -> collect f l = Ok (g <$> l).
Proof.
  induction l as [|x l IH]; intros Hf; [done|].
  cbn [collect]. rewrite (Hf x) by left. cbn.
  rewrite IH by (intros y Hy; apply Hf; by right). done.
Qed.

Lemma nth_seq_fmap (l : list string) :
  (fun j => nth j l "") <$> seq 0 (length l) = l.
Proof.
  induction l as [|a l IH]; [done|].
  cbn [length seq fmap list_fmap]. f_equal.
  rewrite <- fmap_S_seq, <- list_fmap_compose. exact IH.
Qed.

Lemma sample_pairs_index t_offset roots (names : list string) :
  (fun ij => sample_for t_offset roots (nth ij.1 names "") (nth ij.2 names ""))
    <$> index_pairs (length names)
  = sample_pairs t_offset roots names.
Proof.
  induction names as [|a names IH]; [done|].
  cbn [length sample_pairs]. rewrite index_pairs_S, fmap_app. f_equal.
  - rewrite <- list_fmap_compose, <- fmap_S_seq, <- list_fmap_compose.
    rewrite <- (nth_seq_fmap names) at 2. by rewrite <- list_fmap_compose.
  - rewrite <- list_fmap_compose. exact IH.
Qed.

Lemma getitem_nth (names : list string) (i : nat) :
  (i < length names)%nat -> getitem names (Z.of_nat i) = Ok (nth i names "").
Proof.
  intros Hi. destruct (getitem_lookup names (Z.of_nat i)) as (x & -> & Hx); [lia|].
  rewrite Nat2Z.id in Hx. f_equal. symmetry. by apply nth_lookup_Some.
Qed.

Lemma lookup_nth (names : list string) (i : nat) :
  (i < length names)%nat -> names !! i = Some (nth i names "").
Proof.
  intros Hi. destruct (lookup_lt_is_Some_2 names i Hi) as [x Hx].
  by rewrite (nth_lookup_Some _ _ "" _ Hx).
Qed.

Lemma pair_sample_ok t_offset (names : list string) (roots : gmap string string) ij :
  (forall n, n ∈ names -> is_Some (roots !! n)) ->
  ij ∈ index_pairs (length names) ->
  pair_sample t_offset names roots ij
  = Ok (sample_for t_offset roots (nth ij.1 names "") (nth ij.2 names "")).
Proof.
  intros Hroots Hij. destruct ij as [i j].
  apply elem_of_index_pairs in Hij. unfold pair_sample. cbn [fst snd].
  rewrite !getitem_nth by lia. cbn.
  destruct (Hroots (nth i names "")) as [r1 Hr1].
  { eapply list_elem_of_lookup_2, lookup_nth. lia. }
  destruct (Hroots (nth j names "")) as [r2 Hr2].
  { eapply list_elem_of_lookup_2, lookup_nth. lia. }
  unfold roots_get, sample_for. rewrite Hr1. cbn. by rewrite Hr2.
Qed.

End Pairs.

Section SamplePairs.
Import Py AntiEntropy.
Variable t_offset : Q.
Variable roots : gmap string string.

Lemma pair_count_S n : pair_count (S n) = (n + pair_count n)%nat.
Proof.
  unfold pair_count. replace (S n - 1)%nat with n by lia.
  destruct n as [|n]; [done|].
  replace (S (S n) * S n)%nat with (S n * 2 + S n * (S n - 1))%nat by nia.
  by rewrite Nat.div_add_l.
Qed.

Lemma sample_pairs_length names :
  length (sample_pairs t_offset roots names) = pair_count (length names).
Proof.
  induction names as [|a names IH]; [done|].
  cbn [sample_pairs length]. by rewrite length_app, length_map, IH, pair_count_S.
Qed.

Lemma sample_pairs_elem names s :
  s ∈ sample_pairs t_offset roots names ->
  node_a s ∈ names /\ node_b s ∈ names
  /\ (NoDup names -> node_a s <> node_b s)
  /\ s = sample_for t_offset roots (node_a s) (node_b s).
Proof.
  induction names as [|a names IH]; [by intros ?%not_elem_of_nil|].
  cbn [sample_pairs]. intros [Hs|Hs]%elem_of_app.
  - apply list_elem_of_fmap in Hs as (b & -> & Hb). cbn.
    split_and!; [left|by right| |done].
    intros [Ha _]%NoDup_cons ->. done.
  - destruct (IH Hs) as (Ha & Hb & Hne & Heq).
    split_and!; [by right|by right| |done].
    intros [_ Hnd]%NoDup_cons. by apply Hne.
Qed.

Lemma covers_sample_for a b x y :
  covers a b (sample_for t_offset roots x y) = true
  <-> (x = a /\ y = b) \/ (x = b /\ y = a).
Proof.
  unfold covers, sample_for. cbn.
  rewrite orb_true_iff, !andb_true_iff, !String.eqb_eq. done.
Qed.

Lemma filter_none {A} (P : A -> Prop) `{forall x, Decision (P x)} (l : list A) :
  (forall x, x ∈ l -> ~ P x) -> filter P l = [].
Proof.
  induction l as [|x l IH]; intros Hl; [done|].
  rewrite filter_cons_False by (apply Hl; left).
  apply IH. intros y Hy. apply Hl. by right.
Qed.

Lemma covers_absent a b names :
  a ∉ names \/ b ∉ names ->
  filter (fun s => covers a b s = true) (sample_pairs t_offset roots names) = [].
Proof.
  intros Habs. apply filter_none. intros s Hs Hc.
  destruct (sample_pairs_elem names s Hs) as (Ha & Hb & _ & Heq).
  rewrite Heq in Hc. apply covers_sample_for in Hc.
  destruct Habs, Hc as [[]|[]]; congruence.
Qed.

Lemma covers_first_count a b x names :
  NoDup names -> x ∉ names -> a <> b ->
  length (filter (fun s => covers a b s = true)
            (map (sample_for t_offset roots x) names))
  = if decide ((x = a /\ b ∈ names) \/ (x = b /\ a ∈ names)) then 1%nat else 0%nat.
Proof.
  intros Hnd Hx Hab. induction Hnd as [|y names Hy Hnd IH].
  - cbn. destruct (decide _) as [[[_ ?%not_elem_of_nil]|[_ ?%not_elem_of_nil]]|]; done.
  - apply not_elem_of_cons in Hx as [Hxy Hx]. specialize (IH Hx).
    cbn [map]. rewrite filter_cons.
    destruct (decide (covers a b (sample_for t_offset roots x y) = true)) as [Hc|Hc].
    + apply covers_sample_for in Hc. cbn [length]. rewrite IH.
      destruct (decide ((x = a /\ b ∈ names) \/ (x = b /\ a ∈ names))) as [Hd|Hd];
        destruct (decide ((x = a /\ b ∈ y :: names) \/ (x = b /\ a ∈ y :: names)))
          as [Hd'|Hd']; try done; exfalso.
      * destruct Hc as [[-> ->]|[-> ->]], Hd as [[? ?]|[? ?]]; congruence.
      * destruct Hc as [[-> ->]|[-> ->]], Hd as [[? ?]|[? ?]]; congruence.
      * apply Hd'. destruct Hc as [[-> ->]|[-> ->]]; [left|right]; (split; [done|left]).
    + rewrite IH.
      destruct (decide ((x = a /\ b ∈ names) \/ (x = b /\ a ∈ names))) as [Hd|Hd];
        destruct (decide ((x = a /\ b ∈ y :: names) \/ (x = b /\ a ∈ y :: names)))
          as [Hd'|Hd']; try done; exfalso.
      * apply Hd'. destruct Hd as [[? ?]|[? ?]]; [left|right]; (split; [done|by right]).
      * destruct Hd' as [[-> [->|?]%elem_of_cons]|[-> [->|?]%elem_of_cons]].
        -- apply Hc, covers_sample_for. by left.
        -- apply Hd. by left.
        -- apply Hc, covers_sample_for. by right.
        -- apply Hd. by right.
Qed.

Lemma covers_once a b names :
  NoDup names -> a ∈ names -> b ∈ names -> a <> b ->
  length (filter (fun s => covers a b s = true) (sample_pairs t_offset roots names))
  = 1%nat.
Proof.
  intros Hnd. induction Hnd as [|x names Hx Hnd IH]; intros Ha Hb Hab.
  - by apply not_elem_of_nil in Ha.
  - cbn [sample_pairs]. rewrite filter_app, length_app, covers_first_count by done.
    apply elem_of_cons in Ha, Hb.
    destruct (decide ((x = a /\ b ∈ names) \/ (x = b /\ a ∈ names))) as [Hd|Hd].
    + rewrite covers_absent; [done|].
      destruct Hd as [[-> _]|[-> _]]; [by left|by right].
    + destruct Ha as [->|Ha], Hb as [->|Hb]; try done.
      * exfalso. apply Hd. by left.
      * exfalso. apply Hd. by right.
      * by rewrite IH.
Qed.

End SamplePairs.

Section ConvergenceProbe.
Import Py AntiEntropy.

Lemma observe_once_total node_names start_time tk :
  NoDup node_names ->
  (forall n, n ∈ node_names -> is_ok (fetch tk n) = true) ->
  exists samples,
    observe_once node_names start_time tk = Ok samples
    /\ pass_sampled node_names start_time tk samples.
Proof.
  intros Hnd Hok. unfold observe_once.
  destruct (snapshot_roots_ok (fetch tk) node_names ∅ Hok) as (roots & -> & Hin & _).
  cbn.
  rewrite (collect_fmap _
    (fun ij => sample_for (t_now tk - start_time) roots
                 (nth ij.1 node_names "") (nth ij.2 node_names ""))).
  2:{ intros ij Hij. apply pair_sample_ok; [|done].
      intros n Hn. destruct (Hin n Hn) as (snap & _ & ->). by eexists. }
  rewrite sample_pairs_index. eexists. split; [reflexivity|].
  split_and!.
  - apply sample_pairs_length.
  - intros a b Ha Hb Hab. by apply covers_once.
  - apply Forall_forall. intros s Hs.
    destruct (sample_pairs_elem _ _ _ _ Hs) as (Ha & Hb & Hne & Heq).
    destruct (Hin _ Ha) as (sa & Hfa & Hra). destruct (Hin _ Hb) as (sb & Hfb & Hrb).
    unfold sample_of_pass, digest_of. rewrite Hfa, Hfb.
    rewrite Heq. cbn. rewrite Hra, Hrb. cbn.
    split_and!; try done. rewrite Heq in Hne. by apply Hne.
Qed.

Lemma observe_in_sync node_names start_time end_time ticks :
  NoDup node_names ->
  (forall tk, tk ∈ ticks ->
     exists dg, forall n, n ∈ node_names -> digest_of tk n = Some dg) ->
  exists samples,
    observe node_names start_time end_time ticks = Ok samples
    /\ length samples
       = (passes t_check end_time ticks * pair_count (length node_names))%nat
    /\ Forall (fun s => in_sync s = 1%Z) samples.
Proof.
  intros Hnd. induction ticks as [|tk ticks IH]; intros Hdg; cbn [observe passes].
  - by exists [].
  - destruct (Qltb (t_check tk) end_time); [|by exists []].
    destruct (Hdg tk) as (dg & Hsame); [left|].
    destruct (observe_once_total node_names start_time tk Hnd)
      as (samples & -> & Hlen & _ & Hall).
    { intros n Hn. specialize (Hsame n Hn). unfold digest_of in Hsame.
      by destruct (fetch tk n). }
    destruct IH as (rest & -> & Hrest & Hsync).
    { intros tk' Htk'. apply Hdg. by right. }
    exists (samples ++ rest). cbn. split_and!; [done| |].
    + rewrite length_app, Hlen, Hrest. reflexivity.
    + apply Forall_app. split; [|done].
      eapply Forall_impl; [exact Hall|]. intros s (Ha & Hb & _ & _ & Hda & Hdb & ->).
      rewrite (Hsame _ Ha) in Hda. rewrite (Hsame _ Hb) in Hdb.
      injection Hda as <-. injection Hdb as <-. by rewrite String.eqb_refl.
Qed.

(** C7. With the node names of the client dict, a pass of the
    observation loop in which every node answers the snapshot request
    emits exactly one sample for every unordered pair of distinct nodes,
    each carrying the digests the two nodes returned in that pass and
    [in_sync] equal to the equality of the two digests as strings; and
    when in every pass all nodes return the same digest, every sample of
    the run has [in_sync = 1]. *)
Theorem convergence_samples (c : Config.ClusterConfig) :
  let node_names := Dict.keys (build_cluster_clients c) in
  (forall start_time tk,
     (forall n, n ∈ node_names -> is_ok (fetch tk n) = true) ->
     exists samples,
       observe_once node_names start_time tk = Ok samples
       /\ pass_sampled node_names start_time tk samples)
  /\ (forall start_time end_time ticks,
        (forall tk, tk ∈ ticks ->
           exists dg, forall n, n ∈ node_names -> digest_of tk n = Some dg) ->
        exists samples,
          observe node_names start_time end_time ticks = Ok samples
          /\ length samples
             = (passes t_check end_time ticks * pair_count (length node_names))%nat
          /\ Forall (fun s => in_sync s = 1%Z) samples).
Proof.
  intros node_names. pose proof (build_cluster_clients_NoDup c) as Hnd. split.
  - intros. by apply observe_once_total.
  - intros. by apply observe_in_sync.
Qed.

End ConvergenceProbe.

Lemma convergence_samples_witness :
  let node_names := Dict.keys (build_cluster_clients Config.DEFAULT_CLUSTER) in
  (exists samples,
     AntiEntropy.observe_once node_names 0 (tick_in_sync 1) = Py.Ok samples
     /\ pass_sampled node_names 0 (tick_in_sync 1) samples)
  /\ (exists samples,
        AntiEntropy.observe node_names 0 30 [tick_in_sync 1; tick_in_sync 2]
        = Py.Ok samples
        /\ length samples
           = (passes AntiEntropy.t_check 30 [tick_in_sync 1; tick_in_sync 2]
              * pair_count (length node_names))%nat
        /\ Forall (fun s => AntiEntropy.in_sync s = 1%Z) samples).
Proof.
  intros node_names.
  destruct (convergence_samples Config.DEFAULT_CLUSTER) as [H1 H2]. split.
  - apply H1. intros n _. reflexivity.
  - apply H2. intros tk Htk. exists "cm9vdA==". intros n _.
    apply elem_of_cons in Htk as [->|Htk]; [reflexivity|].
    apply list_elem_of_singleton in Htk as ->. reflexivity.
Defined.

(** * The rest of the harness *)

(** ** The cluster configuration and the client dict *)

Section Cluster.
Import Py.

(** [by_name] returns the first node that carries the name, and raises
    [KeyError] exactly when no node does; asked for the name of the
    first node it returns the primary. *)
Theorem by_name_first (c : Config.ClusterConfig) (n : string) :
  match Config.by_name c n with
  | Ok node =>
      Config.name node = n
      /\ exists pre post,
           Config.nodes c = pre ++ node :: post
           /\ Forall (fun m => Config.name m <> n) pre
  | Raise e =>
      e = KeyError n /\ Forall (fun m => Config.name m <> n) (Config.nodes c)
  end
  /\ (forall p, Config.primary c = Ok p -> Config.by_name c (Config.name p) = Ok p).
Proof.
  unfold Config.by_name, Config.primary. split.
  - induction (Config.nodes c) as [|m ns IH]; simpl.
    + split; [done|constructor].
    + destruct (String.eqb (Config.name m) n) eqn:E.
      * apply String.eqb_eq in E. split; [done|]. exists [], ns. split; [done|constructor].
      * apply String.eqb_neq in E.
        destruct (Config.by_name_in ns n) as [node|e].
        -- destruct IH as (Hn & pre & post & -> & Hpre). split; [done|].
           exists (m :: pre), post. split; [done|by constructor].
        -- destruct IH as (-> & Hall). split; [done|by constructor].
  - intros p. destruct (Config.nodes c) as [|m ns]; [discriminate|].
    intros [= ->]. simpl. by rewrite String.eqb_refl.
Qed.

Lemma dict_lookup_set {V : Type} (d : Dict.t V) (k : string) (v : V) (k' : string) :
  Dict.lookup (Dict.set d k v) k'
  = if String.eqb k k' then Ok v else Dict.lookup d k'.
Proof.
  induction d as [|[k0 v0] d IH]; simpl; [done|].
  destruct (String.eqb k0 k) eqn:E0; simpl.
  - apply String.eqb_eq in E0 as ->. by destruct (String.eqb k k').
  - destruct (String.eqb k0 k') eqn:E1; [|exact IH].
    apply String.eqb_eq in E1 as ->. by rewrite String.eqb_sym, E0.
Qed.

(** The client dict answers for exactly the configured names, and under
    a name configured more than once it holds the client of the last
    such node. *)
Theorem cluster_clients_lookup (c : Config.ClusterConfig) (n : string) :
  match Dict.lookup (build_cluster_clients c) n with
  | Ok node =>
      Config.name node = n
      /\ exists pre post,
           Config.nodes c = pre ++ node :: post
           /\ Forall (fun m => Config.name m <> n) post
  | Raise e =>
      e = KeyError n /\ Forall (fun m => Config.name m <> n) (Config.nodes c)
  end.
Proof.
  unfold build_cluster_clients.
  induction (Config.nodes c) as [|m ns IH] using rev_ind; simpl.
  - split; [done|constructor].
  - rewrite foldl_app. simpl. rewrite dict_lookup_set.
    destruct (String.eqb (Config.name m) n) eqn:E.
    + apply String.eqb_eq in E. split; [done|]. exists ns, []. split; [done|constructor].
    + apply String.eqb_neq in E.
      destruct (Dict.lookup _ n) as [node|e].
      * destruct IH as (Hn & pre & post & -> & Hpost). split; [done|].
        exists pre, (post ++ [m]). split; [by rewrite <- app_assoc|].
        apply Forall_app. split; [done|by constructor].
      * destruct IH as (-> & Hall). split; [done|].
        apply Forall_app. split; [done|by constructor].
Qed.

End Cluster.

(** ** Reads and writes through the client *)

Section ClientMore.
Import Py Client.
Context `{Lib}.

Lemma clock_of_items_int its acc :
  int_clock its -> exists c, clock_of_items its acc = Ok c.
Proof.
  revert acc. induction its as [|[k v] its IH]; intros acc Hc; simpl; [eauto|].
  apply Forall_cons in Hc as [[z Hz] Hc]. simpl in Hz. subst v. simpl. by apply IH.
Qed.

Lemma raise_for_status_ok s b :
  success_status s -> raise_for_status (mkResponse s b) = Ok tt.
Proof.
  unfold raise_for_status, success_status. simpl. intros [H1 H2].
  apply Z.leb_le in H1, H2. by rewrite H1, H2.
Qed.

Lemma get_answers_with http key v :
  b64decode (b64encode v) = Some v ->
  answers_with http key v ->
  exists c, get http key = Ok (mkKvReadResult true (Some v) c).
Proof.
  intros Hrt (s & o & Hresp & Hs & Hf & Hv & Hc).
  unfold get. rewrite Hresp. cbn.
  assert (E : (s =? 404)%Z = false) by (unfold success_status in Hs; lia).
  rewrite E, (raise_for_status_ok s _ Hs). cbn.
  rewrite Hf. cbn. rewrite Hv. cbn. rewrite Hrt. cbn.
  destruct (items_get o "vectorClock") as [[| | | | | |its]|]; try done.
  - destruct (clock_of_items_int its ∅ Hc) as (c & Hc').
    destruct its as [|it its]; cbn.
    + eauto.
    + cbn in Hc'. rewrite Hc'. cbn. eauto.
  - cbn. eauto.
Qed.

(** What a write sends can be read back: when the store answers the
    read with the Base64 text the write carried in its [valueBase64]
    field (and a vector clock of integers, or none), [get] returns
    [found = true] with the bytes that were written. *)
Theorem put_then_get_round_trip (http : Transport) (key : string)
    (v : list Byte.byte) (coord_node_id : option string) payload s o :
  b64decode (b64encode v) = Some v ->
  json_body (put_request key v coord_node_id) = Some (JObj payload) ->
  http (get_request key) = Ok (mkResponse s (Some (JObj o))) ->
  success_status s ->
  items_get o "found" = Some (JBool true) ->
  items_get o "valueBase64" = items_get payload "valueBase64" ->
  match items_get o "vectorClock" with
  | None => True
  | Some (JObj its) => int_clock its
  | Some _ => False
  end ->
  exists c, get http key = Ok {| found := true; value := Some v; clock := c |}.
Proof.
  intros Hrt Hp Hresp Hs Hf Hv Hc.
  assert (Hpv : items_get payload "valueBase64" = Some (JStr (b64encode v))).
  { unfold put_request in Hp. simpl in Hp. injection Hp as <-.
    destruct coord_node_id as [id|]; [destruct (negb (String.eqb id ""))|]; done. }
  apply get_answers_with; [done|].
  exists s, o. rewrite Hv, Hpv. done.
Qed.

End ClientMore.

Lemma put_then_get_round_trip_witness :
  exists c,
    @Client.get stub_lib http_hi "k"
    = Py.Ok {| Client.found := true;
               Client.value := Some (String.list_byte_of_string "hi");
               Client.clock := c |}.
Proof.
  refine (@put_then_get_round_trip stub_lib http_hi
            "k" (String.list_byte_of_string "hi") (Some "node-a") _ 200 _
            eq_refl eq_refl eq_refl _ eq_refl eq_refl _).
  - unfold success_status. lia.
  - constructor; [by exists 1%Z|constructor].
Defined.

(** ** The functional test *)

Section FunctionalTest.
Import Py Client Functional.
Context `{Lib}.

Lemma put_accepted http key v coord :
  accepts http (put_request key v coord) -> put http key v coord = Ok tt.
Proof.
  intros (s & b & Hresp & Hs). unfold put. rewrite Hresp. cbn.
  by apply raise_for_status_ok.
Qed.

Lemma delete_accepted http key coord :
  accepts http (delete_request key coord) -> delete http key coord = Ok tt.
Proof.
  intros (s & b & Hresp & Hs). unfold delete. rewrite Hresp. cbn.
  by apply raise_for_status_ok.
Qed.

(** Against a primary that follows the protocol (it accepts the write
    and the delete and returns what was written) the functional test
    runs to the end, and its verdict is the effect of the delete:
    [Overall PASS=True] when the read after the delete is answered with
    [404], [Overall PASS=False] when that read still returns the value. *)
Theorem functional_verdict (cfg : Config.ExperimentConfig)
    (clients : Dict.t Config.NodeConfig) (token : string) (env : Env)
    (primary : Config.NodeConfig) :
  b64decode (b64encode value) = Some value ->
  Config.primary (Config.cluster cfg) = Ok primary ->
  Config.name primary ∈ Dict.keys clients ->
  accepts (put_http env)
    (put_request ("func-" +:+ token) value (Some (Config.name primary))) ->
  answers_with (get_http env) ("func-" +:+ token) value ->
  accepts (delete_http env)
    (delete_request ("func-" +:+ token) (Some (Config.name primary))) ->
  ((exists b, get2_http env (get_request ("func-" +:+ token)) = Ok (mkResponse 404 b)) ->
   run_functional cfg clients token env
   = (Ok tt, Some {| pass1 := Some true; pass2 := Some true; overall := Some true |}))
  /\ (answers_with (get2_http env) ("func-" +:+ token) value ->
      run_functional cfg clients token env
      = (Ok tt, Some {| pass1 := Some true; pass2 := Some false; overall := Some false |})).
Proof.
  intros Hrt Hprim Hin Hput Hget Hdel.
  destruct (dict_lookup_keys clients _ Hin) as (cl & Hcl).
  destruct (get_answers_with _ _ _ Hrt Hget) as (c & Hg).
  unfold run_functional. rewrite Hprim, Hcl.
  rewrite (put_accepted _ _ _ _ Hput). cbn. rewrite Hg. cbn.
  rewrite (delete_accepted _ _ _ Hdel). cbn.
  rewrite bool_decide_eq_true_2 by done.
  split.
  - intros (b & H404). unfold get. rewrite H404. by cbn.
  - intros Hget2. destruct (get_answers_with _ _ _ Hrt Hget2) as (c2 & Hg2).
    by rewrite Hg2.
Qed.

End FunctionalTest.

Lemma functional_verdict_witness :
  @Functional.run_functional functional_lib Config.CONFIG
    (build_cluster_clients Config.DEFAULT_CLUSTER) "ab12cd34" conforming_env
  = (Py.Ok tt, Some {| Functional.pass1 := Some true; Functional.pass2 := Some true;
                       Functional.overall := Some true |}).
Proof.
  refine (proj1 (@functional_verdict functional_lib Config.CONFIG
                   (build_cluster_clients Config.DEFAULT_CLUSTER) "ab12cd34"
                   conforming_env (Config.mkNodeConfig "node-a" "http://localhost:8080")
                   eq_refl eq_refl _ _ _ _) _).
  - vm_compute. apply list_elem_of_here.
  - exists 200%Z, (Some (Client.JObj [])). split; [reflexivity|]. unfold success_status. lia.
  - eexists 200%Z, _. split; [reflexivity|]. split; [unfold success_status; lia|].
    split; [reflexivity|]. split; [reflexivity|].
    constructor; [by exists 1%Z|constructor].
  - exists 204%Z, None. split; [reflexivity|]. unfold success_status. lia.
  - exists None. reflexivity.
Defined.

(** ** The chaos workload *)

Section ChaosRun.
Import Py Client Chaos.
Context `{Lib}.
Variable clients : Dict.t Config.NodeConfig.

Lemma chaos_keys_length : length keys = num_keys.
Proof. unfold keys. by rewrite length_map, length_seq. Qed.

Lemma chaos_iteration_total st :
  chaos_draws_in_range clients st ->
  exists rec written,
    iteration clients st = Ok (rec, written)
    /\ chaos_recorded st rec
    /\ (ok rec = 0%Z \/ ok rec = 1%Z)
    /\ chaos_logged written = chaos_failures [rec].
Proof.
  intros [Hk Hn]. unfold iteration.
  destruct (choice_in_range keys (key_draw st)) as (key & Hkey & _);
    [by rewrite chaos_keys_length|].
  destruct (choice_in_range (Dict.keys clients) (node_draw st) Hn)
    as (node_name & Hnode & Hl).
  destruct (dict_lookup_keys clients node_name) as (cl & Hcl);
    [by eapply list_elem_of_lookup_2|].
  rewrite Hkey, Hnode. cbn. rewrite Hcl. cbn.
  set (o := if Qltb (x st) lit_0_7 then PerfYcsb.GET else PerfYcsb.PUT).
  destruct (request o key node_name st) as [[]|e] eqn:Hreq;
    eexists _, _; (split; [reflexivity|]); split_and!;
    try (exists key; cbn; rewrite Hreq; done); cbn; auto.
Qed.

Lemma chaos_loop_total stop_at steps :
  Forall (chaos_draws_in_range clients) steps ->
  exists records lines,
    loop clients stop_at steps = (records, lines, Ok tt)
    /\ Forall2 chaos_recorded (take (passes now stop_at steps) steps) records
    /\ Forall (fun r => ok r = 0%Z \/ ok r = 1%Z) records
    /\ chaos_logged lines = chaos_failures records.
Proof.
  induction 1 as [|st steps Hst Hsteps IH]; cbn [loop passes].
  - exists [], []. by split_and!.
  - destruct (Qltb (now st) stop_at); [|exists [], []; by split_and!].
    destruct (chaos_iteration_total st Hst) as (rec & written & -> & Hrec & Hok & Hw).
    destruct IH as (records & lines & -> & Hall & Hoks & Hl).
    exists (rec :: records), (written ++ lines).
    split_and!; [done|by constructor|by constructor|].
    unfold chaos_logged, chaos_failures in *. rewrite map_app, Hw, Hl.
    rewrite (filter_cons _ rec records). rewrite (filter_cons _ rec []).
    by destruct (decide (ok rec = 0%Z)).
Qed.

(** A request that fails never stops the chaos workload: whatever the
    nodes do, every pass appends one record, [ok = 1] exactly when its
    request returned; the log gets one [ERROR] line for each record with
    [ok = 0], in the same order and with its operation and node; and the
    CSV holds every record, the failed ones included. *)
Theorem chaos_failures_logged (t0 : Q) (steps : list Step) :
  Forall (chaos_draws_in_range clients) steps ->
  exists records lines,
    run_chaos clients t0 steps
    = (Ok tt, {| txt := Some lines; csv := Some records |})
    /\ length records = passes now (t0 + duration_sec)%Q steps
    /\ Forall2 chaos_recorded (take (passes now (t0 + duration_sec)%Q steps) steps) records
    /\ Forall (fun r => ok r = 0%Z \/ ok r = 1%Z) records
    /\ chaos_logged lines = chaos_failures records.
Proof.
  intros Hsteps.
  destruct (chaos_loop_total (t0 + duration_sec)%Q steps Hsteps)
    as (records & lines & Hloop & Hall & Hoks & Hl).
  exists records, lines. unfold run_chaos. rewrite Hloop.
  split_and!; try done.
  apply Forall2_length in Hall. rewrite <- Hall, length_take.
  pose proof (passes_le now (t0 + duration_sec)%Q steps). lia.
Qed.

End ChaosRun.

Lemma chaos_failures_logged_witness :
  exists records lines,
    @Chaos.run_chaos stub_lib (build_cluster_clients Config.DEFAULT_CLUSTER) 0
      [chaos_read_step; chaos_down_step]
    = (Py.Ok tt, {| Chaos.txt := Some lines; Chaos.csv := Some records |})
    /\ length records
       = passes Chaos.now (0 + Chaos.duration_sec)%Q [chaos_read_step; chaos_down_step]
    /\ Forall2 (@chaos_recorded stub_lib)
         (take (passes Chaos.now (0 + Chaos.duration_sec)%Q
                  [chaos_read_step; chaos_down_step])
               [chaos_read_step; chaos_down_step]) records
    /\ Forall (fun r => Chaos.ok r = 0%Z \/ Chaos.ok r = 1%Z) records
    /\ chaos_logged lines = chaos_failures records.
Proof.
  apply (@chaos_failures_logged stub_lib). 
  constructor; [split|constructor; [split|constructor]];
    try (apply Nat.ltb_lt; vm_compute; reflexivity).
Defined.

(** ** The sanity check *)

Section SanityCheck.
Import Py Client Runner.
Context `{Lib}.

Lemma dict_set_fresh {V : Type} (d : Dict.t V) k v :
  k ∉ Dict.keys d -> Dict.set d k v = d ++ [(k, v)].
Proof.
  induction d as [|[k0 v0] d IH]; simpl; [done|].
  intros Hk. apply not_elem_of_cons in Hk as [Hne Hk].
  destruct (String.eqb k0 k) eqn:E; [apply String.eqb_eq in E; congruence|].
  by rewrite IH.
Qed.

Lemma read_all_map_aux key gets (clients : Dict.t Config.NodeConfig)
    (acc : Dict.t (option KvReadResult)) :
  NoDup (Dict.keys acc ++ Dict.keys clients) ->
  foldl (fun results '(name, _) =>
           Dict.set results name
             match get (gets name) key with
             | Ok r => Some r
             | Raise _ => None
             end) acc clients
  = acc ++ map (fun kv => (kv.1, match get (gets kv.1) key with
                                 | Ok r => Some r
                                 | Raise _ => None
                                 end)) clients.
Proof.
  revert acc. induction clients as [|[name cl] clients IH]; intros acc Hnd; simpl.
  - by rewrite app_nil_r.
  - simpl in Hnd. apply NoDup_app in Hnd as (Hacc & Hdisj & Hcl).
    apply NoDup_cons in Hcl as [Hname Hcl].
    rewrite dict_set_fresh by (intros Hin; apply (Hdisj _ Hin); by left).
    rewrite IH.
    + by rewrite <- app_assoc.
    + unfold Dict.keys. rewrite map_app. simpl. rewrite <- app_assoc. simpl.
      apply NoDup_app. split_and!; [done| |by constructor].
      intros k Hk Hin. apply (Hdisj _ Hk). done.
Qed.

Lemma read_all_map key gets (clients : Dict.t Config.NodeConfig) :
  NoDup (Dict.keys clients) ->
  read_all key gets clients
  = map (fun kv => (kv.1, match get (gets kv.1) key with
                          | Ok r => Some r
                          | Raise _ => None
                          end)) clients.
Proof. intros Hnd. unfold read_all. by rewrite read_all_map_aux. Qed.

Lemma found_values_flat_aux (results : Dict.t (option KvReadResult))
    (acc : Dict.t (list Byte.byte)) :
  NoDup (Dict.keys acc ++ Dict.keys results) ->
  foldl (fun acc '(name, r) =>
           match r with
           | Some r =>
               if found r then
                 match value r with
                 | Some v => Dict.set acc name v
                 | None => acc
                 end
               else acc
           | None => acc
           end) acc results
  = acc ++ flat_map found_entry results.
Proof.
  revert acc. induction results as [|[name r] results IH]; intros acc Hnd; simpl.
  - by rewrite app_nil_r.
  - simpl in Hnd. pose proof Hnd as Hnd'.
    apply NoDup_app in Hnd as (Hacc & Hdisj & Hcl).
    apply NoDup_cons in Hcl as [Hname Hcl].
    assert (Hkeep : NoDup (Dict.keys acc ++ Dict.keys results)).
    { apply NoDup_app. split_and!; [done| |done].
      intros k Hk Hin. apply (Hdisj _ Hk). by right. }
    unfold found_entry at 1. simpl.
    destruct r as [r|]; [|by apply IH].
    destruct (found r); [|by apply IH].
    destruct (value r) as [v|]; [|by apply IH].
    rewrite dict_set_fresh by (intros Hin; apply (Hdisj _ Hin); by left).
    rewrite IH.
    + by rewrite <- app_assoc.
    + unfold Dict.keys. rewrite map_app. simpl. rewrite <- app_assoc. simpl.
      apply NoDup_app. split_and!; [done| |by constructor].
      intros k Hk Hin. apply (Hdisj _ Hk). done.
Qed.

Lemma found_values_flat (results : Dict.t (option KvReadResult)) :
  NoDup (Dict.keys results) ->
  found_values results = flat_map found_entry results.
Proof. intros Hnd. unfold found_values. by rewrite found_values_flat_aux. Qed.

Lemma remove_dups_le_1 {A : Type} `{EqDecision A} (l : list A) :
  (length (remove_dups l) <= 1)%nat <-> forall x y, x ∈ l -> y ∈ l -> x = y.
Proof.
  split.
  - intros Hlen x y Hx Hy.
    apply elem_of_remove_dups in Hx, Hy.
    destruct (remove_dups l) as [|z [|z' l']]; simpl in Hlen; [|..|lia].
    + by apply elem_of_nil in Hx.
    + apply list_elem_of_singleton in Hx, Hy. congruence.
  - intros Heq. pose proof (NoDup_remove_dups l) as Hnd.
    destruct (remove_dups l) as [|z [|z' l']] eqn:E; simpl; [lia..|].
    exfalso. apply NoDup_cons in Hnd as [Hz _]. apply Hz.
    assert (z ∈ l) by (apply elem_of_remove_dups; rewrite E; by left).
    assert (z' ∈ l) by (apply elem_of_remove_dups; rewrite E; right; by left).
    rewrite (Heq z z') by done. by left.
Qed.

Lemma found_value_elem key gets (clients : Dict.t Config.NodeConfig) v :
  v ∈ map snd (flat_map found_entry
                 (map (fun kv => (kv.1, match get (gets kv.1) key with
                                        | Ok r => Some r
                                        | Raise _ => None
                                        end)) clients))
  <-> exists n, n ∈ Dict.keys clients /\ found_on gets key n v.
Proof.
  induction clients as [|[name cl] clients IH]; simpl.
  - split; [intros Hin; by apply elem_of_nil in Hin|].
    intros (n & Hn & _). by apply elem_of_nil in Hn.
  - rewrite map_app, elem_of_app, IH. unfold found_entry at 1. simpl.
    split.
    + intros [Hv|(n & Hn & Hf)]; [|exists n; split; [by right|done]].
      exists name. split; [by left|].
      unfold found_on.
      destruct (get (gets name) key) as [r|e]; [|by apply elem_of_nil in Hv].
      destruct (found r) eqn:Ef; [|by apply elem_of_nil in Hv].
      destruct (value r) as [v'|] eqn:Ev; [|by apply elem_of_nil in Hv].
      apply list_elem_of_singleton in Hv as ->. by exists r.
    + intros (n & Hn & Hf). apply elem_of_cons in Hn as [->|Hn]; [|right; eauto].
      left. destruct Hf as (r & -> & -> & ->). simpl. by left.
Qed.

Lemma node_lines_total key gets (clients : Dict.t Config.NodeConfig) :
  exists lines,
    AntiEntropy.collect
      (fun '(name, r) => l ← node_line r; Ok (name, l))
      (map (fun kv => (kv.1, match get (gets kv.1) key with
                             | Ok r => Some r
                             | Raise _ => None
                             end)) clients)
    = Ok lines
    /\ map fst lines = Dict.keys clients.
Proof.
  induction clients as [|[name cl] clients (lines & IH & Hk)]; simpl.
  - by exists [].
  - assert (exists l,
      node_line match get (gets name) key with Ok r => Some r | Raise _ => None end
      = Ok l) as (l & ->).
    { destruct (get (gets name) key) as [r|e] eqn:Hg; [|by eexists].
      destruct (get_ok_cases _ _ _ Hg) as [->|(raw & c & ->)]; by eexists. }
    cbn. rewrite IH. cbn. exists ((name, l) :: lines). by rewrite <- Hk.
Qed.

(** The sanity check, once its write is accepted, reads the key on
    every node and always prints a verdict and one line for each node,
    whatever the reads do: [CONSISTENT] exactly when no two nodes that
    found the key returned different bytes.  A node that is down or has
    not seen the key yet does not count against consistency. *)
Theorem sanity_verdict (cfg : Config.ExperimentConfig)
    (clients : Dict.t Config.NodeConfig) (token : string) (put_http : Transport)
    (gets : string -> Transport) (primary : Config.NodeConfig) :
  NoDup (Dict.keys clients) ->
  Config.primary (Config.cluster cfg) = Ok primary ->
  Config.name primary ∈ Dict.keys clients ->
  accepts put_http
    (put_request ("exp-sanity-" +:+ token)
       (String.list_byte_of_string ("hello-dynlite-" +:+ token))
       (Some (Config.name primary))) ->
  exists report,
    sanity_smoke cfg clients token put_http gets = Ok report
    /\ map fst (lines report) = Dict.keys clients
    /\ (status report = "CONSISTENT" \/ status report = "INCONSISTENT")
    /\ (status report = "CONSISTENT"
        <-> reads_agree gets ("exp-sanity-" +:+ token) (Dict.keys clients)).
Proof.
  intros Hnd Hprim Hin Hput.
  destruct (dict_lookup_keys clients _ Hin) as (cl & Hcl).
  unfold sanity_smoke. rewrite Hprim. cbn. rewrite Hcl. cbn.
  rewrite (put_accepted _ _ _ _ Hput). cbn.
  rewrite read_all_map by done.
  destruct (node_lines_total ("exp-sanity-" +:+ token) gets clients) as (ls & -> & Hls).
  cbn. eexists. split; [reflexivity|]. cbn [status lines].
  split; [done|].
  rewrite found_values_flat.
  2:{ unfold Dict.keys. rewrite map_map. simpl. exact Hnd. }
  set (vals := map snd _).
  assert (Hagree : (length (remove_dups vals) <= 1)%nat
                   <-> reads_agree gets ("exp-sanity-" +:+ token) (Dict.keys clients)).
  { rewrite remove_dups_le_1. unfold reads_agree. split.
    - intros Heq n1 n2 v1 v2 H1 H2 F1 F2.
      apply Heq; apply found_value_elem; eauto.
    - intros Hag x y Hx Hy.
      apply found_value_elem in Hx as (n1 & H1 & F1).
      apply found_value_elem in Hy as (n2 & H2 & F2). eauto. }
  destruct (length (remove_dups vals) <=? 1)%nat eqn:E.
  - split; [by left|]. split; [intros _|done]. apply Hagree. by apply Nat.leb_le.
  - split; [by right|]. split; [discriminate|].
    intros Hag. apply Hagree in Hag. apply Nat.leb_gt in E. lia.
Qed.

End SanityCheck.

Lemma sanity_verdict_witness :
  exists report,
    @Runner.sanity_smoke stub_lib Config.CONFIG
      (build_cluster_clients Config.DEFAULT_CLUSTER) "ab12cd34" http_ok gets_partial
    = Py.Ok report
    /\ map fst (Runner.lines report)
       = Dict.keys (build_cluster_clients Config.DEFAULT_CLUSTER)
    /\ (Runner.status report = "CONSISTENT" \/ Runner.status report = "INCONSISTENT")
    /\ (Runner.status report = "CONSISTENT"
        <-> @reads_agree stub_lib gets_partial ("exp-sanity-" +:+ "ab12cd34")
              (Dict.keys (build_cluster_clients Config.DEFAULT_CLUSTER))).
Proof.
  apply (@sanity_verdict stub_lib Config.CONFIG
           (build_cluster_clients Config.DEFAULT_CLUSTER) "ab12cd34" http_ok gets_partial
           (Config.mkNodeConfig "node-a" "http://localhost:8080")).
  - apply build_cluster_clients_NoDup.
  - reflexivity.
  - vm_compute. apply list_elem_of_here.
  - exists 200%Z, (Some (Client.JObj [])). split; [reflexivity|].
    unfold success_status. lia.
Defined.

(** ** More on the percentile lines *)

Lemma percentiles_vs_pct_witness :
  exists p50 p95 p99 q50,
    Stats.percentiles scenario_D = Py.Ok (p50, p95, p99)
    /\ Plots.pct (Py.sorted scenario_D) Py.lit_0_95 = Py.Ok p95
    /\ Plots.pct (Py.sorted scenario_D) Py.lit_0_99 = Py.Ok p99
    /\ Plots.pct (Py.sorted scenario_D) Py.lit_0_5 = Py.Ok q50
    /\ Py.sorted scenario_D !! Z.to_nat (Z.of_nat (length scenario_D) / 2) = Some p50
    /\ Py.sorted scenario_D !! Z.to_nat (Z.max 0 (Z.of_nat (length scenario_D) / 2 - 1))
       = Some q50.
Proof.
  apply (percentiles_vs_pct scenario_D); [discriminate|].
  vm_compute. reflexivity.
Defined.

Lemma percentiles_order_witness :
  ((2 ∈ [3; 1; 2] /\ 2 ∈ [3; 1; 2] /\ 2 ∈ [3; 1; 2])
   /\ (2 <= 2)%Q
   /\ (length [3; 1; 2] <> 2%nat -> (2 <= 2)%Q))%Q.
Proof.
  apply (percentiles_order [3; 1; 2]%Q 2 2 2).
  - vm_compute. reflexivity.
  - vm_compute. reflexivity.
Defined.

Section PercentilesMore.
Import Py Stats PerfYcsb.

(** The binary64 products of the percentile lines carry no rounding
    error that reaches the index: for every length under [2 ^ 40],
    [int(0.5 * n)], [int(0.95 * n)] and [int(0.99 * n)] are the integer
    parts of [n / 2], [95 n / 100] and [99 n / 100]. *)
Theorem percentile_indices_exact (n : nat) :
  (Z.of_nat n < 2 ^ 40)%Z ->
  scaled_len lit_0_5 n = Ok (Z.of_nat n / 2)%Z
  /\ scaled_len lit_0_95 n = Ok (95 * Z.of_nat n / 100)%Z
  /\ scaled_len lit_0_99 n = Ok (99 * Z.of_nat n / 100)%Z.
Proof.
  intros Hn. destruct n as [|n].
  - by vm_compute.
  - split_and!; [apply scaled_len_0_5|apply scaled_len_0_95|apply scaled_len_0_99]; lia.
Qed.

(** The plotting helper never indexes outside the list: on the
    successful latencies of a group it returns for each of [0.50],
    [0.95] and [0.99] one of the latencies, and the three values never
    decrease. *)
Theorem pct_order (lats : list Q) :
  lats <> [] -> (Z.of_nat (length lats) < 2 ^ 40)%Z ->
  exists p50 p95 p99,
    Plots.pct (sorted lats) lit_0_5 = Ok p50
    /\ Plots.pct (sorted lats) lit_0_95 = Ok p95
    /\ Plots.pct (sorted lats) lit_0_99 = Ok p99
    /\ (p50 ∈ lats /\ p95 ∈ lats /\ p99 ∈ lats)
    /\ (p50 <= p95)%Q /\ (p95 <= p99)%Q.
Proof.
  intros Hne Hlen.
  assert (Hls : length (sorted lats) = length lats) by apply sorted_length.
  assert (Hs : sorted lats <> []).
  { intros E. rewrite E in Hls. destruct lats; [done|discriminate]. }
  assert (Hlen' : (Z.of_nat (length (sorted lats)) < 2 ^ 40)%Z) by (rewrite Hls; lia).
  destruct (pct_lookup (sorted lats) 4503599627370496 1 2 0 Hs Hlen' eq_refl
              ltac:(lia) ltac:(lia) eq_refl ltac:(lia) ltac:(lia)) as (p50 & P50 & X50).
  destruct (pct_lookup (sorted lats) 8556839292003942 95 100 40 Hs Hlen' eq_refl
              ltac:(lia) ltac:(lia) eq_refl ltac:(lia) ltac:(lia)) as (p95 & P95 & X95).
  destruct (pct_lookup (sorted lats) 8917127262193582 99 100 8 Hs Hlen' eq_refl
              ltac:(lia) ltac:(lia) eq_refl ltac:(lia) ltac:(lia)) as (p99 & P99 & X99).
  exists p50, p95, p99. split_and!; try done.
  - rewrite <- (sorted_perm lats). by eapply list_elem_of_lookup_2.
  - rewrite <- (sorted_perm lats). by eapply list_elem_of_lookup_2.
  - rewrite <- (sorted_perm lats). by eapply list_elem_of_lookup_2.
  - eapply (StronglySorted_lookup_le (sorted lats)); [apply sorted_sorted| |done..].
    set (n := Z.of_nat (length (sorted lats))).
    assert (1 * n / 2 <= 95 * n / 100)%Z by (Z.div_mod_to_equations; lia). lia.
  - eapply (StronglySorted_lookup_le (sorted lats)); [apply sorted_sorted| |done..].
    set (n := Z.of_nat (length (sorted lats))).
    assert (95 * n / 100 <= 99 * n / 100)%Z by (Z.div_mod_to_equations; lia). lia.
Qed.

Lemma filter_ok_nil (records : list RequestRecord) :
  filter (fun r => ok r <> 0%Z) records = [] <-> Forall (fun r => ok r = 0%Z) records.
Proof.
  induction records as [|r rs IH]; [by split; [constructor|]|].
  rewrite filter_cons. destruct (decide (ok r <> 0%Z)) as [Hne|Heq].
  - split; [discriminate|]. intros Hall. apply Forall_cons in Hall as [? _]. done.
  - rewrite IH. assert (ok r = 0%Z) by lia.
    split; [by constructor|]. intros Hall. by apply Forall_cons in Hall as [_ ?].
Qed.

(** The summary of a run never raises: whatever the records (fewer than
    [2 ^ 40] of them) it is either the line [no successful requests] or
    the statistics; and it is the former exactly when no request
    succeeded, the empty run included. *)
Theorem summarize_total (run_records : list RequestRecord) :
  (Z.of_nat (length run_records) < 2 ^ 40)%Z ->
  exists s,
    summarize run_records = Ok s
    /\ (s = NoSuccessfulRequests <-> Forall (fun r => ok r = 0%Z) run_records).
Proof.
  intros Hlen. unfold summarize.
  set (latencies := map latency_ms (filter (fun r => ok r <> 0%Z) run_records)).
  destruct latencies as [|l0 ls] eqn:El.
  - exists NoSuccessfulRequests. split; [done|]. split; [intros _|done].
    apply filter_ok_nil. unfold latencies in El. by apply map_eq_nil in El.
  - assert (Hne : latencies <> []) by (rewrite El; discriminate).
    assert (Hll : (Z.of_nat (length latencies) < 2 ^ 40)%Z).
    { unfold latencies. rewrite length_map.
      pose proof (length_filter (fun r => ok r <> 0%Z) run_records). lia. }
    destruct (percentiles_spec latencies Hne Hll) as (p50 & p95 & p99 & Hp & _).
    rewrite El in Hp.
    destruct run_records as [|r0 rs]; [discriminate|].
    cbn [map max_of min_of mbind exc_bind bind]. rewrite Hp.
    eexists. split; [reflexivity|]. split; [discriminate|].
    intros Hall. apply filter_ok_nil in Hall. unfold latencies in El.
    rewrite Hall in El. discriminate.
Qed.

End PercentilesMore.

Lemma pct_order_witness :
  exists p50 p95 p99,
    Plots.pct (Py.sorted scenario_D) Py.lit_0_5 = Py.Ok p50
    /\ Plots.pct (Py.sorted scenario_D) Py.lit_0_95 = Py.Ok p95
    /\ Plots.pct (Py.sorted scenario_D) Py.lit_0_99 = Py.Ok p99
    /\ (p50 ∈ scenario_D /\ p95 ∈ scenario_D /\ p99 ∈ scenario_D)
    /\ (p50 <= p95)%Q /\ (p95 <= p99)%Q.
Proof.
  apply (pct_order scenario_D); [discriminate|].
  vm_compute. reflexivity.
Defined.

Lemma percentile_indices_exact_witness :
  Stats.scaled_len Py.lit_0_5 20 = Py.Ok (Z.of_nat 20 / 2)%Z
  /\ Stats.scaled_len Py.lit_0_95 20 = Py.Ok (95 * Z.of_nat 20 / 100)%Z
  /\ Stats.scaled_len Py.lit_0_99 20 = Py.Ok (99 * Z.of_nat 20 / 100)%Z.
Proof. apply (percentile_indices_exact 20). vm_compute. reflexivity. Defined.

Lemma summarize_total_witness :
  exists s,
    PerfYcsb.summarize mixed_run = Py.Ok s
    /\ (s = PerfYcsb.NoSuccessfulRequests
        <-> Forall (fun r => PerfYcsb.ok r = 0%Z) mixed_run).
Proof. apply (summarize_total mixed_run). vm_compute. reflexivity. Defined.

(** ** More on the workload driver *)

Section PerfMore.
Import Py Client PerfYcsb.
Context `{Lib}.

(** The operation of a pass depends on the read share of the mix alone:
    with the mix of workload C, [(1.0, 0.0)], a worker never writes, and
    with a read share of zero it never reads. *)
Theorem mix_decides_operation workload_name (p_write : Q) conc stop_at keys clients steps :
  Forall unit_draw steps ->
  Forall (fun rec => op rec = GET)
    (worker_thread workload_name (1, p_write)%Q conc stop_at keys clients steps).1
  /\ Forall (fun rec => op rec = PUT)
       (worker_thread workload_name (0, p_write)%Q conc stop_at keys clients steps).1.
Proof.
  induction 1 as [|st steps [Hx0 Hx1] Hsteps [IH1 IH0]]; cbn [worker_thread];
    [split; constructor|].
  destruct (Qltb (now st) stop_at); [|split; constructor].
  split.
  - destruct (worker_iteration _ (1, p_write)%Q _ _ _ st) as [rec|e] eqn:Hit; [|constructor].
    destruct (worker_thread _ (1, p_write)%Q _ _ _ _ steps) as [recs r]. cbn in *.
    constructor; [|exact IH1].
    unfold worker_iteration in Hit.
    destruct (choice keys (key_draw st)); [|discriminate]. cbn in Hit.
    destruct (choice (Dict.keys clients) (node_draw st)); [|discriminate]. cbn in Hit.
    destruct (Dict.lookup clients a0); [|discriminate]. cbn in Hit.
    injection Hit as <-. cbn. unfold _choose_op.
    by rewrite (proj2 (Qltb_true _ _) Hx1).
  - destruct (worker_iteration _ (0, p_write)%Q _ _ _ st) as [rec|e] eqn:Hit; [|constructor].
    destruct (worker_thread _ (0, p_write)%Q _ _ _ _ steps) as [recs r]. cbn in *.
    constructor; [|exact IH0].
    unfold worker_iteration in Hit.
    destruct (choice keys (key_draw st)); [|discriminate]. cbn in Hit.
    destruct (choice (Dict.keys clients) (node_draw st)); [|discriminate]. cbn in Hit.
    destruct (Dict.lookup clients a0); [|discriminate]. cbn in Hit.
    injection Hit as <-. cbn. unfold _choose_op.
    by rewrite (proj2 (Qltb_false _ _) Hx0).
Qed.

End PerfMore.

Lemma mix_decides_operation_witness :
  Forall (fun rec => PerfYcsb.op rec = PerfYcsb.GET)
    (PerfYcsb.worker_thread (H := stub_lib) "C" (1, 0)%Q 4 20 ["perf-0"]
       (build_cluster_clients Config.DEFAULT_CLUSTER) [one_step; down_step]).1
  /\ Forall (fun rec => PerfYcsb.op rec = PerfYcsb.PUT)
       (PerfYcsb.worker_thread (H := stub_lib) "C" (0, 0)%Q 4 20 ["perf-0"]
          (build_cluster_clients Config.DEFAULT_CLUSTER) [one_step; down_step]).1.
Proof.
  apply (mix_decides_operation (H := stub_lib)).
  repeat constructor; unfold Qle, Qlt; simpl; lia.
Defined.

(** ** More on the staleness probe *)

Section StalenessMore.
Import Py Client Staleness.
Context `{Lib}.
Variable clients : Dict.t Config.NodeConfig.
Variable primary_name : string.
Variable key : string.

Lemma trial_shape d tr rec :
  trial clients primary_name key d tr = Ok rec ->
  delay_ms rec = d /\ (is_stale rec = 0%Z \/ is_stale rec = 1%Z).
Proof.
  unfold trial. destruct (put _ _ _ _) as [[]|]; cbn; [|discriminate].
  destruct (choice _ _) as [read_node|]; cbn; [|discriminate].
  destruct (Dict.lookup _ _); cbn; [|discriminate].
  destruct (get _ _) as [r|]; cbn; [|discriminate].
  intros [= <-]. cbn. split; [done|]. apply classify_spec.
Qed.

Lemma stale_count_of_bounds recs :
  (0 <= stale_count_of recs <= Z.of_nat (length recs))%Z.
Proof.
  unfold stale_count_of.
  pose proof (length_filter (fun r => is_stale r <> 0%Z) recs). lia.
Qed.

Lemma trials_loop_shape d env idxs s t recs s' t' recs' :
  trials_loop clients primary_name key d env idxs (s, t, recs) = Ok (s', t', recs') ->
  exists new,
    recs' = recs ++ new
    /\ length new = length idxs
    /\ t' = (t + Z.of_nat (length idxs))%Z
    /\ s' = (s + stale_count_of new)%Z
    /\ Forall (fun r => delay_ms r = d /\ (is_stale r = 0%Z \/ is_stale r = 1%Z)) new.
Proof.
  revert s t recs. induction idxs as [|i idxs IH]; intros s t recs Hl; cbn in Hl.
  - injection Hl as <- <- <-. exists []. rewrite app_nil_r.
    split_and!; [done|done|cbn; lia|unfold stale_count_of; cbn; lia|constructor].
  - destruct (trial clients primary_name key d (env i)) as [rec|] eqn:Ht; cbn in Hl;
      [|discriminate].
    apply IH in Hl as (new & -> & Hlen & -> & -> & Hall).
    exists (rec :: new). split_and!.
    + by rewrite <- app_assoc.
    + simpl. lia.
    + simpl length. lia.
    + rewrite stale_count_of_cons. case_bool_decide; lia.
    + constructor; [by eapply trial_shape|done].
Qed.

Lemma delays_loop_shape trials delays k env records lines lines' records' :
  delays_loop clients primary_name key trials delays k env records lines
  = (lines', Ok records') ->
  exists chunks new_lines,
    lines' = lines ++ new_lines
    /\ records' = records ++ concat chunks
    /\ Forall (fun chunk => length chunk = Z.to_nat trials) chunks
    /\ Forall3 chunk_in_shape delays chunks new_lines.
Proof.
  revert k records lines lines' records'.
  induction delays as [|d delays IH]; intros k records lines lines' records' Hl;
    cbn in Hl.
  - injection Hl as <- <-. exists [], []. rewrite !app_nil_r.
    split_and!; try done; constructor.
  - destruct (trials_loop _ _ _ d (env k) _ _) as [[[s t] recs]|e] eqn:Ht;
      [|discriminate].
    apply trials_loop_shape in Ht as (new & -> & Hlen & -> & -> & Hall).
    rewrite length_seq in Hlen.
    apply IH in Hl as (chunks & new_lines & -> & -> & Hlens & Hshape).
    eexists (new :: chunks), (_ :: new_lines). split_and!.
    + rewrite <- app_assoc. reflexivity.
    + simpl. by rewrite <- app_assoc.
    + by constructor.
    + constructor; [|done]. split; [done|].
      rewrite length_seq, Hlen, !Z.add_0_l. done.
Qed.

Lemma delays_loop_no_trials trials delays k env records lines :
  (trials <= 0)%Z ->
  delays_loop clients primary_name key trials delays k env records lines
  = (lines ++ map empty_line delays, Ok records).
Proof.
  intros Ht. revert k lines.
  induction delays as [|d delays IH]; intros k lines; cbn.
  - by rewrite app_nil_r.
  - replace (Z.to_nat trials) with 0%nat by lia. cbn.
    rewrite IH. by rewrite <- app_assoc.
Qed.

End StalenessMore.

Section StalenessRun.
Import Py Client Staleness.
Context `{Lib}.

Lemma frac_unit (s t : Z) :
  (0 <= s <= t)%Z ->
  (0 <= inject_Z s / inject_Z (Z.max t 1))%Q
  /\ (inject_Z s / inject_Z (Z.max t 1) <= 1)%Q.
Proof.
  intros Hs.
  assert (Hm : (0 < inject_Z (Z.max t 1))%Q).
  { change 0%Q with (inject_Z 0). rewrite <- Zlt_Qlt. lia. }
  split.
  - apply Qle_shift_div_l; [done|]. rewrite Qmult_0_l.
    change 0%Q with (inject_Z 0). rewrite <- Zle_Qle. lia.
  - apply Qle_shift_div_r; [done|]. rewrite Qmult_1_l. rewrite <- Zle_Qle. lia.
Qed.

(** With [trials_per_delay] at zero (or below) the staleness probe sends
    no request, so it completes whatever the nodes do; the CSV has no
    row, and each delay gets the line [0 / 0] with the fraction [0]: the
    quotient is guarded by [max(total, 1)]. *)
Theorem staleness_no_trials (cfg : Config.ExperimentConfig)
    (clients : Dict.t Config.NodeConfig) (token : string) (env : nat -> nat -> Trial)
    (primary : Config.NodeConfig) :
  (Config.trials_per_delay (Config.staleness cfg) <= 0)%Z ->
  Config.primary (Config.cluster cfg) = Ok primary ->
  Config.name primary ∈ Dict.keys clients ->
  run_staleness cfg clients token env
  = (Ok tt, {| txt := Some (map empty_line (Config.delays_ms (Config.staleness cfg)));
               csv := Some [] |})
  /\ Forall (fun line => (line_frac line == 0)%Q)
       (map empty_line (Config.delays_ms (Config.staleness cfg))).
Proof.
  intros Ht Hprim Hin.
  destruct (dict_lookup_keys clients _ Hin) as (cl & Hcl).
  split.
  - unfold run_staleness. rewrite Hprim, Hcl.
    by rewrite delays_loop_no_trials.
  - apply Forall_forall. intros line Hl.
    apply list_elem_of_fmap in Hl as (d & -> & _). by cbn.
Qed.

(** A run of the staleness probe that completes leaves one row for
    every trial of every delay and one line for every delay, in the
    order of the configuration; each line counts the configured number
    of trials, and its stale count and fraction stay within bounds,
    whatever the reads returned. *)
Theorem staleness_rows_and_lines (cfg : Config.ExperimentConfig)
    (clients : Dict.t Config.NodeConfig) (token : string) (env : nat -> nat -> Trial)
    (files : Files) :
  run_staleness cfg clients token env = (Ok tt, files) ->
  exists lines records,
    files = {| txt := Some lines; csv := Some records |}
    /\ length records
       = (length (Config.delays_ms (Config.staleness cfg))
          * Z.to_nat (Config.trials_per_delay (Config.staleness cfg)))%nat
    /\ Forall2 (line_in_shape (Config.trials_per_delay (Config.staleness cfg)))
         (Config.delays_ms (Config.staleness cfg)) lines.
Proof.
  unfold run_staleness.
  destruct (Config.primary _) as [primary|]; [|discriminate].
  destruct (Dict.lookup _ _); [|discriminate].
  destruct (delays_loop _ _ _ _ _ _ _ _ _) as [lines [records|e]] eqn:Hl; [|discriminate].
  intros [= <-].
  apply delays_loop_shape in Hl as (chunks & new_lines & -> & -> & Hlens & Hshape).
  exists new_lines, (concat chunks). split; [done|]. simpl.
  set (trials := Config.trials_per_delay (Config.staleness cfg)) in *.
  clearbody trials. clear -Hlens Hshape.
  induction Hshape as [|d chunk line delays chunks lines [Hall ->] Hshape IH].
  - split; [done|constructor].
  - apply Forall_cons in Hlens as [Hlen Hlens].
    destruct (IH Hlens) as [IHl IHs].
    split.
    + simpl. rewrite length_app, IHl, Hlen. lia.
    + constructor; [|done].
      pose proof (stale_count_of_bounds chunk).
      unfold line_in_shape. cbn. rewrite Hlen.
      split_and!; try lia; by apply frac_unit; lia.
Qed.

End StalenessRun.

Lemma staleness_no_trials_witness :
  @Staleness.run_staleness stub_lib (two_delays_config 0)
    (build_cluster_clients Config.DEFAULT_CLUSTER) "0a1b2c3d" two_delays_env
  = (Py.Ok tt, {| Staleness.txt := Some (map empty_line [0; 1000]%Z);
                  Staleness.csv := Some [] |})
  /\ Forall (fun line => (Staleness.line_frac line == 0)%Q)
       (map empty_line [0; 1000]%Z).
Proof.
  apply (@staleness_no_trials stub_lib (two_delays_config 0)
           (build_cluster_clients Config.DEFAULT_CLUSTER) "0a1b2c3d" two_delays_env
           (Config.mkNodeConfig "node-a" "http://localhost:8080")).
  - simpl. lia.
  - reflexivity.
  - vm_compute. apply list_elem_of_here.
Defined.

Lemma staleness_rows_and_lines_witness :
  exists lines records,
    (@Staleness.run_staleness stub_lib (two_delays_config 2)
       (build_cluster_clients Config.DEFAULT_CLUSTER) "0a1b2c3d" two_delays_env).2
    = {| Staleness.txt := Some lines; Staleness.csv := Some records |}
    /\ length records = (length [0; 1000]%Z * Z.to_nat 2)%nat
    /\ Forall2 (line_in_shape 2) [0; 1000]%Z lines.
Proof.
  apply (@staleness_rows_and_lines stub_lib (two_delays_config 2)
           (build_cluster_clients Config.DEFAULT_CLUSTER) "0a1b2c3d" two_delays_env).
  reflexivity.
Defined.

(** ** More on the SLO probe *)

Section SacMore.
Import Py Client Sac.
Context `{Lib}.
Variable slo : Config.SloConfig.

Lemma iteration_class node_names st sent :
  iteration slo node_names st = Ok sent ->
  class sent.2 = "tight" \/ class sent.2 = "relaxed".
Proof.
  unfold iteration. destruct (choice keys _); cbn; [|discriminate].
  destruct (choice node_names _); cbn; [|discriminate].
  unfold choose_deadline. destruct (Qltb (x st) (1 # 2)); intros [= <-]; cbn; auto.
Qed.

Lemma loop_classes stop_at node_names steps rs :
  loop slo stop_at node_names steps = Ok rs ->
  Forall (fun r => class r = "tight" \/ class r = "relaxed") (map snd rs).
Proof.
  revert rs. induction steps as [|st steps IH]; intros rs; cbn [loop].
  - intros [= <-]. constructor.
  - destruct (Qltb (now st) stop_at); [|intros [= <-]; constructor].
    destruct (iteration slo node_names st) as [sent|] eqn:Hit; cbn; [|discriminate].
    destruct (loop slo stop_at node_names steps) as [rs'|]; cbn; [|discriminate].
    intros [= <-]. simpl. constructor; [by eapply iteration_class|by apply IH].
Qed.

Lemma class_summary_count records cls s :
  class_summary records cls = Ok s ->
  summary_class s = cls
  /\ summary_count s
     = length (filter (fun r => class r = cls /\ ok r <> 0%Z) records).
Proof.
  unfold class_summary.
  destruct (filter _ records) as [|r0 rs0]; cbn [map].
  - intros [= <-]. done.
  - destruct (Stats.percentiles _) as [[[p50 p95] p99]|]; cbn; [|discriminate].
    intros [= <-]. cbn. by rewrite length_map.
Qed.

Lemma classes_partition (records : list SacRecord) :
  Forall (fun r => class r = "tight" \/ class r = "relaxed") records ->
  (length (filter (fun r => class r = "tight" /\ ok r <> 0%Z) records)
   + length (filter (fun r => class r = "relaxed" /\ ok r <> 0%Z) records))%nat
  = length (filter (fun r => ok r <> 0%Z) records).
Proof.
  induction 1 as [|r records Hr Hall IH]; [done|].
  rewrite !filter_cons.
  destruct (decide (ok r <> 0%Z)) as [Hok|Hok];
    destruct (decide (class r = "tight" /\ ok r <> 0%Z)) as [[Ht ?]|Ht];
    destruct (decide (class r = "relaxed" /\ ok r <> 0%Z)) as [[Hx ?]|Hx];
    simpl; try lia; try done.
  - rewrite Ht in Hx. discriminate.
  - exfalso. destruct Hr; [apply Ht|apply Hx]; done.
Qed.

(** The two lines of the summary of the SLO probe account for every
    successful request once: the first is the line of the tight class,
    the second that of the relaxed class, and the numbers of requests
    they report add up to the number of rows of the CSV with [ok]
    set. *)
Theorem sac_summary_partition (cluster : Config.ClusterConfig) (init : nat -> Transport)
    (t0 : Q) (steps : list Step) (files : Files) :
  run_sac slo cluster init t0 steps = (Ok tt, files) ->
  exists s1 s2 records,
    files = {| txt := Some [s1; s2]; csv := Some records |}
    /\ summary_class s1 = "tight" /\ summary_class s2 = "relaxed"
    /\ (summary_count s1 + summary_count s2)%nat
       = length (filter (fun r => ok r <> 0%Z) records).
Proof.
  unfold run_sac.
  destruct (Config.primary cluster) as [primary|]; [|discriminate].
  destruct (populate _ _ _ _); [|discriminate].
  destruct (loop _ _ _ _) as [rs|] eqn:Hloop; [|discriminate].
  destruct (class_summary _ "tight") as [s1|] eqn:H1; [|discriminate].
  destruct (class_summary _ "relaxed") as [s2|] eqn:H2; [|discriminate].
  intros [= <-].
  apply class_summary_count in H1 as [C1 N1], H2 as [C2 N2].
  exists s1, s2, (map snd rs). split_and!; try done.
  rewrite N1, N2. apply classes_partition. by eapply loop_classes.
Qed.

End SacMore.

Lemma sac_summary_partition_witness :
  exists s1 s2 records,
    (Sac.run_sac (H := stub_lib) Config.default_slo Config.DEFAULT_CLUSTER
       (fun _ => http_ok) 0 [down_sac_step; late_step]).2
    = {| Sac.txt := Some [s1; s2]; Sac.csv := Some records |}
    /\ summary_class s1 = "tight" /\ summary_class s2 = "relaxed"
    /\ (summary_count s1 + summary_count s2)%nat
       = length (filter (fun r => Sac.ok r <> 0%Z) records).
Proof.
  apply (sac_summary_partition (H := stub_lib) Config.default_slo Config.DEFAULT_CLUSTER
           (fun _ => http_ok) 0 [down_sac_step; late_step]).
  vm_compute. reflexivity.
Defined.

(** ** The random payload *)

Section RandomPayload.
Import Py PerfValue.

Lemma collect_choice {A : Type} (l : list A) (draws : nat -> nat) (idxs : list nat) :
  (forall i, draws i < length l)%nat ->
  exists xs,
    AntiEntropy.collect (fun i => choice l (draws i)) idxs = Ok xs
    /\ length xs = length idxs
    /\ Forall (fun x => x ∈ l) xs.
Proof.
  intros Hd. induction idxs as [|i idxs (xs & IH & Hlen & Hall)]; cbn.
  - exists []. by split_and!.
  - destruct (choice_in_range l (draws i) (Hd i)) as (x & -> & Hx). cbn.
    rewrite IH. cbn. exists (x :: xs). split_and!; [done|simpl; lia|].
    constructor; [by eapply list_elem_of_lookup_2|done].
Qed.

(** The random payload has exactly [size] bytes (none for a negative
    size), each an ASCII letter or digit. *)
Theorem rand_value_size (size : Z) (draws : nat -> nat) :
  (forall i, draws i < String.length alphabet)%nat ->
  exists bs,
    _rand_value size draws = Ok bs
    /\ length bs = Z.to_nat size
    /\ Forall (fun b => is_alnum b = true) bs.
Proof.
  intros Hd. unfold _rand_value.
  destruct (collect_choice (String.list_byte_of_string alphabet) draws
              (seq 0 (Z.to_nat size))) as (bs & -> & Hlen & Hall).
  { intros i. specialize (Hd i). exact Hd. }
  cbn. exists bs. split_and!; [done|by rewrite Hlen, length_seq|].
  eapply Forall_impl; [exact Hall|]. intros b Hb.
  assert (Hal : forallb is_alnum (String.list_byte_of_string alphabet) = true)
    by (vm_compute; reflexivity).
  rewrite forallb_forall in Hal. apply Hal. by apply list_elem_of_In.
Qed.

End RandomPayload.

Lemma rand_value_size_witness :
  exists bs,
    PerfValue._rand_value 256 (fun i => i mod 62) = Py.Ok bs
    /\ length bs = Z.to_nat 256
    /\ Forall (fun b => is_alnum b = true) bs.
Proof.
  apply (rand_value_size 256 (fun i => i mod 62)).
  intros i. change (String.length PerfValue.alphabet) with 62%nat.
  apply Nat.mod_upper_bound. discriminate.
Defined.

(** ** The figures *)

Section Figures.
Import Py.

Lemma foldl_min_spec (x : Z) (l : list Z) :
  foldl Z.min x l ∈ x :: l /\ Forall (fun y => (foldl Z.min x l <= y)%Z) (x :: l).
Proof.
  revert x. induction l as [|y l IH]; intros x; simpl.
  - split; [by left|by constructor].
  - destruct (IH (Z.min x y)) as [Hin Hall].
    apply Forall_cons in Hall as [Hm Hall]. split.
    + apply elem_of_cons in Hin as [Hin|Hin]; [|by do 2 right].
      rewrite Hin. destruct (Z.min_spec x y) as [[_ ->]|[_ ->]]; [by left|right; by left].
    + constructor; [lia|]. constructor; [lia|done].
Qed.

(** The chaos figure never fails on its data: it shows exactly the rows
    with [ok = 1], at times counted from the earliest of them, so that
    no point lies before zero and, when there is a point at all, one
    lies at zero. *)
Theorem chaos_points_relative (rows : list Chaos.ChaosRecord) :
  exists pts,
    PlotData.chaos_points rows = Ok pts
    /\ map PlotData.latency_ms pts = map Chaos.latency_ms (chaos_successes rows)
    /\ Forall (fun p => (0 <= PlotData.t_rel_s p)%Q) pts
    /\ (pts = [] \/ Exists (fun p => (PlotData.t_rel_s p == 0)%Q) pts).
Proof.
  unfold PlotData.chaos_points, chaos_successes.
  destruct (filter _ rows) as [|r0 data] eqn:Ef.
  - exists []. split_and!; [done|done|constructor|by left].
  - change (map Chaos.t_start_ms (r0 :: data))
      with (Chaos.t_start_ms r0 :: map Chaos.t_start_ms data).
    cbn [min_of mbind exc_bind bind].
    set (t0 := foldl Z.min (Chaos.t_start_ms r0) (map Chaos.t_start_ms data)).
    destruct (foldl_min_spec (Chaos.t_start_ms r0) (map Chaos.t_start_ms data))
      as [Hin Hall]. fold t0 in Hin, Hall.
    change (Chaos.t_start_ms r0 :: map Chaos.t_start_ms data)
      with (map Chaos.t_start_ms (r0 :: data)) in Hin, Hall.
    eexists. split; [reflexivity|]. split_and!.
    + generalize (r0 :: data). intros l.
      induction l as [|r l IH]; simpl; [done|by f_equal].
    + apply Forall_fmap. rewrite Forall_fmap in Hall.
      eapply Forall_impl; [exact Hall|]. intros r Hr. cbn in *.
      apply Qle_shift_div_l; [done|]. rewrite Qmult_0_l.
      change 0%Q with (inject_Z 0). rewrite <- Zle_Qle. lia.
    + right. apply list_elem_of_fmap in Hin as (r & Hr & Hin).
      apply Exists_exists. eexists. split.
      * apply list_elem_of_fmap. exists r. split; [reflexivity|exact Hin].
      * cbn. rewrite <- Hr, Z.sub_diag. reflexivity.
Qed.

(** The latency CDF of the bench script: no curve without a successful
    sample; with exactly one successful sample the script stops on the
    division by [n - 1 = 0]; with two or more the curve has one point
    for each, the latencies in ascending order against heights that
    start at 0, never decrease and end at 1. *)
Theorem latency_cdf (rows : list PlotLatencies.Row) :
  match PlotLatencies.main rows with
  | PlotLatencies.NoSuccessfulSamples => successes rows = []
  | PlotLatencies.ZeroDivisionError => length (successes rows) = 1%nat
  | PlotLatencies.Plotted xs cdf_y =>
      (2 <= length (successes rows))%nat
      /\ xs = sorted (map PlotLatencies.latency_ms (successes rows))
      /\ length cdf_y = length xs
      /\ (exists y0 y1, head cdf_y = Some y0 /\ last cdf_y = Some y1
                        /\ (y0 == 0)%Q /\ (y1 == 1)%Q)
      /\ (forall i j a b, (i <= j)%nat -> cdf_y !! i = Some a -> cdf_y !! j = Some b ->
            (a <= b)%Q)
  end.
Proof.
  unfold PlotLatencies.main, successes.
  destruct (filter _ rows) as [|r0 rs] eqn:Ef; [done|].
  cbn [map]. set (xs := sorted _).
  assert (Hn : length xs = S (length rs)).
  { unfold xs. rewrite sorted_length. simpl. by rewrite length_map. }
  destruct (Z.eqb_spec (Z.of_nat (length xs) - 1) 0) as [E|E].
  - simpl. lia.
  - set (m := inject_Z (Z.of_nat (length xs) - 1)).
    assert (Hm : (0 < m)%Q).
    { unfold m. change 0%Q with (inject_Z 0). rewrite <- Zlt_Qlt. lia. }
    split_and!.
    + simpl. lia.
    + done.
    + by rewrite length_map, length_seq.
    + exists (inject_Z (Z.of_nat 0) / m)%Q, (inject_Z (Z.of_nat (length rs)) / m)%Q.
      split_and!.
      * rewrite Hn. reflexivity.
      * rewrite Hn, seq_S, map_app. simpl. by rewrite last_snoc.
      * simpl. unfold Qdiv. by rewrite Qmult_0_l.
      * unfold m. rewrite Hn.
        replace (Z.of_nat (S (length rs)) - 1)%Z with (Z.of_nat (length rs)) by lia.
        apply Qmult_inv_r. intros Hz.
        unfold m in Hm. rewrite Hn in Hm.
        replace (Z.of_nat (S (length rs)) - 1)%Z with (Z.of_nat (length rs)) in Hm by lia.
        rewrite Hz in Hm. by apply Qlt_irrefl in Hm.
    + intros i j a b Hij Ha Hb.
      rewrite list_lookup_fmap in Ha, Hb.
      destruct (seq 0 (length xs) !! i) as [i'|] eqn:Ei; [|discriminate].
      destruct (seq 0 (length xs) !! j) as [j'|] eqn:Ej; [|discriminate].
      apply lookup_seq in Ei as [-> _], Ej as [-> _]. simpl in Ha, Hb.
      injection Ha as <-. injection Hb as <-.
      apply Qle_shift_div_l; [done|].
      unfold Qdiv. rewrite <- Qmult_assoc, (Qmult_comm (/ m)), Qmult_inv_r, Qmult_1_r.
      * rewrite <- Zle_Qle. lia.
      * intros Hz. rewrite Hz in Hm. by apply Qlt_irrefl in Hm.
Qed.

End Figures.

(** ** The staleness figure against the text summary *)

Section StalenessFigure.
Import Py Client Staleness PlotData.

Lemma append_to_fresh acc d v :
  d ∉ map fst acc -> append_to acc d v = acc ++ [(d, [v])].
Proof.
  induction acc as [|[d' vals] acc IH]; simpl; [done|].
  intros Hd. apply not_elem_of_cons in Hd as [Hne Hd].
  destruct (Z.eqb_spec d' d) as [->|_]; [done|]. by rewrite IH.
Qed.

Lemma append_to_last acc d vals v :
  d ∉ map fst acc -> append_to (acc ++ [(d, vals)]) d v = acc ++ [(d, vals ++ [v])].
Proof.
  induction acc as [|[d' vals'] acc IH]; simpl.
  - intros _. by rewrite Z.eqb_refl.
  - intros Hd. apply not_elem_of_cons in Hd as [Hne Hd].
    destruct (Z.eqb_spec d' d) as [->|_]; [done|]. by rewrite IH.
Qed.

Lemma group_same acc d vals rows :
  d ∉ map fst acc -> Forall (fun r => delay_ms r = d) rows ->
  foldl (fun by_delay r => append_to by_delay (delay_ms r) (is_stale r))
        (acc ++ [(d, vals)]) rows
  = acc ++ [(d, vals ++ map is_stale rows)].
Proof.
  intros Hd Hall. revert vals.
  induction Hall as [|r rows Hr Hall IH]; intros vals; simpl.
  - by rewrite app_nil_r.
  - rewrite Hr, append_to_last by done. rewrite IH. by rewrite <- app_assoc.
Qed.

Lemma group_chunk acc d rows :
  d ∉ map fst acc -> rows <> [] -> Forall (fun r => delay_ms r = d) rows ->
  foldl (fun by_delay r => append_to by_delay (delay_ms r) (is_stale r)) acc rows
  = acc ++ [(d, map is_stale rows)].
Proof.
  intros Hd Hne Hall. destruct Hall as [|r rows Hr Hall]; [done|]. simpl.
  rewrite Hr, append_to_fresh by done. by rewrite group_same.
Qed.

Lemma group_chunks acc delays chunks :
  NoDup (map fst acc ++ delays) ->
  Forall2 (fun d chunk => chunk <> [] /\ Forall (fun r => delay_ms r = d) chunk)
    delays chunks ->
  foldl (fun by_delay r => append_to by_delay (delay_ms r) (is_stale r)) acc
        (concat chunks)
  = acc ++ zip_with (fun d chunk => (d, map is_stale chunk)) delays chunks.
Proof.
  intros Hnd Hall. revert acc Hnd.
  induction Hall as [|d chunk delays chunks [Hne Hd] Hall IH]; intros acc Hnd; simpl.
  - by rewrite app_nil_r.
  - rewrite foldl_app. rewrite (group_chunk acc d chunk); [|..|done|done].
    + rewrite IH; [by rewrite <- app_assoc|].
      rewrite map_app. simpl. by rewrite <- app_assoc.
    + apply NoDup_app in Hnd as (_ & Hdisj & _). intros Hin.
      apply (Hdisj _ Hin). by left.
Qed.

Lemma insert_item_perm it l : insert_item it l ≡ₚ it :: l.
Proof.
  induction l as [|it' l IH]; simpl; [done|].
  destruct (it'.1 <? it.1)%Z; [|done].
  rewrite IH. apply Permutation_swap.
Qed.

Lemma sorted_items_perm l : sorted_items l ≡ₚ l.
Proof.
  induction l as [|x l IH]; simpl; [done|].
  unfold sorted_items in *. simpl. by rewrite insert_item_perm, IH.
Qed.

Lemma insert_item_sorted it l :
  StronglySorted (fun a b => (a.1 <= b.1)%Z) l ->
  StronglySorted (fun a b => (a.1 <= b.1)%Z) (insert_item it l).
Proof.
  induction 1 as [|it' l Hs IH Hall]; simpl.
  - repeat constructor.
  - destruct (Z.ltb_spec it'.1 it.1) as [E|E].
    + constructor; [exact IH|].
      rewrite insert_item_perm. constructor; [simpl; lia|exact Hall].
    + constructor; [by constructor|].
      constructor; [exact E|].
      eapply Forall_impl; [exact Hall|]. intros z Hz. simpl in *. lia.
Qed.

Lemma sorted_items_sorted l :
  StronglySorted (fun a b => (a.1 <= b.1)%Z) (sorted_items l).
Proof.
  induction l as [|x l IH]; [constructor|].
  unfold sorted_items in *. simpl. by apply insert_item_sorted.
Qed.

Lemma points_map (items : list (Z * list Z)) :
  Forall (fun it => it.2 <> []) items ->
  flat_map (fun '(d, vals) =>
              match vals with
              | [] => []
              | _ :: _ => [(d, (inject_Z (sum vals) / inject_Z (Z.of_nat (length vals)))%Q)]
              end) items
  = map point_of items.
Proof.
  induction 1 as [|[d vals] items Hne Hall IH]; simpl; [done|].
  rewrite IH. destruct vals; [done|]. done.
Qed.

Lemma foldl_add (a : Z) (l : list Z) :
  foldl Z.add a l = (a + foldl Z.add 0 l)%Z.
Proof.
  revert a. induction l as [|x l IH]; intros a; simpl; [lia|].
  rewrite (IH (a + x)%Z), (IH (0 + x)%Z). lia.
Qed.

Lemma sum_stale (chunk : list TrialRecord) :
  Forall (fun r => is_stale r = 0%Z \/ is_stale r = 1%Z) chunk ->
  sum (map is_stale chunk) = stale_count_of chunk.
Proof.
  unfold sum. induction 1 as [|r chunk Hr Hall IH]; [done|].
  simpl. rewrite foldl_add, IH, stale_count_of_cons.
  case_bool_decide; lia.
Qed.

Lemma shaped_items (trials : Z) delays chunks lines :
  (0 < trials)%Z ->
  Forall (fun chunk => length chunk = Z.to_nat trials) chunks ->
  Forall3 chunk_in_shape delays chunks lines ->
  let items := zip_with (fun d chunk => (d, map is_stale chunk)) delays chunks in
  map fst items = delays
  /\ length lines = length items
  /\ Forall (fun it => it.2 <> []) items
  /\ Forall2 (fun d chunk => chunk <> [] /\ Forall (fun r => delay_ms r = d) chunk)
       delays chunks
  /\ Forall (fun line => line_point line ∈ map point_of items) lines.
Proof.
  intros Ht Hlens Hshape. cbn zeta.
  induction Hshape as [|d chunk line delays chunks lines [Hall ->] Hshape IH]; simpl.
  - split_and!; by constructor.
  - apply Forall_cons in Hlens as [Hlen Hlens].
    destruct (IH Hlens) as (IH1 & IH2 & IH3 & IH4 & IH5).
    assert (Hne : chunk <> []).
    { intros ->. simpl in Hlen. lia. }
    split_and!.
    + by rewrite IH1.
    + by rewrite IH2.
    + constructor; [|done]. simpl. by destruct chunk.
    + constructor; [|done]. split; [done|].
      eapply Forall_impl; [exact Hall|]. by intros r [? _].
    + constructor.
      * apply elem_of_cons. left. unfold line_point, point_of. cbn. rewrite length_map.
        rewrite sum_stale by (eapply Forall_impl; [exact Hall|]; by intros r [_ ?]).
        replace (Z.max (Z.of_nat (length chunk)) 1) with (Z.of_nat (length chunk)) by lia.
        done.
      * eapply Forall_impl; [exact IH5|]. intros l Hl. by right.
Qed.

Context `{Lib}.

(** The staleness figure shows what the text summary says: on the CSV
    of a completed run with distinct delays and at least one trial per
    delay, the figure has one point for every line of the summary, at
    the line's delay and with the line's stale fraction, in ascending
    order of the delays. *)
Theorem staleness_figure_agrees (cfg : Config.ExperimentConfig)
    (clients : Dict.t Config.NodeConfig) (token : string) (env : nat -> nat -> Trial)
    (files : Files) :
  (0 < Config.trials_per_delay (Config.staleness cfg))%Z ->
  NoDup (Config.delays_ms (Config.staleness cfg)) ->
  run_staleness cfg clients token env = (Ok tt, files) ->
  exists lines records,
    files = {| txt := Some lines; csv := Some records |}
    /\ length (staleness_points records) = length lines
    /\ Forall (fun line => line_point line ∈ staleness_points records) lines
    /\ StronglySorted Z.le (map fst (staleness_points records))
    /\ NoDup (map fst (staleness_points records)).
Proof.
  intros Ht Hnd. unfold run_staleness.
  destruct (Config.primary _) as [primary|]; [|discriminate].
  destruct (Dict.lookup _ _); [|discriminate].
  destruct (delays_loop _ _ _ _ _ _ _ _ _) as [lines [records|e]] eqn:Hl; [|discriminate].
  intros [= <-].
  apply delays_loop_shape in Hl as (chunks & new_lines & -> & -> & Hlens & Hshape).
  exists new_lines, (concat chunks). split; [done|]. simpl.
  destruct (shaped_items _ _ _ _ Ht Hlens Hshape) as (H1 & H2 & H3 & H4 & H5).
  set (items := zip_with (fun d chunk => (d, map is_stale chunk))
                  (Config.delays_ms (Config.staleness cfg)) chunks) in *.
  assert (Hg : group (concat chunks) = items).
  { unfold group. rewrite group_chunks with (delays := Config.delays_ms (Config.staleness cfg));
      [done|done|done]. }
  assert (Hp : staleness_points (concat chunks) = map point_of (sorted_items items)).
  { unfold staleness_points. rewrite Hg. apply points_map.
    rewrite sorted_items_perm. exact H3. }
  rewrite Hp.
  assert (Hfst : map fst (map point_of (sorted_items items)) = map fst (sorted_items items)).
  { rewrite map_map. done. }
  split_and!.
  - rewrite length_map, sorted_items_perm. done.
  - eapply Forall_impl; [exact H5|]. intros line Hline.
    apply list_elem_of_fmap in Hline as (it & -> & Hit).
    apply list_elem_of_fmap. exists it. split; [done|]. by rewrite sorted_items_perm.
  - rewrite Hfst.
    apply (StronglySorted_fmap fst (fun a b => (a.1 <= b.1)%Z) Z.le); [done|].
    apply sorted_items_sorted.
  - rewrite Hfst. rewrite sorted_items_perm, H1. exact Hnd.
Qed.

End StalenessFigure.

Lemma staleness_figure_agrees_witness :
  exists lines records,
    (@Staleness.run_staleness stub_lib (two_delays_config 2)
       (build_cluster_clients Config.DEFAULT_CLUSTER) "0a1b2c3d" two_delays_env).2
    = {| Staleness.txt := Some lines; Staleness.csv := Some records |}
    /\ length (PlotData.staleness_points records) = length lines
    /\ Forall (fun line => line_point line ∈ PlotData.staleness_points records) lines
    /\ StronglySorted Z.le (map fst (PlotData.staleness_points records))
    /\ NoDup (map fst (PlotData.staleness_points records)).
Proof.
  apply (@staleness_figure_agrees stub_lib (two_delays_config 2)
           (build_cluster_clients Config.DEFAULT_CLUSTER) "0a1b2c3d" two_delays_env).
  - simpl. lia.
  - simpl. apply NoDup_cons. split.
    + intros Hin. apply list_elem_of_singleton in Hin. discriminate.
    + apply NoDup_singleton.
  - reflexivity.
Defined.

(** ** The convergence run *)

Section ConvergenceRun.
Import Py Client AntiEntropy.
Context `{Lib}.




End ConvergenceRun.

